(** * go-api-template: a shallow embedding of the checked behaviour

    The development follows the layering of the repository:

    - [Fmt], [GoInt]  the fragment of Go's [fmt], [strconv] and [int]
                      arithmetic the code relies on;
    - [Errors]        package [pkg/errors], a wrapper around
                      cockroachdb/errors (module [Errors.Lib]);
    - [CryptoSha1], [Security]
                      SHA-1 and package [security];
    - [Cache]         package [pkg/cache]: the facade and its [Remember];
    - [Model], [Gorm], [Database], [Repository], [Logger], [Service]
                      the Demo resource from the row to the business layer;
    - [Web], [Controller], [Middleware]
                      the response envelope, the Demo handlers and CORS;
    - [Spec], [Samples]
                      predicates used in statements and sample states.

    Go values are modelled as the code has them: [int] and [uint] as [Z]
    with the wrap-around written out where the code computes, [string]
    as [string] (a sequence of bytes), the [error] interface as
    [option Error] with [None] for [nil], header maps as
    [gmap string string], and every method that touches the database,
    the cache or the response as a function that takes the state and
    returns the new one.  A pointer argument the callee writes through
    ([dest], [demo]) is returned next to the result. *)

From Stdlib Require Import ZArith Lia Ascii String DecimalString.
From stdpp Require Import base option list gmap strings.

Open Scope string_scope.
Open Scope list_scope.
Open Scope Z_scope.

(* ================================================================== *)
(** * Definitions *)
(* ================================================================== *)

(** ** Formatting helpers of the Go standard library *)

Module Fmt.

(** [strconv.Itoa] and the [%d] verb: a signed decimal numeral. *)
Definition itoa (z : Z) : string := NilZero.string_of_int (Z.to_int z).

(** The operands of a variadic [args ...interface{}]. *)
Inductive Arg : Type :=
  | AInt (z : Z)
  | AStr (s : string).

Definition show (a : Arg) : string :=
  match a with
  | AInt z => itoa z
  | AStr s => s
  end.

Definition type_name (a : Arg) : string :=
  match a with
  | AInt _ => "int"
  | AStr _ => "string"
  end.

(** What [Sprintf] prints for one verb and its operand.  A verb applied
    to an operand of the wrong type prints Go's bad-verb marker. *)
Definition verb (v : ascii) (a : Arg) : string :=
  match v, a with
  | "d"%char, AInt z => itoa z
  | "s"%char, AStr s => s
  | "v"%char, _ => show a
  | _, _ => "%!" +:+ String v ("(" +:+ type_name a +:+ "=" +:+ show a +:+ ")")
  end.

(** The marker [Sprintf] appends for operands no verb used. *)
Fixpoint extra (args : list Arg) : string :=
  match args with
  | [] => ""
  | [a] => type_name a +:+ "=" +:+ show a
  | a :: args' => type_name a +:+ "=" +:+ show a +:+ ", " +:+ extra args'
  end.

Definition trailer (args : list Arg) : string :=
  match args with
  | [] => ""
  | _ => "%!(EXTRA " +:+ extra args +:+ ")"
  end.

(** [fmt.Sprintf] for the verbs [%d], [%s], [%v] and [%%], without
    flags or widths (the repository uses no other).  A verb with no
    operand left prints the [MISSING] marker, operands left over print
    the [EXTRA] marker, and any other verb is printed as Go prints a
    verb it does not know for the operand. *)
Fixpoint Sprintf (format : string) (args : list Arg) : string :=
  match format with
  | EmptyString => trailer args
  | String "%"%char EmptyString => "%!(NOVERB)" +:+ trailer args
  | String "%"%char (String "%"%char rest) => String "%"%char (Sprintf rest args)
  | String "%"%char (String v rest) =>
      match args with
      | [] => "%!" +:+ String v "(MISSING)" +:+ Sprintf rest []
      | a :: args' => verb v a +:+ Sprintf rest args'
      end
  | String c rest => String c (Sprintf rest args)
  end.

(** [strconv.ParseUint(s, 10, bitSize)]: a non-empty run of decimal
    digits whose value fits in [bitSize] bits; no sign, no blanks. *)
Definition digit (c : ascii) : option Z :=
  let n := Z.of_N (N_of_ascii c) in
  if (48 <=? n) && (n <=? 57) then Some (n - 48) else None.

Fixpoint parse_digits (acc : Z) (s : string) : option Z :=
  match s with
  | EmptyString => Some acc
  | String c rest =>
      match digit c with
      | Some d => parse_digits (10 * acc + d) rest
      | None => None
      end
  end.

Definition ParseUint (s : string) (bitSize : Z) : option Z :=
  match s with
  | EmptyString => None
  | _ =>
      match parse_digits 0 s with
      | Some n => if n <? 2 ^ bitSize then Some n else None
      | None => None
      end
  end.

End Fmt.

(** ** Package [errors] (wrapper around cockroachdb/errors) *)

Module Errors.

(** An error value is a chain of wrappers above a leaf.  Leaves made by
    this repository ([errors.New]) are told apart by their message, as
    the library's [Is] does for values that are not the same object;
    leaves raised by other packages (the ORM, a driver, a cache store,
    the JSON binder) carry the name of the package that owns them. *)
Inductive Error : Type :=
  | Leaf (msg : string)
  | Foreign (pkg msg : string)
  | WithStackE (cause : Error)
  | WithPrefixE (cause : Error) (prefix : string)
  | WithHintE (cause : Error) (hint : string)
  | WithDetailE (cause : Error) (detail : string).

#[global] Instance Error_eq_dec : EqDecision Error.
Proof. solve_decision. Defined.

(** The Go interface value [error]; [None] is [nil]. *)
Abbreviation error := (option Error).

(** *** The library underneath *)
Module Lib.

Definition New (msg : string) : Error := WithStackE (Leaf msg).

Definition WithStack (err : Error) : Error := WithStackE err.

Definition WithMessage (err : Error) (msg : string) : Error :=
  WithPrefixE err msg.

(** [Wrap] adds the prefix only when the message is not empty, then
    the stack. *)
Definition Wrap (err : Error) (msg : string) : Error :=
  WithStackE (if String.eqb msg "" then err else WithPrefixE err msg).

Definition Wrapf (err : Error) (format : string) (args : list Fmt.Arg) : Error :=
  WithStackE
    (if String.eqb format "" && bool_decide (args = [])
     then err
     else WithPrefixE err (Fmt.Sprintf format args)).

Definition UnwrapOnce (err : Error) : error :=
  match err with
  | Leaf _ | Foreign _ _ => None
  | WithStackE c | WithPrefixE c _ | WithHintE c _ | WithDetailE c _ => Some c
  end.

(** [err.Error()]: a prefix prints in front of its cause, the other
    wrappers are transparent. *)
Fixpoint message (err : Error) : string :=
  match err with
  | Leaf m | Foreign _ m => m
  | WithPrefixE c p =>
      if String.eqb p "" then message c else p +:+ ": " +:+ message c
  | WithStackE c | WithHintE c _ | WithDetailE c _ => message c
  end.

(** The loop of [Is]: some error of the chain is the reference. *)
Fixpoint chain_has (err reference : Error) : bool :=
  bool_decide (err = reference) ||
  match err with
  | Leaf _ | Foreign _ _ => false
  | WithStackE c | WithPrefixE c _ | WithHintE c _ | WithDetailE c _ =>
      chain_has c reference
  end.

Definition Is (err reference : error) : bool :=
  match reference with
  | None => bool_decide (err = None)
  | Some r =>
      match err with
      | None => false
      | Some e => chain_has e r
      end
  end.

Fixpoint UnwrapAll (err : Error) : Error :=
  match err with
  | Leaf _ | Foreign _ _ => err
  | WithStackE c | WithPrefixE c _ | WithHintE c _ | WithDetailE c _ => UnwrapAll c
  end.

Fixpoint GetAllHints (err : Error) : list string :=
  match err with
  | Leaf _ | Foreign _ _ => []
  | WithHintE c h => GetAllHints c ++ [h]
  | WithStackE c | WithPrefixE c _ | WithDetailE c _ => GetAllHints c
  end.

Fixpoint GetAllDetails (err : Error) : list string :=
  match err with
  | Leaf _ | Foreign _ _ => []
  | WithDetailE c d => GetAllDetails c ++ [d]
  | WithStackE c | WithPrefixE c _ | WithHintE c _ => GetAllDetails c
  end.

End Lib.

(** *** Business errors *)

Definition ErrInternal : Error := Lib.New "内部服务错误".
Definition ErrNotFound : Error := Lib.New "资源不存在".
Definition ErrUnauthorized : Error := Lib.New "未授权".
Definition ErrInvalidToken : Error := Lib.New "无效的 token".
Definition ErrTokenNotFound : Error := Lib.New "token 不存在或已过期".
Definition ErrTokenExpired : Error := Lib.New "token 已过期".
Definition ErrInvalidCheckSum : Error := Lib.New "签名错误".
Definition ErrInvalidTimestamp : Error := Lib.New "时间戳无效".
Definition ErrInvalidAppKey : Error := Lib.New "应用 KEY 无效".
Definition ErrAppNotFound : Error := Lib.New "应用不存在".
Definition ErrAppRevoked : Error := Lib.New "应用已注销".
Definition ErrAppExpired : Error := Lib.New "应用已过期".
Definition ErrMissingAuthParams : Error := Lib.New "缺少必要的鉴权参数".
Definition ErrDatabaseQuery : Error := Lib.New "数据库查询失败".
Definition ErrDatabaseUpdate : Error := Lib.New "数据库更新失败".
Definition ErrCacheGet : Error := Lib.New "缓存获取失败".
Definition ErrCacheSet : Error := Lib.New "缓存设置失败".
Definition ErrInvalidParams : Error := Lib.New "参数无效".
Definition ErrMissingParams : Error := Lib.New "缺少必要参数".

(** *** Wrapping functions *)

Definition New (msg : string) : error := Some (Lib.New msg).

Definition Newf (format : string) (args : list Fmt.Arg) : error :=
  Some (Lib.New (Fmt.Sprintf format args)).

Definition Wrap (err : error) (msg : string) : error :=
  match err with
  | None => None
  | Some e => Some (Lib.Wrap e msg)
  end.

Definition Wrapf (err : error) (format : string) (args : list Fmt.Arg) : error :=
  match err with
  | None => None
  | Some e => Some (Lib.Wrapf e format args)
  end.

Definition WithStack (err : error) : error :=
  match err with
  | None => None
  | Some e => Some (Lib.WithStack e)
  end.

Definition WithMessage (err : error) (msg : string) : error :=
  match err with
  | None => None
  | Some e => Some (Lib.WithMessage e msg)
  end.

Definition WithMessagef (err : error) (format : string) (args : list Fmt.Arg) : error :=
  match err with
  | None => None
  | Some e => Some (Lib.WithMessage e (Fmt.Sprintf format args))
  end.

(** *** Inspection *)

Definition Is (err target : error) : bool := Lib.Is err target.

(** *** Hints and details *)

Definition WithHint (err : error) (hint : string) : error :=
  match err with
  | None => None
  | Some e => Some (WithHintE e hint)
  end.

Definition WithHintf (err : error) (format : string) (args : list Fmt.Arg) : error :=
  match err with
  | None => None
  | Some e => Some (WithHintE e (Fmt.Sprintf format args))
  end.

Definition WithDetail (err : error) (detail : string) : error :=
  match err with
  | None => None
  | Some e => Some (WithDetailE e detail)
  end.

Definition WithDetailf (err : error) (format : string) (args : list Fmt.Arg) : error :=
  match err with
  | None => None
  | Some e => Some (WithDetailE e (Fmt.Sprintf format args))
  end.

(** *** Formatting and helpers *)

Definition GetMessage (err : error) : string :=
  match err with
  | None => ""
  | Some e => Lib.message e
  end.

Definition GetAllHints (err : error) : list string :=
  match err with
  | None => []
  | Some e => Lib.GetAllHints e
  end.

Definition GetAllDetails (err : error) : list string :=
  match err with
  | None => []
  | Some e => Lib.GetAllDetails e
  end.

Definition Cause (err : error) : error := Lib.UnwrapAll <$> err.

Definition Unwrap (err : error) : error := err ≫= Lib.UnwrapOnce.

End Errors.

Export Errors(Error, error).

(** ** Package [security] *)

(** [crypto/sha1] of the Go standard library, as FIPS 180-4 defines the
    function: words are 32-bit values held in [Z]. *)
Module CryptoSha1.

Definition mask32 (x : Z) : Z := Z.land x 0xFFFFFFFF.

Definition add32 (x y : Z) : Z := mask32 (x + y).

Definition rotl (n x : Z) : Z :=
  mask32 (Z.lor (Z.shiftl x n) (Z.shiftr x (32 - n))).

Definition not32 (x : Z) : Z := Z.lxor x 0xFFFFFFFF.

(** The bytes of a Go string. *)
Definition bytes_of_string (s : string) : list Z :=
  (fun a => Z.of_N (N_of_ascii a)) <$> list_ascii_of_string s.

(** The [n] low bytes of [x], most significant first. *)
Fixpoint be_bytes (n : nat) (x : Z) : list Z :=
  match n with
  | O => []
  | S n' => Z.land (Z.shiftr x (8 * Z.of_nat n')) 0xFF :: be_bytes n' x
  end.

Fixpoint be_word (bs : list Z) (acc : Z) : Z :=
  match bs with
  | [] => acc
  | b :: bs' => be_word bs' (Z.lor (Z.shiftl acc 8) b)
  end.

(** Padding: the bit 1, zeros up to 56 modulo 64, the length in bits. *)
Definition pad (msg : list Z) : list Z :=
  let l := Z.of_nat (length msg) in
  msg ++ [0x80] ++ replicate (Z.to_nat ((55 - l) mod 64)) 0 ++ be_bytes 8 (8 * l).

Fixpoint chunks (fuel : nat) (size : nat) (l : list Z) : list (list Z) :=
  match fuel, l with
  | O, _ | _, [] => []
  | S fuel', _ => take size l :: chunks fuel' size (drop size l)
  end.

Definition words_of_block (block : list Z) : list Z :=
  (fun bs => be_word bs 0) <$> chunks 16 4 block.

(** The message schedule, newest word first while it is extended. *)
Fixpoint extend (n : nat) (ws : list Z) : list Z :=
  match n with
  | O => ws
  | S n' =>
      let w := rotl 1 (Z.lxor (Z.lxor (nth 2 ws 0) (nth 7 ws 0))
                              (Z.lxor (nth 13 ws 0) (nth 15 ws 0))) in
      extend n' (w :: ws)
  end.

Definition schedule (block : list Z) : list Z :=
  rev (extend 64 (rev (words_of_block block))).

Record State : Type := mkState { h0 : Z; h1 : Z; h2 : Z; h3 : Z; h4 : Z }.

Definition init : State :=
  mkState 0x67452301 0xEFCDAB89 0x98BADCFE 0x10325476 0xC3D2E1F0.

Definition f_k (t : Z) (b c d : Z) : Z * Z :=
  if t <? 20 then (Z.lor (Z.land b c) (Z.land (not32 b) d), 0x5A827999)
  else if t <? 40 then (Z.lxor (Z.lxor b c) d, 0x6ED9EBA1)
  else if t <? 60 then
    (Z.lor (Z.lor (Z.land b c) (Z.land b d)) (Z.land c d), 0x8F1BBCDC)
  else (Z.lxor (Z.lxor b c) d, 0xCA62C1D6).

Definition round (t : Z) (w : Z) (s : State) : State :=
  let '(f, k) := f_k t (h1 s) (h2 s) (h3 s) in
  let temp := add32 (add32 (add32 (add32 (rotl 5 (h0 s)) f) (h4 s)) k) w in
  mkState temp (h0 s) (rotl 30 (h1 s)) (h2 s) (h3 s).

Fixpoint rounds (t : Z) (ws : list Z) (s : State) : State :=
  match ws with
  | [] => s
  | w :: ws' => rounds (t + 1) ws' (round t w s)
  end.

Definition compress (s : State) (block : list Z) : State :=
  let r := rounds 0 (schedule block) s in
  mkState (add32 (h0 s) (h0 r)) (add32 (h1 s) (h1 r)) (add32 (h2 s) (h2 r))
          (add32 (h3 s) (h3 r)) (add32 (h4 s) (h4 r)).

(** [h.Write(data); h.Sum(nil)]: the 20 bytes of the digest. *)
Definition Sum (data : list Z) : list Z :=
  let padded := pad data in
  let s := fold_left compress (chunks (length padded) 64 padded) init in
  be_bytes 4 (h0 s) ++ be_bytes 4 (h1 s) ++ be_bytes 4 (h2 s) ++
  be_bytes 4 (h3 s) ++ be_bytes 4 (h4 s).

End CryptoSha1.

Module Security.

(** The [%x] verb on a byte slice: two lower-case digits for each byte. *)
Definition hex_digit (n : Z) : ascii :=
  match String.get (Z.to_nat n) "0123456789abcdef" with
  | Some c => c
  | None => "0"%char
  end.

Fixpoint hex (bs : list Z) : string :=
  match bs with
  | [] => ""
  | b :: bs' => String (hex_digit (b / 16)) (String (hex_digit (b mod 16)) (hex bs'))
  end.

Definition Sha1 (data : string) : string :=
  hex (CryptoSha1.Sum (CryptoSha1.bytes_of_string data)).

(** checksum = SHA1(secret + nonce + timestamp) *)
Definition ValidateCheckSum (checksum timestamp nonce secret : string) : bool :=
  let calculatedSum := Sha1 (secret +:+ nonce +:+ timestamp) in
  String.eqb calculatedSum checksum.

(** A string of lower-case hexadecimal digits. *)
Definition lower_hex_digit (c : ascii) : bool :=
  existsb (Ascii.eqb c) (list_ascii_of_string "0123456789abcdef").

Definition lower_hex (s : string) : bool :=
  forallb lower_hex_digit (list_ascii_of_string s).

End Security.

(** ** Package [cache] *)

Module Cache.

(** [time.Duration], a number of nanoseconds. *)
Abbreviation Duration := Z.

(** [cache.CacheInterface[string]] of the caching library, the manager a
    facade forwards to.  A backend is a state [M] and what each call
    answers and leaves behind; [Get] only reads. *)
Class CacheInterface (M : Type) : Type := {
  mgr_get : M -> string -> string * error;
  mgr_set : M -> string -> string -> Duration -> M * error;
  mgr_delete : M -> string -> M * error;
  mgr_clear : M -> M * error;
}.

(** What a facade method did, in order: the calls it forwarded to the
    manager, with the error each returned, and the runs of the callback,
    with what it returned. *)
Inductive Event : Type :=
  | EvGet (key : string)
  | EvSet (key value : string) (ttl : Duration) (err : error)
  | EvDelete (key : string) (err : error)
  | EvClear (err : error)
  | EvCallback (value : string) (err : error).

#[global] Instance Event_eq_dec : EqDecision Event.
Proof. solve_decision. Defined.

Definition is_callback (ev : Event) : bool :=
  match ev with
  | EvCallback _ _ => true
  | _ => false
  end.

Definition is_write (ev : Event) : bool :=
  match ev with
  | EvSet _ _ _ _ | EvDelete _ _ | EvClear _ => true
  | _ => false
  end.

(** The number of runs of the callback recorded in a trace. *)
Definition callbacks (tr : list Event) : nat := length (List.filter is_callback tr).

Section Facade.

Context {M E : Type} `{CacheInterface M}.

(** The state a method runs in: the manager behind the facade, the state
    [E] the caller's closure works on, and the trace so far. *)
Record World : Type := mkWorld {
  manager : M;
  env : E;
  trace : list Event;
}.

(** [func() (string, error)]: a closure over the caller's state. *)
Definition Callback : Type := E -> (string * error) * E.

Definition emit (ev : Event) (w : World) : World :=
  mkWorld (manager w) (env w) (trace w ++ [ev]).

Definition Get (key : string) (w : World) : (string * error) * World :=
  let '(value, err) := mgr_get (manager w) key in
  let w := emit (EvGet key) w in
  match err with
  | Some e => (("", Some e), w)
  | None => ((value, None), w)
  end.

Definition Set_ (key value : string) (ttl : Duration) (w : World) : error * World :=
  let '(m, err) := mgr_set (manager w) key value ttl in
  (err, emit (EvSet key value ttl err) (mkWorld m (env w) (trace w))).

Definition Delete (key : string) (w : World) : error * World :=
  let '(m, err) := mgr_delete (manager w) key in
  (err, emit (EvDelete key err) (mkWorld m (env w) (trace w))).

Definition Has (key : string) (w : World) : bool * World :=
  let '(_, err) := mgr_get (manager w) key in
  (bool_decide (err = None), emit (EvGet key) w).

Definition Remember (key : string) (ttl : Duration) (callback : Callback)
    (w : World) : (string * error) * World :=
  let '((value, err), w) := Get key w in
  match err with
  | None => ((value, None), w)
  | Some _ =>
      let '((value, err), e) := callback (env w) in
      let w := emit (EvCallback value err) (mkWorld (manager w) e (trace w)) in
      match err with
      | Some e => (("", Some e), w)
      | None =>
          let '(_, w) := Set_ key value ttl w in
          ((value, None), w)
      end
  end.

Definition Clear (w : World) : error * World :=
  let '(m, err) := mgr_clear (manager w) in
  (err, emit (EvClear err) (mkWorld m (env w) (trace w))).

End Facade.

Arguments World : clear implicits.
Arguments Callback : clear implicits.

(** *** Two backends *)

(** The error a store answers for a key it does not hold. *)
Definition NotFound : Error := Errors.Foreign "store" "value not found in store".

(** An in-process store: a finite map from keys to the value and the
    expiration it was written with.  Time does not pass in this model, so
    no entry expires between two calls. *)
Definition memory_get (m : gmap string (string * Duration)) (key : string) : string * error :=
  match m !! key with
  | Some (value, _) => (value, None)
  | None => ("", Some NotFound)
  end.

#[global] Instance MemoryStore : CacheInterface (gmap string (string * Duration)) := {
  mgr_get := memory_get;
  mgr_set m key value ttl := (<[key := (value, ttl)]> m, None);
  mgr_delete m key := (delete key m, None);
  mgr_clear _ := (∅, None);
}.

(** A remote store that cannot be reached: every call fails and nothing
    is kept. *)
Inductive Unreachable : Type := unreachable.

Definition ConnRefused : Error := Errors.Foreign "redis" "dial tcp: connection refused".

#[global] Instance UnreachableStore : CacheInterface Unreachable := {
  mgr_get _ _ := ("", Some ConnRefused);
  mgr_set m _ _ _ := (m, Some ConnRefused);
  mgr_delete m _ := (m, Some ConnRefused);
  mgr_clear m := (m, Some ConnRefused);
}.

End Cache.

(** ** Go's [int] *)

Module GoInt.

(** A 64-bit two's-complement [int]: arithmetic wraps around. *)
Definition wrap (z : Z) : Z := (z + 2 ^ 63) mod 2 ^ 64 - 2 ^ 63.

Definition in_range (z : Z) : Prop := - 2 ^ 63 <= z < 2 ^ 63.

Definition sub (x y : Z) : Z := wrap (x - y).

Definition mul (x y : Z) : Z := wrap (x * y).

End GoInt.

(** ** Package [model] *)

Module Model.

(** [time.Time] is kept as a number of ticks; 0 is the zero time. *)
Record Demo : Type := mkDemo {
  ID : Z;
  Title : string;
  Content : string;
  Status : Z;
  CreatedAt : Z;
  UpdatedAt : Z;
}.

Definition TableName : string := "demos".

(** The zero value [model.Demo{}]. *)
Definition zero : Demo := mkDemo 0 "" "" 0 0 0.

End Model.

(** ** The ORM and the database behind it

    [gorm.DB] is a handle on a table; the methods the repository chains
    ([Where], [Offset], [Limit]) build a statement, and the finishers
    ([First], [Find], [Count], [Create], [Save], [Delete]) send it.  The
    table is a list of rows in insertion order.  Every statement sent is
    recorded, and while [fault] is set the driver fails every statement
    with that error. *)

Module Gorm.

Definition ErrRecordNotFound : Error := Errors.Foreign "gorm" "record not found".

Definition ErrDuplicateEntry : Error :=
  Errors.Foreign "mysql" "Error 1062 (23000): Duplicate entry for key 'PRIMARY'".

(** A failure of the driver or of the server: the package that raised it
    and its text.  The ORM and the drivers are built without this
    repository, so what they raise is never one of its own errors. *)
Record DriverError : Type := mkDriverError {
  origin : string;
  text : string;
}.

Definition raise (f : DriverError) : Error := Errors.Foreign (origin f) (text f).

(** What the ORM needs to know of a model type: its primary key and the
    time stamps it maintains. *)
Class Schema (T : Type) : Type := {
  primary_key : T -> Z;
  set_primary_key : Z -> T -> T;
  stamp_created : Z -> T -> T;
  stamp_updated : Z -> T -> T;
}.

#[global] Instance DemoSchema : Schema Model.Demo := {
  primary_key := Model.ID;
  set_primary_key id d :=
    Model.mkDemo id (Model.Title d) (Model.Content d) (Model.Status d)
                 (Model.CreatedAt d) (Model.UpdatedAt d);
  stamp_created now d :=
    Model.mkDemo (Model.ID d) (Model.Title d) (Model.Content d) (Model.Status d)
                 (if Model.CreatedAt d =? 0 then now else Model.CreatedAt d)
                 (if Model.UpdatedAt d =? 0 then now else Model.UpdatedAt d);
  stamp_updated now d :=
    Model.mkDemo (Model.ID d) (Model.Title d) (Model.Content d) (Model.Status d)
                 (Model.CreatedAt d) now;
}.

Section Handle.

Context {T : Type} `{Schema T}.

(** A condition of a [Where]: the query text and its arguments, read as
    a test on a row. *)
Definition Cond : Type := T -> bool.

(** The statements the database receives. *)
Inductive Statement : Type :=
  | SelectFirst (conds : list Cond)
  | Select (conds : list Cond) (offset limit : option Z)
  | SelectCount (conds : list Cond) (limit : option Z)
  | Insert (row : T)
  | Upsert (row : T)
  | DeleteFrom (conds : list Cond).

Record DB : Type := mkDB {
  rows : list T;
  auto_increment : Z;
  now : Z;
  fault : option DriverError;
  issued : list Statement;
}.

(** The statement a chain has built so far. *)
Record Chain : Type := mkChain {
  conds : list Cond;
  offset : option Z;
  limit : option Z;
}.

(** [db.WithContext(ctx)], [Model(dest)]: a fresh chain. *)
Definition Model_ : Chain := mkChain [] None None.

Definition Where (q : Cond) (c : Chain) : Chain :=
  mkChain (conds c ++ [q]) (offset c) (limit c).

Definition Offset (n : Z) (c : Chain) : Chain :=
  mkChain (conds c) (Some n) (limit c).

Definition Limit (n : Z) (c : Chain) : Chain :=
  mkChain (conds c) (offset c) (Some n).

Definition issue (s : Statement) (db : DB) : DB :=
  mkDB (rows db) (auto_increment db) (now db) (fault db) (issued db ++ [s]).

Definition matches (cs : list Cond) (r : T) : bool := forallb (fun q => q r) cs.

Definition matching (cs : list Cond) (db : DB) : list T :=
  List.filter (matches cs) (rows db).

(** [OFFSET n] is sent when [n > 0] and [LIMIT n] when [n >= 0]; a
    negative limit cancels the limit. *)
Definition apply_offset (o : option Z) (l : list T) : list T :=
  match o with
  | Some n => if 0 <? n then drop (Z.to_nat n) l else l
  | None => l
  end.

Definition apply_limit (o : option Z) (l : list T) : list T :=
  match o with
  | Some n => if 0 <=? n then take (Z.to_nat n) l else l
  | None => l
  end.

(** The row with the least primary key ([ORDER BY id LIMIT 1]). *)
Definition least (l : list T) : option T :=
  fold_left
    (fun acc r =>
       match acc with
       | None => Some r
       | Some a => if primary_key r <? primary_key a then Some r else Some a
       end)
    l None.

(** [First(dest)]: [dest] is filled with the first matching row;
    [ErrRecordNotFound] when no row matches. *)
Definition First (dest : T) (c : Chain) (db : DB) : (T * error) * DB :=
  let db' := issue (SelectFirst (conds c)) db in
  match fault db with
  | Some f => ((dest, Some (raise f)), db')
  | None =>
      match least (matching (conds c) db) with
      | Some r => ((r, None), db')
      | None => ((dest, Some ErrRecordNotFound), db')
      end
  end.

(** [Find(dest)]: all matching rows within the window; no row is not an
    error. *)
Definition Find (dest : list T) (c : Chain) (db : DB) : (list T * error) * DB :=
  let db' := issue (Select (conds c) (offset c) (limit c)) db in
  match fault db with
  | Some f => ((dest, Some (raise f)), db')
  | None =>
      ((apply_limit (limit c) (apply_offset (offset c) (matching (conds c) db)), None), db')
  end.

(** [Count(&n)]: the number of matching rows. *)
Definition Count (c : Chain) (db : DB) : (Z * error) * DB :=
  let db' := issue (SelectCount (conds c) (limit c)) db in
  match fault db with
  | Some f => ((0, Some (raise f)), db')
  | None => ((Z.of_nat (length (matching (conds c) db)), None), db')
  end.

(** [Create(value)]: a zero primary key takes the next auto-increment
    value, zero time stamps are set, and the value is updated with both. *)
Definition Create (value : T) (db : DB) : (T * error) * DB :=
  let db' := issue (Insert value) db in
  match fault db with
  | Some f => ((value, Some (raise f)), db')
  | None =>
      let id := if primary_key value =? 0 then auto_increment db else primary_key value in
      if existsb (fun r => primary_key r =? id) (rows db)
      then ((value, Some ErrDuplicateEntry), db')
      else
        let row := stamp_created (now db) (set_primary_key id value) in
        ((row, None),
         mkDB (rows db ++ [row]) (Z.max (auto_increment db) (id + 1)) (now db)
              (fault db) (issued db'))
  end.

(** [Save(value)]: with a zero primary key it is [Create]; otherwise all
    columns of the row are replaced, and a row that is not there is
    inserted. *)
Definition Save (value : T) (db : DB) : (T * error) * DB :=
  if primary_key value =? 0 then Create value db
  else
    let db' := issue (Upsert value) db in
    match fault db with
    | Some f => ((value, Some (raise f)), db')
    | None =>
        let row := stamp_updated (now db) value in
        let rows' : list T :=
          if existsb (fun r => primary_key r =? primary_key value) (rows db)
          then (fun r => if primary_key r =? primary_key value then row else r) <$> rows db
          else rows db ++ [row] in
        ((row, None),
         mkDB rows' (Z.max (auto_increment db) (primary_key value + 1)) (now db)
              (fault db) (issued db'))
    end.

(** [Delete(model, id)] and [Where(...).Delete(model)]: the matching rows
    go; none matching is not an error. *)
Definition Delete (c : Chain) (db : DB) : error * DB :=
  let db' := issue (DeleteFrom (conds c)) db in
  match fault db with
  | Some f => (Some (raise f), db')
  | None =>
      (None,
       mkDB (List.filter (fun r => negb (matches (conds c) r)) (rows db))
            (auto_increment db) (now db) (fault db) (issued db'))
  end.

End Handle.

Arguments DB : clear implicits.
Arguments Chain : clear implicits.
Arguments Statement : clear implicits.
Arguments Cond : clear implicits.

End Gorm.

(** ** Package [database]: the base repository *)

Module Database.

Section BaseRepository.

Context {T : Type} `{Gorm.Schema T}.

(** A query argument [query interface{}, args ...interface{}]; [None] is
    the [nil] query. *)
Definition Query : Type := option (Gorm.Cond T).

Definition by_id (id : Z) : Gorm.Cond T := fun r => Gorm.primary_key r =? id.

Definition FindByID (id : Z) (dest : T) (db : Gorm.DB T) : (T * error) * Gorm.DB T :=
  let '((dest, err), db) := Gorm.First dest (Gorm.Where (by_id id) Gorm.Model_) db in
  match err with
  | Some e =>
      if bool_decide (e = Gorm.ErrRecordNotFound)
      then ((dest, Some Errors.ErrNotFound), db)
      else ((dest, Errors.Wrap (Some e) "query by id failed"), db)
  | None => ((dest, None), db)
  end.

Definition FindOne (dest : T) (query : Gorm.Cond T) (db : Gorm.DB T) : (T * error) * Gorm.DB T :=
  let '((dest, err), db) := Gorm.First dest (Gorm.Where query Gorm.Model_) db in
  match err with
  | Some e =>
      if bool_decide (e = Gorm.ErrRecordNotFound)
      then ((dest, Some Errors.ErrNotFound), db)
      else ((dest, Errors.Wrap (Some e) "query one failed"), db)
  | None => ((dest, None), db)
  end.

Definition FindAll (dest : list T) (query : Gorm.Cond T) (db : Gorm.DB T)
    : (list T * error) * Gorm.DB T :=
  let '((dest, err), db) := Gorm.Find dest (Gorm.Where query Gorm.Model_) db in
  match err with
  | Some e => ((dest, Errors.Wrap (Some e) "query all failed"), db)
  | None => ((dest, None), db)
  end.

(** The chain [FindPage] and [Count] start from. *)
Definition scoped (query : Query) : Gorm.Chain T :=
  match query with
  | Some q => Gorm.Where q Gorm.Model_
  | None => Gorm.Model_
  end.

(** Returns [dest] as the call leaves it, the total and the error. *)
Definition FindPage (dest : list T) (page pageSize : Z) (query : Query)
    (db : Gorm.DB T) : (list T * (Z * error)) * Gorm.DB T :=
  let chain := scoped query in
  let '((total, err), db) := Gorm.Count chain db in
  match err with
  | Some e => ((dest, (0, Errors.Wrap (Some e) "count failed")), db)
  | None =>
      let offset := GoInt.mul (GoInt.sub page 1) pageSize in
      let '((dest, err), db) :=
        Gorm.Find dest (Gorm.Limit pageSize (Gorm.Offset offset chain)) db in
      match err with
      | Some e => ((dest, (0, Errors.Wrap (Some e) "query page failed")), db)
      | None => ((dest, (total, None)), db)
      end
  end.

Definition Count (query : Query) (db : Gorm.DB T) : (Z * error) * Gorm.DB T :=
  let '((count, err), db) := Gorm.Count (scoped query) db in
  match err with
  | Some e => ((0, Errors.Wrap (Some e) "count failed"), db)
  | None => ((count, None), db)
  end.

Definition Exists (query : Gorm.Cond T) (db : Gorm.DB T) : (bool * error) * Gorm.DB T :=
  let '((count, err), db) :=
    Gorm.Count (Gorm.Limit 1 (Gorm.Where query Gorm.Model_)) db in
  match err with
  | Some e => ((false, Errors.Wrap (Some e) "check exists failed"), db)
  | None => ((0 <? count, None), db)
  end.

Definition Create (value : T) (db : Gorm.DB T) : (T * error) * Gorm.DB T :=
  let '((value, err), db) := Gorm.Create value db in
  match err with
  | Some e => ((value, Errors.Wrap (Some e) "create failed"), db)
  | None => ((value, None), db)
  end.

Definition Update (value : T) (db : Gorm.DB T) : (T * error) * Gorm.DB T :=
  let '((value, err), db) := Gorm.Save value db in
  match err with
  | Some e => ((value, Errors.Wrap (Some e) "update failed"), db)
  | None => ((value, None), db)
  end.

Definition Delete (id : Z) (db : Gorm.DB T) : error * Gorm.DB T :=
  let '(err, db) := Gorm.Delete (Gorm.Where (by_id id) Gorm.Model_) db in
  match err with
  | Some e => (Errors.Wrap (Some e) "delete failed", db)
  | None => (None, db)
  end.

Definition DeleteWhere (query : Gorm.Cond T) (db : Gorm.DB T) : error * Gorm.DB T :=
  let '(err, db) := Gorm.Delete (Gorm.Where query Gorm.Model_) db in
  match err with
  | Some e => (Errors.Wrap (Some e) "delete where failed", db)
  | None => (None, db)
  end.

End BaseRepository.

Arguments Query : clear implicits.

End Database.

(** ** Package [repository]: the Demo repository *)

Module Repository.

Abbreviation DB := (Gorm.DB Model.Demo).

(** The query ["1 = 1"]. *)
Definition all : Gorm.Cond Model.Demo := fun _ => true.

(** A [*model.Demo] result: [None] is the [nil] pointer. *)
Definition FindByID (id : Z) (db : DB) : (option Model.Demo * error) * DB :=
  let '((demo, err), db) := Database.FindByID id Model.zero db in
  match err with
  | Some _ =>
      ((None, Errors.Wrapf err "demo not found, id: %d" [Fmt.AInt id]), db)
  | None => ((Some demo, None), db)
  end.

Definition FindAll (db : DB) : (list Model.Demo * error) * DB :=
  let '((demos, err), db) := Database.FindAll [] all db in
  match err with
  | Some _ => (([], err), db)
  | None => ((demos, None), db)
  end.

Definition Create (demo : Model.Demo) (db : DB) : (Model.Demo * error) * DB :=
  Database.Create demo db.

Definition Update (demo : Model.Demo) (db : DB) : (Model.Demo * error) * DB :=
  Database.Update demo db.

Definition Delete (id : Z) (db : DB) : error * DB :=
  Database.Delete id db.

Definition FindPage (page pageSize : Z) (db : DB) : (list Model.Demo * (Z * error)) * DB :=
  let '((demos, (total, err)), db) := Database.FindPage [] page pageSize (Some all) db in
  match err with
  | Some _ => (([], (0, err)), db)
  | None => ((demos, (total, None)), db)
  end.

End Repository.

(** ** Package [service]: the Demo business layer *)

Module Logger.

Inductive Field : Type :=
  | Uint (key : string) (value : Z)
  | String_ (key value : string)
  | Err (err : error).

Record Entry : Type := mkEntry {
  level : string;
  msg : string;
  fields : list Field;
}.

End Logger.

Module Service.

(** What the service works on: the database behind its repository and
    the process-wide log. *)
Record App : Type := mkApp {
  db : Repository.DB;
  logs : list Logger.Entry;
}.

Definition log (level msg : string) (fields : list Logger.Field) (a : App) : App :=
  mkApp (db a) (logs a ++ [Logger.mkEntry level msg fields]).

Definition GetByID (id : Z) (a : App) : (option Model.Demo * error) * App :=
  let '((demo, err), d) := Repository.FindByID id (db a) in
  let a := mkApp d (logs a) in
  match err with
  | Some _ =>
      ((None, err),
       log "error" "get demo by id failed" [Logger.Uint "id" id; Logger.Err err] a)
  | None => ((demo, None), a)
  end.

Definition GetAll (a : App) : (list Model.Demo * error) * App :=
  let '((demos, err), d) := Repository.FindAll (db a) in
  let a := mkApp d (logs a) in
  match err with
  | Some _ => (([], err), log "error" "get all demos failed" [Logger.Err err] a)
  | None => ((demos, None), a)
  end.

(** [demo] is a pointer in the source: the value the call leaves in it is
    returned with the error. *)
Definition Create (demo : Model.Demo) (a : App) : (Model.Demo * error) * App :=
  if String.eqb (Model.Title demo) "" then
    ((demo, Errors.New "title cannot be empty"), a)
  else
    let '((demo, err), d) := Repository.Create demo (db a) in
    let a := mkApp d (logs a) in
    match err with
    | Some _ =>
        ((demo, err),
         log "error" "create demo failed"
             [Logger.String_ "title" (Model.Title demo); Logger.Err err] a)
    | None =>
        ((demo, None),
         log "info" "demo created successfully"
             [Logger.Uint "id" (Model.ID demo);
              Logger.String_ "title" (Model.Title demo)] a)
    end.

(** [existing] is the record [FindByID] found; it is never [nil] when
    the error is [nil]. *)
Definition Update (id : Z) (demo : Model.Demo) (a : App) : error * App :=
  let '((existing, err), d) := Repository.FindByID id (db a) in
  let a := mkApp d (logs a) in
  match err with
  | Some _ => (err, a)
  | None =>
      let existing := default Model.zero existing in
      let existing :=
        Model.mkDemo (Model.ID existing) (Model.Title demo) (Model.Content demo)
                     (Model.Status demo) (Model.CreatedAt existing)
                     (Model.UpdatedAt existing) in
      let '((_, err), d) := Repository.Update existing (db a) in
      let a := mkApp d (logs a) in
      match err with
      | Some _ =>
          (err, log "error" "update demo failed" [Logger.Uint "id" id; Logger.Err err] a)
      | None => (None, log "info" "demo updated successfully" [Logger.Uint "id" id] a)
      end
  end.

Definition Delete (id : Z) (a : App) : error * App :=
  let '((_, err), d) := Repository.FindByID id (db a) in
  let a := mkApp d (logs a) in
  match err with
  | Some _ => (err, a)
  | None =>
      let '(err, d) := Repository.Delete id (db a) in
      let a := mkApp d (logs a) in
      match err with
      | Some _ =>
          (err, log "error" "delete demo failed" [Logger.Uint "id" id; Logger.Err err] a)
      | None => (None, log "info" "demo deleted successfully" [Logger.Uint "id" id] a)
      end
  end.

End Service.

(** ** Package [web]: the request context and the response envelope *)

Module Web.

(** The [Data] of an envelope: [nil], one record or a list of records. *)
Inductive Data : Type :=
  | Null
  | Demo (d : Model.Demo)
  | Demos (l : list Model.Demo).

Record Response : Type := mkResponse {
  Code : Z;
  Message : string;
  Data_ : Data;
}.

(** A request body as the JSON binder sees it: text that does not decode,
    with the decoder's error, or an object; a field the object leaves out
    has its zero value. *)
Inductive Body : Type :=
  | Malformed (err : Error)
  | Object (title content : string) (status : Z).

(** The per-request context of the framework.  Header names are in their
    canonical form, as the framework stores them.  [index] is the
    position in the handler chain; [Written] is the JSON body sent. *)
Record Context : Type := mkContext {
  Method : string;
  RequestHeader : gmap string string;
  Params : gmap string string;
  Body_ : Body;
  index : Z;
  Status : Z;
  ResponseHeader : gmap string string;
  Written : option Response;
}.

(** [math.MaxInt8 >> 1] *)
Definition abortIndex : Z := 63.

Definition set_index (i : Z) (c : Context) : Context :=
  mkContext (Method c) (RequestHeader c) (Params c) (Body_ c) i
            (Status c) (ResponseHeader c) (Written c).

Definition set_status (code : Z) (c : Context) : Context :=
  mkContext (Method c) (RequestHeader c) (Params c) (Body_ c) (index c)
            code (ResponseHeader c) (Written c).

Definition set_response_header (h : gmap string string) (c : Context) : Context :=
  mkContext (Method c) (RequestHeader c) (Params c) (Body_ c) (index c)
            (Status c) h (Written c).

Definition set_written (r : Response) (c : Context) : Context :=
  mkContext (Method c) (RequestHeader c) (Params c) (Body_ c) (index c)
            (Status c) (ResponseHeader c) (Some r).

(** [c.GetHeader(key)]: the empty string when the header is absent. *)
Definition GetHeader (key : string) (c : Context) : string :=
  default "" (RequestHeader c !! key).

Definition Param (key : string) (c : Context) : string :=
  default "" (Params c !! key).

(** [c.Header(key, value)]: an empty value removes the header. *)
Definition Header (key value : string) (c : Context) : Context :=
  if String.eqb value ""
  then set_response_header (delete key (ResponseHeader c)) c
  else set_response_header (<[key := value]> (ResponseHeader c)) c.

Definition IsAborted (c : Context) : bool := abortIndex <=? index c.

Definition AbortWithStatus (code : Z) (c : Context) : Context :=
  set_index abortIndex (set_status code c).

Definition bodyAllowedForStatus (code : Z) : bool :=
  negb (((100 <=? code) && (code <=? 199)) || (code =? 204) || (code =? 304)).

(** [c.JSON(code, obj)]: the status, the content type unless one is set,
    and the body when the status allows one. *)
Definition JSON (code : Z) (obj : Response) (c : Context) : Context :=
  let c := set_status code c in
  let c :=
    match ResponseHeader c !! "Content-Type" with
    | Some _ => c
    | None =>
        set_response_header
          (<["Content-Type" := "application/json; charset=utf-8"]> (ResponseHeader c)) c
    end in
  if bodyAllowedForStatus code then set_written obj c else c.

Definition StatusOK : Z := 200.
Definition StatusCreated : Z := 201.
Definition StatusNoContent : Z := 204.
Definition StatusBadRequest : Z := 400.
Definition StatusUnauthorized : Z := 401.
Definition StatusForbidden : Z := 403.
Definition StatusNotFound : Z := 404.
Definition StatusInternalServerError : Z := 500.

Definition Success (c : Context) (data : Data) : Context :=
  JSON StatusOK (mkResponse 200 "success" data) c.

Definition SuccessWithMessage (c : Context) (message : string) (data : Data) : Context :=
  JSON StatusOK (mkResponse 200 message data) c.

Definition Error_ (c : Context) (httpStatus code : Z) (message : string) : Context :=
  JSON httpStatus (mkResponse code message Null) c.

Definition BadRequest (c : Context) (message : string) : Context :=
  JSON StatusBadRequest (mkResponse 400 message Null) c.

Definition Unauthorized (c : Context) (message : string) : Context :=
  JSON StatusUnauthorized (mkResponse 401 message Null) c.

Definition Forbidden (c : Context) (message : string) : Context :=
  JSON StatusForbidden (mkResponse 403 message Null) c.

Definition NotFound (c : Context) (message : string) : Context :=
  JSON StatusNotFound (mkResponse 404 message Null) c.

Definition InternalError (c : Context) (message : string) : Context :=
  JSON StatusInternalServerError (mkResponse 500 message Null) c.

Definition Created (c : Context) (data : Data) : Context :=
  JSON StatusCreated (mkResponse 201 "创建成功" data) c.

Definition NoContent (c : Context) : Context := set_status StatusNoContent c.

(** *** The handler chain

    A handler runs on the context and on the state [S] the handlers share
    (for the Demo routes, the application).  [ctx.Next()] is the handler's
    first argument: the dispatcher binds it to the rest of the chain. *)

Section Chain.

Context {S : Type}.

Definition HandlerFunc : Type :=
  (Context * S -> Context * S) -> Context * S -> Context * S.

Definition advance (st : Context * S) : Context * S :=
  (set_index (index st.1 + 1) st.1, st.2).

(** The loop of [Next], [for c.index < len(handlers)], on the handlers
    from position [pos] on: the handler at [c.index] runs, then [c.index]
    moves on by one.  A handler that calls [ctx.Next()] moves [c.index]
    on by one and runs the same loop on what follows it. *)
Fixpoint run (handlers : list HandlerFunc) (pos : Z) (st : Context * S) : Context * S :=
  match handlers with
  | [] => st
  | h :: rest =>
      let st :=
        if index st.1 =? pos
        then advance (h (fun st0 => run rest (pos + 1) (advance st0)) st)
        else st in
      run rest (pos + 1) st
  end.

(** How the engine serves a request: [c.index] starts at -1, then
    [c.Next()]. *)
Definition serve (handlers : list HandlerFunc) (st : Context * S) : Context * S :=
  run handlers 0 (advance (set_index (-1) st.1, st.2)).

End Chain.

Arguments HandlerFunc : clear implicits.

End Web.

(** ** Package [controller]: the Demo handlers *)

Module Controller.

Record CreateRequest : Type := mkCreateRequest {
  Title : string;
  Content : string;
  Status : Z;
}.

(** The validator's error for a [binding:"required"] field left at its
    zero value. *)
Definition required_failed (type field : string) : Error :=
  Errors.Foreign "validator"
    ("Key: '" +:+ type +:+ "." +:+ field +:+ "' Error:Field validation for '" +:+
     field +:+ "' failed on the 'required' tag").

(** [ctx.ShouldBindJSON(&req)] for a request type whose [Title] is
    required. *)
Definition ShouldBindJSON (type : string) (c : Web.Context) : CreateRequest * error :=
  match Web.Body_ c with
  | Web.Malformed e => (mkCreateRequest "" "" 0, Some e)
  | Web.Object title content status =>
      let req := mkCreateRequest title content status in
      if String.eqb title "" then (req, Some (required_failed type "Title"))
      else (req, None)
  end.

Definition data_of (demo : option Model.Demo) : Web.Data :=
  match demo with
  | Some d => Web.Demo d
  | None => Web.Null
  end.

Definition GetByID (st : Web.Context * Service.App) : Web.Context * Service.App :=
  let '(ctx, app) := st in
  let idStr := Web.Param "id" ctx in
  match Fmt.ParseUint idStr 32 with
  | None => (Web.BadRequest ctx "invalid id", app)
  | Some id =>
      let '((demo, err), app) := Service.GetByID id app in
      match err with
      | Some _ =>
          if Errors.Is err (Some Errors.ErrNotFound)
          then (Web.NotFound ctx "demo not found", app)
          else (Web.InternalError ctx "get demo failed", app)
      | None => (Web.Success ctx (data_of demo), app)
      end
  end.

Definition GetAll (st : Web.Context * Service.App) : Web.Context * Service.App :=
  let '(ctx, app) := st in
  let '((demos, err), app) := Service.GetAll app in
  match err with
  | Some _ => (Web.InternalError ctx "get demos failed", app)
  | None => (Web.Success ctx (Web.Demos demos), app)
  end.

Definition Create (st : Web.Context * Service.App) : Web.Context * Service.App :=
  let '(ctx, app) := st in
  let '(req, err) := ShouldBindJSON "CreateRequest" ctx in
  match err with
  | Some _ =>
      (Web.BadRequest ctx ("invalid request: " +:+ Errors.GetMessage err), app)
  | None =>
      let demo := Model.mkDemo 0 (Title req) (Content req) (Status req) 0 0 in
      let '((demo, err), app) := Service.Create demo app in
      match err with
      | Some _ => (Web.InternalError ctx "create demo failed", app)
      | None =>
          (Web.SuccessWithMessage ctx "demo created successfully" (Web.Demo demo), app)
      end
  end.

Definition Update (st : Web.Context * Service.App) : Web.Context * Service.App :=
  let '(ctx, app) := st in
  let idStr := Web.Param "id" ctx in
  match Fmt.ParseUint idStr 32 with
  | None => (Web.BadRequest ctx "invalid id", app)
  | Some id =>
      let '(req, err) := ShouldBindJSON "UpdateRequest" ctx in
      match err with
      | Some _ =>
          (Web.BadRequest ctx ("invalid request: " +:+ Errors.GetMessage err), app)
      | None =>
          let demo := Model.mkDemo 0 (Title req) (Content req) (Status req) 0 0 in
          let '(err, app) := Service.Update id demo app in
          match err with
          | Some _ =>
              if Errors.Is err (Some Errors.ErrNotFound)
              then (Web.NotFound ctx "demo not found", app)
              else (Web.InternalError ctx "update demo failed", app)
          | None =>
              (Web.SuccessWithMessage ctx "demo updated successfully" Web.Null, app)
          end
      end
  end.

Definition Delete (st : Web.Context * Service.App) : Web.Context * Service.App :=
  let '(ctx, app) := st in
  let idStr := Web.Param "id" ctx in
  match Fmt.ParseUint idStr 32 with
  | None => (Web.BadRequest ctx "invalid id", app)
  | Some id =>
      let '(err, app) := Service.Delete id app in
      match err with
      | Some _ =>
          if Errors.Is err (Some Errors.ErrNotFound)
          then (Web.NotFound ctx "demo not found", app)
          else (Web.InternalError ctx "delete demo failed", app)
      | None =>
          (Web.SuccessWithMessage ctx "demo deleted successfully" Web.Null, app)
      end
  end.

End Controller.

(** ** Package [middleware]: CORS *)

Module Middleware.

Record CORSMiddleware : Type := mkCORSMiddleware {
  allowOrigins : list string;
  allowMethods : list string;
  allowHeaders : list string;
}.

Record CORSConfig : Type := mkCORSConfig {
  AllowOrigins : list string;
  AllowMethods : list string;
  AllowHeaders : list string;
}.

(** [config] is a pointer: [None] is [nil]. *)
Definition NewCORSMiddleware (config : option CORSConfig) : CORSMiddleware :=
  let config := default (mkCORSConfig [] [] []) config in
  mkCORSMiddleware
    (match AllowOrigins config with
     | [] => ["*"]
     | l => l
     end)
    (match AllowMethods config with
     | [] => ["GET"; "POST"; "PUT"; "DELETE"; "PATCH"; "OPTIONS"]
     | l => l
     end)
    (match AllowHeaders config with
     | [] => ["Content-Type"; "Authorization"; "X-Request-ID"]
     | l => l
     end).

Definition NewDefaultCORSMiddleware : CORSMiddleware := NewCORSMiddleware None.

Definition isOriginAllowed (m : CORSMiddleware) (origin : string) : bool :=
  if String.eqb origin "" then false
  else existsb (fun allowed => String.eqb allowed "*" || String.eqb allowed origin)
               (allowOrigins m).

Definition joinStrings (arr : list string) : string :=
  match arr with
  | [] => ""
  | first :: rest => fold_left (fun result s => result +:+ ", " +:+ s) rest first
  end.

(** The branch on the allow-list: [len(m.allowOrigins) == 1 &&
    m.allowOrigins[0] == "*"]. *)
Definition only_wildcard (m : CORSMiddleware) : bool :=
  match allowOrigins m with
  | [allowed] => String.eqb allowed "*"
  | _ => false
  end.

(** The headers [Handle] sets before it looks at the method. *)
Definition annotate (m : CORSMiddleware) (ctx : Web.Context) : Web.Context :=
  let origin := Web.GetHeader "Origin" ctx in
  let ctx :=
    if isOriginAllowed m origin
    then Web.Header "Access-Control-Allow-Origin" origin ctx
    else if only_wildcard m
    then Web.Header "Access-Control-Allow-Origin" "*" ctx
    else ctx in
  let ctx := Web.Header "Access-Control-Allow-Methods" (joinStrings (allowMethods m)) ctx in
  let ctx := Web.Header "Access-Control-Allow-Headers" (joinStrings (allowHeaders m)) ctx in
  let ctx := Web.Header "Access-Control-Allow-Credentials" "true" ctx in
  Web.Header "Access-Control-Max-Age" "86400" ctx.

Definition Handle {S : Type} (m : CORSMiddleware) : Web.HandlerFunc S :=
  fun next st =>
    let ctx := annotate m st.1 in
    if String.eqb (Web.Method ctx) "OPTIONS"
    then (Web.AbortWithStatus 204 ctx, st.2)
    else next (ctx, st.2).

End Middleware.

(** ** Vocabulary of the statements and sample states *)

Module Spec.

(** An error chain in which [Is] cannot find [ErrNotFound], and which
    does not become it under one more stack. *)
Definition not_found_free (e : Error) : Prop :=
  Errors.Lib.chain_has e Errors.ErrNotFound = false /\ e <> Errors.Leaf "资源不存在".

End Spec.

Module Samples.

(** A closure that counts its runs in the caller's state and succeeds. *)
Definition compute : Cache.Callback nat := fun n => (("computed", None), S n).

(** A closure that fails. *)
Definition boom : Error := Errors.Lib.New "upstream unavailable".

Definition failing : Cache.Callback nat := fun n => (("", Some boom), S n).

Definition empty_memory : Cache.World (gmap string (string * Z)) nat :=
  Cache.mkWorld ∅ 0%nat [].

Definition warm_memory : Cache.World (gmap string (string * Z)) nat :=
  Cache.mkWorld {[ "k" := ("cached", 60) ]} 0%nat [].

Definition no_redis : Cache.World Cache.Unreachable nat :=
  Cache.mkWorld Cache.unreachable 0%nat [].

Definition demo (id : Z) (title : string) : Model.Demo :=
  Model.mkDemo id title "x" 1 10 10.


Definition seeded_db : Repository.DB :=
  Gorm.mkDB [demo 1 "A"; demo 2 "B"; demo 3 "C"] 4 100 None [].

Definition conn_lost : Gorm.DriverError :=
  Gorm.mkDriverError "mysql" "invalid connection".

Definition broken_db : Repository.DB :=
  Gorm.mkDB [demo 1 "A"] 2 100 (Some conn_lost) [].

(** [GET /api/v1/demos/:id], [POST /api/v1/demos] and a preflight. *)
Definition get_ctx (id : string) : Web.Context :=
  Web.mkContext "GET" ∅ {[ "id" := id ]} (Web.Malformed (Errors.Foreign "io" "EOF"))
                (-1) 200 ∅ None.


Definition request (method origin : string) : Web.Context :=
  Web.mkContext method {[ "Origin" := origin ]} ∅
                (Web.Malformed (Errors.Foreign "io" "EOF")) 0 200 ∅ None.

Definition only_good : Middleware.CORSMiddleware :=
  Middleware.NewCORSMiddleware
    (Some (Middleware.mkCORSConfig ["https://good.example"] [] [])).

(** A route handler that marks the shared state when it runs. *)
Definition route : Web.HandlerFunc nat := fun _ st => (st.1, S st.2).

End Samples.

(** ** Package [tools]: random strings *)

Module Tools.

Definition alphaLower : string := "abcdefghijklmnopqrstuvwxyz".
Definition alphaUpper : string := "ABCDEFGHIJKLMNOPQRSTUVWXYZ".
Definition numbers : string := "0123456789".
Definition alphaNumeric : string := alphaLower +:+ alphaUpper +:+ numbers.

(** [crypto/rand.Reader] as what successive calls of [rand.Int] get from
    it: a failure, or raw randomness, which [rand.Int] brings below its
    bound.  A reader that is used up fails. *)
Inductive Draw : Type :=
  | Failed (err : Error)
  | Drawn (raw : Z).

Abbreviation Reader := (list Draw).

Definition ErrUnexpectedEOF : Error := Errors.Foreign "io" "unexpected EOF".

(** What a call can end in: a result, or a run-time panic. *)
Inductive Outcome (A : Type) : Type :=
  | Returned (a : A)
  | Panicked (msg : string).

Arguments Returned {A} a.
Arguments Panicked {A} msg.

(** [rand.Int(rand.Reader, max)]: panics when [max <= 0], else a number
    in [[0, max)] or the reader's error. *)
Definition Int (max : Z) (r : Reader) : Outcome (Z * error) * Reader :=
  if max <=? 0 then (Panicked "crypto/rand: argument to Int is <= 0", r)
  else
    match r with
    | Drawn raw :: r' => (Returned (raw mod max, None), r')
    | Failed e :: r' => (Returned (0, Some e), r')
    | [] => (Returned (0, Some ErrUnexpectedEOF), [])
    end.

(** [charset[i]]: the byte at index [i]; out of range is a panic. *)
Definition byte_at (i : Z) (charset : string) : Outcome ascii :=
  if i <? 0 then Panicked "index out of range"
  else
    match String.get (Z.to_nat i) charset with
    | Some c => Returned c
    | None => Panicked "index out of range"
    end.

(** The loop [for i := 0; i < length; i++], with [n] rounds left; the
    bytes it writes, in order. *)
Fixpoint fill (n : nat) (charset : string) (r : Reader) : Outcome string * Reader :=
  match n with
  | O => (Returned "", r)
  | S n' =>
      match Int (Z.of_nat (String.length charset)) r with
      | (Panicked msg, r) => (Panicked msg, r)
      | (Returned (randomInt, err), r) =>
          let byte :=
            match err with
            | Some _ => byte_at 0 charset
            | None => byte_at randomInt charset
            end in
          match byte with
          | Panicked msg => (Panicked msg, r)
          | Returned c =>
              match fill n' charset r with
              | (Returned s, r) => (Returned (String c s), r)
              | (Panicked msg, r) => (Panicked msg, r)
              end
          end
      end
  end.

Definition randStringFromCharset (length : Z) (charset : string) (r : Reader)
    : Outcome string * Reader :=
  if length <=? 0 then (Returned "", r)
  else fill (Z.to_nat length) charset r.

Definition RandString (length : Z) (r : Reader) : Outcome string * Reader :=
  randStringFromCharset length alphaNumeric r.

Definition RandStringLower (length : Z) (r : Reader) : Outcome string * Reader :=
  randStringFromCharset length alphaLower r.

Definition RandStringUpper (length : Z) (r : Reader) : Outcome string * Reader :=
  randStringFromCharset length alphaUpper r.

Definition RandNumber (length : Z) (r : Reader) : Outcome string * Reader :=
  randStringFromCharset length numbers r.

Definition RandStringCustom (length : Z) (charset : string) (r : Reader)
    : Outcome string * Reader :=
  randStringFromCharset length charset r.

(** Every byte of [s] is a byte of [charset]. *)
Definition drawn_from (charset s : string) : Prop :=
  Forall (fun c => In c (list_ascii_of_string charset)) (list_ascii_of_string s).

End Tools.

(** ** Package [constants] *)

Module Constants.

Definition CtxKeyRequestID : string := "request_id".
Definition HeaderRequestID : string := "X-Request-ID".
Definition MsgSuccess : string := "success".
Definition MsgInterfaceNotFound : string := "接口不存在".
Definition MsgMethodNotAllowed : string := "请求方法不允许".

End Constants.

(** ** Package [config] *)

Module Config.

Record ServerConfig : Type := mkServerConfig {
  Server_Port : Z;
  Server_Mode : string;
}.

Record DatabaseConfig : Type := mkDatabaseConfig {
  Database_Driver : string;
  Database_Host : string;
  Database_Port : Z;
  Database_Username : string;
  Database_Password : string;
  Database_Database : string;
  Database_Charset : string;
  Database_ParseTime : bool;
  Database_Loc : string;
  Database_MaxIdleConns : Z;
  Database_MaxOpenConns : Z;
}.

Record RedisConfig : Type := mkRedisConfig {
  Redis_Host : string;
  Redis_Port : Z;
  Redis_Password : string;
  Redis_DB : Z;
  Redis_PoolSize : Z;
}.

Record CacheConfig : Type := mkCacheConfig {
  Cache_Driver : string;
  Cache_TTL : Z;
}.

Record LoggerConfig : Type := mkLoggerConfig {
  Logger_Level : string;
  Logger_Filename : string;
  Logger_MaxSize : Z;
  Logger_MaxBackups : Z;
  Logger_MaxAge : Z;
  Logger_Compress : bool;
  Logger_Console : bool;
}.

Record Config : Type := mkConfig {
  Server : ServerConfig;
  Database : DatabaseConfig;
  Redis : RedisConfig;
  Cache : CacheConfig;
  Logger : LoggerConfig;
}.

Definition or_string (value fallback : string) : string :=
  if String.eqb value "" then fallback else value.

Definition or_int (value fallback : Z) : Z :=
  if value =? 0 then fallback else value.

(** [cfg] is a pointer in the source: the configuration the call leaves
    is returned. *)
Definition setDefaults (cfg : Config) : Config :=
  let s := Server cfg in
  let d := Database cfg in
  let r := Redis cfg in
  let c := Cache cfg in
  let l := Logger cfg in
  mkConfig
    (mkServerConfig (Server_Port s) (or_string (Server_Mode s) "debug"))
    (mkDatabaseConfig (Database_Driver d) (Database_Host d) (Database_Port d)
       (Database_Username d) (Database_Password d) (Database_Database d)
       (or_string (Database_Charset d) "utf8mb4") (Database_ParseTime d)
       (or_string (Database_Loc d) "Local")
       (or_int (Database_MaxIdleConns d) 10) (or_int (Database_MaxOpenConns d) 100))
    (mkRedisConfig (Redis_Host r) (Redis_Port r) (Redis_Password r) (Redis_DB r)
       (or_int (Redis_PoolSize r) 10))
    (mkCacheConfig (Cache_Driver c) (or_int (Cache_TTL c) 300))
    (mkLoggerConfig (or_string (Logger_Level l) "info") (Logger_Filename l)
       (or_int (Logger_MaxSize l) 100) (or_int (Logger_MaxBackups l) 3)
       (or_int (Logger_MaxAge l) 7) (Logger_Compress l) (Logger_Console l)).

(** The fields [setDefaults] looks at are set. *)
Definition defaulted (cfg : Config) : Prop :=
  Server_Mode (Server cfg) <> "" /\
  Database_Charset (Database cfg) <> "" /\
  Database_Loc (Database cfg) <> "" /\
  Database_MaxIdleConns (Database cfg) <> 0 /\
  Database_MaxOpenConns (Database cfg) <> 0 /\
  Redis_PoolSize (Redis cfg) <> 0 /\
  Cache_TTL (Cache cfg) <> 0 /\
  Logger_Level (Logger cfg) <> "" /\
  Logger_MaxSize (Logger cfg) <> 0 /\
  Logger_MaxBackups (Logger cfg) <> 0 /\
  Logger_MaxAge (Logger cfg) <> 0.

End Config.

(** ** Package [cache]: the factory *)

Module CacheFactory.

(** A connected [*redis.Client]; [None] stands for the [nil] pointer. *)
Inductive RedisClient : Type := redisClient (addr : string).

(** What the caching library is asked to build: a store, and a manager
    over one store or over a chain of them. *)
Inductive Store : Type :=
  | NewRedis (client : RedisClient)
  | NewGoCache (defaultExpiration cleanupInterval : Cache.Duration).

(** [cache.New(store)], and [cache.NewChain] over managers each made by
    [cache.New] of the store listed, first tier first. *)
Inductive Manager : Type :=
  | New (store : Store)
  | NewChain (tiers : list Store).

Definition DriverRedis : string := "redis".
Definition DriverMemory : string := "memory".

(** [time.Second], in nanoseconds. *)
Definition Second : Z := 1000000000.

Definition NewCacheManager (cfg : Config.Config) (client : option RedisClient)
    : option Manager * error :=
  let driver := Config.Cache_Driver (Config.Cache cfg) in
  if String.eqb driver DriverRedis then
    match client with
    | None => (None, Some (Errors.Foreign "fmt" "redis client is required for redis driver"))
    | Some c => (Some (New (NewRedis c)), None)
    end
  else if String.eqb driver DriverMemory then
    let defaultTTL := GoInt.mul (Config.Cache_TTL (Config.Cache cfg)) Second in
    (Some (New (NewGoCache defaultTTL (GoInt.mul defaultTTL 2))), None)
  else
    (None,
     Some (Errors.Foreign "fmt"
             (Fmt.Sprintf "unsupported cache driver: %s" [Fmt.AStr driver]))).

Definition NewChainCache (cfg : Config.Config) (client : option RedisClient)
    : option Manager * error :=
  match client with
  | None => (None, Some (Errors.Foreign "fmt" "redis client is required for chain cache"))
  | Some c =>
      let defaultTTL := GoInt.mul (Config.Cache_TTL (Config.Cache cfg)) Second in
      (Some (NewChain [NewGoCache defaultTTL (GoInt.mul defaultTTL 2); NewRedis c]),
       None)
  end.

End CacheFactory.

(** ** Package [middleware]: the request id and the middleware set *)

Module RequestID.

(** A value kept in the context under a key ([interface{}]): a string or
    something else. *)
Inductive Value : Type :=
  | VString (s : string)
  | VOther.

(** The part of the request context the CORS model does not need, kept
    in the state the handlers of a request share: the keys of
    [ctx.Set]/[ctx.Get], and the generator behind [uuid.New()], a
    sequence of identifiers of which [uuid_next] is the next to hand
    out. *)
Record Scope : Type := mkScope {
  Keys : gmap string Value;
  uuid_source : nat -> string;
  uuid_next : nat;
}.

Definition Set_ (key : string) (value : Value) (sc : Scope) : Scope :=
  mkScope (<[key := value]> (Keys sc)) (uuid_source sc) (uuid_next sc).

(** [uuid.New().String()] *)
Definition uuid_New (sc : Scope) : string * Scope :=
  (uuid_source sc (uuid_next sc), mkScope (Keys sc) (uuid_source sc) (S (uuid_next sc))).

Definition Handle : Web.HandlerFunc Scope :=
  fun next st =>
    let ctx := st.1 in
    let sc := st.2 in
    let requestID := Web.GetHeader Constants.HeaderRequestID ctx in
    let '(requestID, sc) :=
      if String.eqb requestID "" then uuid_New sc else (requestID, sc) in
    let sc := Set_ Constants.CtxKeyRequestID (VString requestID) sc in
    let ctx := Web.Header Constants.HeaderRequestID requestID ctx in
    next (ctx, sc).

(** [GetRequestID(c)], and [web.Context.GetRequestID], which reads the
    same key with [GetString]. *)
Definition GetRequestID (sc : Scope) : string :=
  match Keys sc !! Constants.CtxKeyRequestID with
  | Some (VString id) => id
  | _ => ""
  end.

End RequestID.

Module MiddlewareSet.

(** The [cors] section of the configuration, as [NewMiddleware] reads
    it (its declaration is not part of the sources at hand). *)
Record CORSSettings : Type := mkCORSSettings {
  Enabled : bool;
  AllowOrigins : list string;
  AllowMethods : list string;
  AllowHeaders : list string;
}.

(** The [CORS] field of the set; the request-id middleware has no
    state. *)
Definition NewMiddleware (cors : CORSSettings) : Middleware.CORSMiddleware :=
  if Enabled cors
  then
    Middleware.NewCORSMiddleware
      (Some (Middleware.mkCORSConfig (AllowOrigins cors) (AllowMethods cors)
               (AllowHeaders cors)))
  else Middleware.NewDefaultCORSMiddleware.

End MiddlewareSet.

(** ** Vocabulary of the further properties *)

Module Props.

(** What a caller of the repository sees of a driver failure [f] during
    the operation [op]: the message names the operation and then the
    failure, the root cause is the failure itself, the error is never
    the bare failure and never of the Not-Found kind. *)
Definition wrapped_failure (err : error) (f : Gorm.DriverError) (op : string) : Prop :=
  Errors.GetMessage err = op +:+ ": " +:+ Gorm.text f /\
  Errors.Cause err = Some (Gorm.raise f) /\
  err <> Some (Gorm.raise f) /\
  Errors.Is err (Some Errors.ErrNotFound) = false.

(** The envelope a Demo handler leaves in the context: a body is
    written, its code is the HTTP status, the status is one of the four
    the handlers use, and only a 200 carries data. *)
Definition uniform_envelope (c : Web.Context) : Prop :=
  exists r,
    Web.Written c = Some r /\
    Web.Code r = Web.Status c /\
    In (Web.Status c) [200; 400; 404; 500] /\
    (Web.Status c <> 200 -> Web.Data_ r = Web.Null).

End Props.

(** ** Sample states for the further properties *)

Module MoreSamples.

Definition uuids (n : nat) : string :=
  "00000000-0000-4000-8000-00000000000" +:+ Fmt.itoa (Z.of_nat n).

Definition fresh_scope : RequestID.Scope := RequestID.mkScope ∅ uuids 0.

Definition traced (id : string) : Web.Context :=
  Web.mkContext "GET" {[ "X-Request-ID" := id ]} ∅
                (Web.Malformed (Errors.Foreign "io" "EOF")) 0 200 ∅ None.

Definition put_ctx (id title : string) : Web.Context :=
  Web.mkContext "PUT" ∅ {[ "id" := id ]} (Web.Object title "y" 1) (-1) 200 ∅ None.

Definition delete_ctx (id : string) : Web.Context :=
  Web.mkContext "DELETE" ∅ {[ "id" := id ]} (Web.Malformed (Errors.Foreign "io" "EOF"))
                (-1) 200 ∅ None.

Definition empty_config : Config.Config :=
  Config.mkConfig
    (Config.mkServerConfig 0 "")
    (Config.mkDatabaseConfig "" "" 0 "" "" "" "" false "" 0 0)
    (Config.mkRedisConfig "" 0 "" 0 0)
    (Config.mkCacheConfig "" 0)
    (Config.mkLoggerConfig "" "" 0 0 0 false false).

Definition memory_config : Config.Config :=
  Config.mkConfig
    (Config.mkServerConfig 8080 "release")
    (Config.mkDatabaseConfig "mysql" "db" 3306 "app" "secret" "demo" "" true "" 0 0)
    (Config.mkRedisConfig "redis" 6379 "" 0 0)
    (Config.mkCacheConfig "memory" 0)
    (Config.mkLoggerConfig "" "logs/app.log" 0 0 0 true true).

End MoreSamples.

(* ================================================================== *)
(** * Theorems *)
(* ================================================================== *)

(** ** Errors *)

(** C9. Each of the nine wrapping functions of the errors package returns
    [nil] when the error it is given is [nil]: wrapping leaves the
    no-error case as it is. *)
Theorem wrappers_keep_nil (msg format : string) (args : list Fmt.Arg) :
  Errors.Wrap None msg = None /\
  Errors.Wrapf None format args = None /\
  Errors.WithStack None = None /\
  Errors.WithMessage None msg = None /\
  Errors.WithMessagef None format args = None /\
  Errors.WithHint None msg = None /\
  Errors.WithHintf None format args = None /\
  Errors.WithDetail None msg = None /\
  Errors.WithDetailf None format args = None.
Proof. repeat split. Qed.

(** The other direction: an error that is there stays there. *)
Lemma wrappers_keep_errors (e : Error) (msg format : string) (args : list Fmt.Arg) :
  Errors.Wrap (Some e) msg <> None /\
  Errors.Wrapf (Some e) format args <> None /\
  Errors.WithStack (Some e) <> None /\
  Errors.WithMessage (Some e) msg <> None /\
  Errors.WithMessagef (Some e) format args <> None /\
  Errors.WithHint (Some e) msg <> None /\
  Errors.WithHintf (Some e) format args <> None /\
  Errors.WithDetail (Some e) msg <> None /\
  Errors.WithDetailf (Some e) format args <> None.
Proof. repeat split; discriminate. Qed.

(** Every wrapper keeps the kind of the error it wraps. *)
Lemma chain_has_refl (e : Error) : Errors.Lib.chain_has e e = true.
Proof. destruct e; simpl; rewrite bool_decide_eq_true_2; auto. Qed.

Lemma chain_has_WithStackE (e r : Error) :
  Errors.Lib.chain_has e r = true ->
  Errors.Lib.chain_has (Errors.WithStackE e) r = true.
Proof. intros Hc. simpl. rewrite Hc. apply orb_true_r. Qed.

Lemma chain_has_WithPrefixE (e r : Error) (p : string) :
  Errors.Lib.chain_has e r = true ->
  Errors.Lib.chain_has (Errors.WithPrefixE e p) r = true.
Proof. intros Hc. simpl. rewrite Hc. apply orb_true_r. Qed.

Lemma chain_has_Wrap (e r : Error) (msg : string) :
  Errors.Lib.chain_has e r = true ->
  Errors.Lib.chain_has (Errors.Lib.Wrap e msg) r = true.
Proof.
  intros Hc. unfold Errors.Lib.Wrap. apply chain_has_WithStackE.
  destruct (String.eqb msg ""); auto using chain_has_WithPrefixE.
Qed.

Lemma chain_has_Wrapf (e r : Error) (format : string) (args : list Fmt.Arg) :
  Errors.Lib.chain_has e r = true ->
  Errors.Lib.chain_has (Errors.Lib.Wrapf e format args) r = true.
Proof.
  intros Hc. unfold Errors.Lib.Wrapf. apply chain_has_WithStackE.
  destruct (_ && _); auto using chain_has_WithPrefixE.
Qed.

(** ** Security *)

Lemma hex_digit_lower (n : Z) : Security.lower_hex_digit (Security.hex_digit n) = true.
Proof.
  unfold Security.hex_digit. generalize (Z.to_nat n) as k. intros k.
  do 17 (destruct k as [|k]; [reflexivity|]).
  reflexivity.
Qed.

Lemma hex_lower (bs : list Z) : Security.lower_hex (Security.hex bs) = true.
Proof.
  unfold Security.lower_hex.
  induction bs as [|b bs IH]; [reflexivity|].
  cbn [Security.hex list_ascii_of_string forallb].
  rewrite !hex_digit_lower. exact IH.
Qed.

Lemma hex_length (bs : list Z) :
  String.length (Security.hex bs) = (2 * length bs)%nat.
Proof. induction bs as [|b bs IH]; simpl; lia. Qed.

Lemma be_bytes_length (n : nat) (x : Z) : length (CryptoSha1.be_bytes n x) = n.
Proof. induction n as [|n IH]; simpl; congruence. Qed.

Lemma Sum_length (data : list Z) : length (CryptoSha1.Sum data) = 20%nat.
Proof. unfold CryptoSha1.Sum. rewrite !length_app, !be_bytes_length. reflexivity. Qed.

(** The digest function agrees with the published test vectors. *)
Example Sha1_abc : Security.Sha1 "abc" = "a9993e364706816aba3e25717850c26c9cd0d89d".
Proof. vm_compute. reflexivity. Qed.

Example Sha1_empty : Security.Sha1 "" = "da39a3ee5e6b4b0d3255bfef95601890afd80709".
Proof. vm_compute. reflexivity. Qed.

Example Sha1_two_blocks :
  Security.Sha1 "abcdbcdecdefdefgefghfghighijhijkijkljklmklmnlmnomnopnopq"
  = "84983e441c3bd26ebaae4aa1f95129e5e54670f1".
Proof. vm_compute. reflexivity. Qed.

(** C10. [ValidateCheckSum] answers true exactly when the checksum is the
    SHA-1 digest of secret, nonce and timestamp joined in that order,
    written as 40 lower-case hexadecimal digits; the checksum computed
    that way is always accepted. *)
Theorem ValidateCheckSum_iff (checksum timestamp nonce secret : string) :
  (Security.ValidateCheckSum checksum timestamp nonce secret = true <->
   checksum =
     Security.hex
       (CryptoSha1.Sum (CryptoSha1.bytes_of_string (secret +:+ nonce +:+ timestamp)))) /\
  Security.lower_hex (Security.Sha1 (secret +:+ nonce +:+ timestamp)) = true /\
  String.length (Security.Sha1 (secret +:+ nonce +:+ timestamp)) = 40%nat /\
  Security.ValidateCheckSum (Security.Sha1 (secret +:+ nonce +:+ timestamp))
    timestamp nonce secret = true.
Proof.
  unfold Security.ValidateCheckSum, Security.Sha1.
  split; [split|split; [|split]].
  - intros Heq. apply String.eqb_eq in Heq. congruence.
  - intros ->. apply String.eqb_refl.
  - apply hex_lower.
  - rewrite hex_length, Sum_length. reflexivity.
  - apply String.eqb_refl.
Qed.

(** ** Cache facade *)

Lemma callbacks_app (a b : list Cache.Event) :
  Cache.callbacks (a ++ b) = (Cache.callbacks a + Cache.callbacks b)%nat.
Proof. unfold Cache.callbacks. rewrite List.filter_app, length_app. reflexivity. Qed.

Section RememberFacts.

Context {M E : Type} `{Cache.CacheInterface M}.

Implicit Types (w : Cache.World M E) (callback : Cache.Callback E).
Implicit Types (key value : string) (ttl : Cache.Duration).

(** The three paths through [Remember]. *)

Lemma Remember_hit key ttl callback w value :
  Cache.mgr_get (Cache.manager w) key = (value, None) ->
  Cache.Remember key ttl callback w = ((value, None), Cache.emit (Cache.EvGet key) w).
Proof. intros Hget. unfold Cache.Remember, Cache.Get. rewrite Hget. reflexivity. Qed.

Lemma Remember_miss_failed key ttl callback w value0 e0 value e env' :
  Cache.mgr_get (Cache.manager w) key = (value0, Some e0) ->
  callback (Cache.env w) = ((value, Some e), env') ->
  Cache.Remember key ttl callback w =
    (("", Some e),
     Cache.mkWorld (Cache.manager w) env'
       (Cache.trace w ++ [Cache.EvGet key; Cache.EvCallback value (Some e)])).
Proof.
  intros Hget Hcb. unfold Cache.Remember, Cache.Get. rewrite Hget. simpl.
  rewrite Hcb. unfold Cache.emit. simpl. rewrite <- app_assoc. reflexivity.
Qed.

Lemma Remember_miss_computed key ttl callback w value0 e0 value env' :
  Cache.mgr_get (Cache.manager w) key = (value0, Some e0) ->
  callback (Cache.env w) = ((value, None), env') ->
  Cache.Remember key ttl callback w =
    ((value, None),
     Cache.mkWorld (Cache.mgr_set (Cache.manager w) key value ttl).1 env'
       (Cache.trace w ++
        [Cache.EvGet key; Cache.EvCallback value None;
         Cache.EvSet key value ttl (Cache.mgr_set (Cache.manager w) key value ttl).2])).
Proof.
  intros Hget Hcb. unfold Cache.Remember, Cache.Get. rewrite Hget. simpl.
  rewrite Hcb. unfold Cache.Set_, Cache.emit. simpl.
  destruct (Cache.mgr_set (Cache.manager w) key value ttl) as [m serr]. simpl.
  rewrite <- !app_assoc. reflexivity.
Qed.

(** X2. On a hit [Remember] returns the cached value without error, the
    callback does not run, and nothing is written: the manager and the
    caller's state are as before. *)
Lemma Remember_hit_skips_callback key ttl callback w value :
  Cache.mgr_get (Cache.manager w) key = (value, None) ->
  (Cache.Remember key ttl callback w).1 = (value, None) /\
  Cache.env (Cache.Remember key ttl callback w).2 = Cache.env w /\
  Cache.manager (Cache.Remember key ttl callback w).2 = Cache.manager w /\
  Cache.callbacks (Cache.trace (Cache.Remember key ttl callback w).2)
    = Cache.callbacks (Cache.trace w).
Proof.
  intros Hget. rewrite (Remember_hit _ ttl callback _ _ Hget).
  repeat split. cbn [snd Cache.trace Cache.emit]. rewrite callbacks_app.
  unfold Cache.callbacks. simpl. lia.
Qed.

(** C1. Two calls of [Remember] in sequence, the first of which finds no
    value for the key and the second of which finds the value the first
    wrote: the callback runs exactly once across the two calls, and both
    calls return the value it produced, without error. *)
Theorem Remember_twice_computes_once key ttl callback w r1 w1 r2 w2 evs v serr :
  Cache.Remember key ttl callback w = (r1, w1) ->
  Cache.Remember key ttl callback w1 = (r2, w2) ->
  (Cache.mgr_get (Cache.manager w) key).2 <> None ->
  Cache.trace w1 = Cache.trace w ++ evs ->
  Cache.EvSet key v ttl serr ∈ evs ->
  Cache.mgr_get (Cache.manager w1) key = (v, None) ->
  (callback (Cache.env w)).1 = (v, None) /\
  r1 = (v, None) /\
  r2 = (v, None) /\
  Cache.callbacks (Cache.trace w2) = S (Cache.callbacks (Cache.trace w)).
Proof.
  intros Hfirst Hsecond Hmiss Htrace Hset Hhit.
  destruct (Cache.mgr_get (Cache.manager w) key) as [value0 [e0|]] eqn:Hget;
    [clear Hmiss | contradiction].
  destruct (callback (Cache.env w)) as [[value [e|]] env'] eqn:Hcb.
  - (* the callback failed: nothing was written *)
    rewrite (Remember_miss_failed _ _ _ _ _ _ _ _ _ Hget Hcb) in Hfirst.
    inversion Hfirst; subst r1 w1; clear Hfirst. simpl in Htrace.
    apply app_inv_head in Htrace. subst evs.
    apply list_elem_of_In in Hset. simpl in Hset.
    destruct Hset as [Hev | [Hev | []]]; discriminate.
  - rewrite (Remember_miss_computed _ _ _ _ _ _ _ _ Hget Hcb) in Hfirst.
    inversion Hfirst; subst r1 w1; clear Hfirst. simpl in Htrace.
    apply app_inv_head in Htrace. subst evs.
    apply list_elem_of_In in Hset. simpl in Hset.
    assert (value = v) as ->.
    { destruct Hset as [Hev | [Hev | [Hev | []]]]; congruence. }
    rewrite (Remember_hit _ _ _ _ _ Hhit) in Hsecond.
    inversion Hsecond; subst r2 w2; clear Hsecond.
    split; [reflexivity|]. split; [reflexivity|]. split; [reflexivity|].
    unfold Cache.emit. cbn [Cache.trace]. rewrite !callbacks_app.
    unfold Cache.callbacks. simpl. lia.
Qed.

(** C2. When the callback runs and returns an error, [Remember] returns
    that very error with the empty string, forwards no write to the
    manager, and leaves the manager, hence what it holds for the key, as
    it was. *)
Theorem Remember_callback_error key ttl callback w r w1 evs value e :
  Cache.Remember key ttl callback w = (r, w1) ->
  Cache.trace w1 = Cache.trace w ++ evs ->
  Cache.EvCallback value (Some e) ∈ evs ->
  (callback (Cache.env w)).1 = (value, Some e) /\
  r = ("", Some e) /\
  Forall (fun ev => Cache.is_write ev = false) evs /\
  Cache.manager w1 = Cache.manager w /\
  Cache.mgr_get (Cache.manager w1) key = Cache.mgr_get (Cache.manager w) key.
Proof.
  intros Hrun Htrace Hev.
  destruct (Cache.mgr_get (Cache.manager w) key) as [value0 [e0|]] eqn:Hget.
  - destruct (callback (Cache.env w)) as [[value' [e'|]] env'] eqn:Hcb.
    + rewrite (Remember_miss_failed _ _ _ _ _ _ _ _ _ Hget Hcb) in Hrun.
      inversion Hrun; subst r w1; clear Hrun. simpl in Htrace.
      apply app_inv_head in Htrace. subst evs.
      apply list_elem_of_In in Hev. simpl in Hev.
      destruct Hev as [Hev | [Hev | []]]; [discriminate|].
      inversion Hev; subst. simpl. rewrite Hget.
      repeat split. repeat constructor.
    + rewrite (Remember_miss_computed _ _ _ _ _ _ _ _ Hget Hcb) in Hrun.
      inversion Hrun; subst r w1; clear Hrun. simpl in Htrace.
      apply app_inv_head in Htrace. subst evs.
      apply list_elem_of_In in Hev. simpl in Hev.
      destruct Hev as [Hev | [Hev | [Hev | []]]]; discriminate.
  - rewrite (Remember_hit _ _ _ _ _ Hget) in Hrun.
    inversion Hrun; subst r w1; clear Hrun. simpl in Htrace.
    apply app_inv_head in Htrace. subst evs.
    apply list_elem_of_In in Hev. simpl in Hev.
    destruct Hev as [Hev | []]; discriminate.
Qed.

(** C3. After a miss, when the callback succeeds with [v], [Remember]
    returns [(v, nil)] whatever [Set] answers: the error of the write,
    if any, shows in the trace of the call and nowhere in its result. *)
Theorem Remember_swallows_set_error key ttl callback w v env' serr :
  (Cache.mgr_get (Cache.manager w) key).2 <> None ->
  callback (Cache.env w) = ((v, None), env') ->
  (Cache.mgr_set (Cache.manager w) key v ttl).2 = serr ->
  (Cache.Remember key ttl callback w).1 = (v, None) /\
  Cache.trace (Cache.Remember key ttl callback w).2 =
    Cache.trace w ++
    [Cache.EvGet key; Cache.EvCallback v None; Cache.EvSet key v ttl serr].
Proof.
  intros Hmiss Hcb Hset.
  destruct (Cache.mgr_get (Cache.manager w) key) as [value0 [e0|]] eqn:Hget;
    [clear Hmiss | contradiction].
  rewrite (Remember_miss_computed _ _ _ _ _ _ _ _ Hget Hcb), Hset. split; reflexivity.
Qed.

End RememberFacts.

(** On the in-process store the premises of C1 come for free: a key that
    is absent and a callback that succeeds. *)
Lemma Remember_twice_memory {E : Type} (m : gmap string (string * Z)) (n n' : E)
    (tr : list Cache.Event) (key : string) (ttl : Z) (callback : Cache.Callback E)
    (v : string) :
  m !! key = None ->
  callback n = ((v, None), n') ->
  (Cache.Remember key ttl callback (Cache.mkWorld m n tr)).1 = (v, None) /\
  (Cache.Remember key ttl callback
     (Cache.Remember key ttl callback (Cache.mkWorld m n tr)).2).1 = (v, None) /\
  Cache.callbacks
    (Cache.trace
       (Cache.Remember key ttl callback
          (Cache.Remember key ttl callback (Cache.mkWorld m n tr)).2).2)
    = S (Cache.callbacks tr).
Proof.
  intros Habsent Hcb.
  assert (Hmiss : Cache.mgr_get (Cache.manager (Cache.mkWorld m n tr)) key
                  = ("", Some Cache.NotFound)).
  { cbn. unfold Cache.memory_get. rewrite Habsent. reflexivity. }
  rewrite (Remember_miss_computed key ttl callback _ _ _ _ _ Hmiss Hcb).
  cbn [fst snd Cache.mgr_set Cache.MemoryStore].
  assert (Hhit : Cache.mgr_get (<[key := (v, ttl)]> m) key = (v, None)).
  { cbn. unfold Cache.memory_get. rewrite lookup_insert_eq. reflexivity. }
  rewrite (Remember_hit key ttl callback _ v) by exact Hhit.
  split; [reflexivity|]. split; [reflexivity|].
  cbn [snd Cache.trace Cache.emit]. rewrite !callbacks_app.
  unfold Cache.callbacks. simpl. lia.
Qed.

(** ** Not-Found through the layers *)

Import Spec.

Lemma not_found_free_Foreign (pkg msg : string) : not_found_free (Errors.Foreign pkg msg).
Proof. split; [reflexivity | discriminate]. Qed.

Lemma not_found_free_WithStackE (e : Error) :
  not_found_free e -> not_found_free (Errors.WithStackE e).
Proof.
  intros [Hc Hne]. split; [|discriminate].
  cbn [Errors.Lib.chain_has]. rewrite Hc, orb_false_r.
  apply bool_decide_eq_false_2. unfold Errors.ErrNotFound, Errors.Lib.New. congruence.
Qed.

Lemma not_found_free_WithPrefixE (e : Error) (p : string) :
  not_found_free e -> not_found_free (Errors.WithPrefixE e p).
Proof.
  intros [Hc Hne]. split; [|discriminate].
  cbn [Errors.Lib.chain_has]. rewrite Hc, orb_false_r.
  apply bool_decide_eq_false_2. discriminate.
Qed.

Lemma not_found_free_Wrap (e : Error) (msg : string) :
  not_found_free e -> not_found_free (Errors.Lib.Wrap e msg).
Proof.
  intros Hfree. unfold Errors.Lib.Wrap. apply not_found_free_WithStackE.
  destruct (String.eqb msg ""); auto using not_found_free_WithPrefixE.
Qed.

Lemma not_found_free_Wrapf (e : Error) (format : string) (args : list Fmt.Arg) :
  not_found_free e -> not_found_free (Errors.Lib.Wrapf e format args).
Proof.
  intros Hfree. unfold Errors.Lib.Wrapf. apply not_found_free_WithStackE.
  destruct (_ && _); auto using not_found_free_WithPrefixE.
Qed.

Lemma JSON_Status (code : Z) (obj : Web.Response) (c : Web.Context) :
  Web.Status (Web.JSON code obj c) = code.
Proof.
  unfold Web.JSON.
  destruct (Web.ResponseHeader (Web.set_status code c) !! "Content-Type");
    destruct (Web.bodyAllowedForStatus code); reflexivity.
Qed.

Lemma JSON_Written (code : Z) (obj : Web.Response) (c : Web.Context) :
  Web.bodyAllowedForStatus code = true ->
  Web.Written (Web.JSON code obj c) = Some obj.
Proof.
  intros Hbody. unfold Web.JSON. rewrite Hbody.
  destruct (Web.ResponseHeader (Web.set_status code c) !! "Content-Type"); reflexivity.
Qed.

Section FindByIDFacts.

Variables (db : Repository.DB) (id : Z).

Local Abbreviation looked_up := (Gorm.issue (Gorm.SelectFirst [Database.by_id id]) db).

Lemma Database_FindByID_zero_rows (dest : Model.Demo) :
  Gorm.fault db = None ->
  Gorm.matching [Database.by_id id] db = [] ->
  Database.FindByID id dest db = ((dest, Some Errors.ErrNotFound), looked_up).
Proof.
  intros Hok Hnone. unfold Database.FindByID, Gorm.First.
  cbn [Gorm.conds Gorm.Where Gorm.Model_ app]. rewrite Hok, Hnone. reflexivity.
Qed.

Lemma Database_FindByID_failed (dest : Model.Demo) (f : Gorm.DriverError) :
  Gorm.fault db = Some f ->
  Gorm.raise f <> Gorm.ErrRecordNotFound ->
  Database.FindByID id dest db =
    ((dest, Some (Errors.Lib.Wrap (Gorm.raise f) "query by id failed")), looked_up).
Proof.
  intros Hfault Hother. unfold Database.FindByID, Gorm.First.
  cbn [Gorm.conds Gorm.Where Gorm.Model_ app]. rewrite Hfault.
  cbv beta iota. rewrite bool_decide_eq_false_2 by exact Hother. reflexivity.
Qed.

Lemma Repository_FindByID_zero_rows :
  Gorm.fault db = None ->
  Gorm.matching [Database.by_id id] db = [] ->
  Repository.FindByID id db =
    ((None,
      Some (Errors.Lib.Wrapf Errors.ErrNotFound "demo not found, id: %d" [Fmt.AInt id])),
     looked_up).
Proof.
  intros Hok Hnone. unfold Repository.FindByID.
  rewrite (Database_FindByID_zero_rows _ Hok Hnone). reflexivity.
Qed.

Lemma Repository_FindByID_failed (f : Gorm.DriverError) :
  Gorm.fault db = Some f ->
  Gorm.raise f <> Gorm.ErrRecordNotFound ->
  Repository.FindByID id db =
    ((None,
      Some (Errors.Lib.Wrapf (Errors.Lib.Wrap (Gorm.raise f) "query by id failed")
              "demo not found, id: %d" [Fmt.AInt id])),
     looked_up).
Proof.
  intros Hfault Hother. unfold Repository.FindByID.
  rewrite (Database_FindByID_failed _ _ Hfault Hother). reflexivity.
Qed.

End FindByIDFacts.

(** C4. A lookup by id that matches no row makes [BaseRepository.FindByID]
    return [ErrNotFound] itself; a lookup the driver fails for another
    reason makes it return that failure wrapped as "query by id failed",
    which [Is] does not take for [ErrNotFound].  The wrapping of the Demo
    repository keeps both answers, and the controller turns the first
    into a 404 envelope and the second into a 500 envelope. *)
Theorem FindByID_not_found_kind (db : Repository.DB) (id : Z) (dest : Model.Demo) :
  (Gorm.fault db = None ->
   Gorm.matching [Database.by_id id] db = [] ->
   (Database.FindByID id dest db).1.2 = Some Errors.ErrNotFound /\
   Errors.Is (Database.FindByID id dest db).1.2 (Some Errors.ErrNotFound) = true /\
   Errors.Is (Repository.FindByID id db).1.2 (Some Errors.ErrNotFound) = true /\
   forall ctx logs,
     Fmt.ParseUint (Web.Param "id" ctx) 32 = Some id ->
     Web.Status (Controller.GetByID (ctx, Service.mkApp db logs)).1 = 404 /\
     Web.Written (Controller.GetByID (ctx, Service.mkApp db logs)).1 =
       Some (Web.mkResponse 404 "demo not found" Web.Null)) /\
  (forall f,
   Gorm.fault db = Some f ->
   Gorm.raise f <> Gorm.ErrRecordNotFound ->
   (Database.FindByID id dest db).1.2 =
     Some (Errors.Lib.Wrap (Gorm.raise f) "query by id failed") /\
   Errors.GetMessage (Database.FindByID id dest db).1.2 =
     "query by id failed: " +:+ Gorm.text f /\
   Errors.Is (Database.FindByID id dest db).1.2 (Some Errors.ErrNotFound) = false /\
   Errors.Is (Repository.FindByID id db).1.2 (Some Errors.ErrNotFound) = false /\
   forall ctx logs,
     Fmt.ParseUint (Web.Param "id" ctx) 32 = Some id ->
     Web.Status (Controller.GetByID (ctx, Service.mkApp db logs)).1 = 500 /\
     Web.Written (Controller.GetByID (ctx, Service.mkApp db logs)).1 =
       Some (Web.mkResponse 500 "get demo failed" Web.Null)).
Proof.
  split.
  - intros Hok Hnone.
    rewrite (Database_FindByID_zero_rows db id dest Hok Hnone).
    rewrite (Repository_FindByID_zero_rows db id Hok Hnone).
    assert (Hkind : Errors.Is
              (Some (Errors.Lib.Wrapf Errors.ErrNotFound "demo not found, id: %d"
                       [Fmt.AInt id]))
              (Some Errors.ErrNotFound) = true)
      by apply chain_has_Wrapf, chain_has_refl.
    split; [reflexivity|]. split; [apply chain_has_refl|]. split; [exact Hkind|].
    intros ctx logs Hparse.
    unfold Controller.GetByID, Service.GetByID. rewrite Hparse.
    cbn [Service.db Service.logs].
    rewrite (Repository_FindByID_zero_rows db id Hok Hnone).
    cbv beta iota. rewrite Hkind.
    split; [apply JSON_Status | apply JSON_Written; reflexivity].
  - intros f Hfault Hother.
    rewrite (Database_FindByID_failed db id dest f Hfault Hother).
    rewrite (Repository_FindByID_failed db id f Hfault Hother).
    assert (Hkind : Errors.Is
              (Some (Errors.Lib.Wrapf
                       (Errors.Lib.Wrap (Gorm.raise f) "query by id failed")
                       "demo not found, id: %d" [Fmt.AInt id]))
              (Some Errors.ErrNotFound) = false)
      by apply not_found_free_Wrapf, not_found_free_Wrap, not_found_free_Foreign.
    split; [reflexivity|]. split; [reflexivity|].
    split; [apply not_found_free_Wrap, not_found_free_Foreign|].
    split; [exact Hkind|].
    intros ctx logs Hparse.
    unfold Controller.GetByID, Service.GetByID. rewrite Hparse.
    cbn [Service.db Service.logs].
    rewrite (Repository_FindByID_failed db id f Hfault Hother).
    cbv beta iota. rewrite Hkind.
    split; [apply JSON_Status | apply JSON_Written; reflexivity].
Qed.

(** ** Pagination *)

Lemma wrap_in_range (z : Z) : GoInt.in_range z -> GoInt.wrap z = z.
Proof.
  unfold GoInt.in_range, GoInt.wrap. intros Hz.
  rewrite Z.mod_small by lia. lia.
Qed.

Section FindPageFacts.

Context {T : Type} `{Gorm.Schema T}.

Implicit Types (db : Gorm.DB T) (dest : list T) (query : Database.Query T).

Lemma FindPage_healthy db dest page pageSize query :
  Gorm.fault db = None ->
  Database.FindPage dest page pageSize query db =
    let cs := Gorm.conds (Database.scoped query) in
    let offset := GoInt.mul (GoInt.sub page 1) pageSize in
    ((Gorm.apply_limit (Some pageSize)
        (Gorm.apply_offset (Some offset) (Gorm.matching cs db)),
      (Z.of_nat (length (Gorm.matching cs db)), None)),
     Gorm.issue (Gorm.Select cs (Some offset) (Some pageSize))
       (Gorm.issue (Gorm.SelectCount cs None) db)).
Proof.
  intros Hok. unfold Database.FindPage, Gorm.Count, Gorm.Find.
  rewrite Hok. cbn [Gorm.fault Gorm.issue]. rewrite Hok.
  destruct query; reflexivity.
Qed.

(** C5. On a database that answers, [FindPage] sends a count and then a
    select over the same conditions whose offset is [(page-1)*pageSize],
    computed in Go's [int], and whose limit is [pageSize]; neither number
    is clamped, whatever its sign.  The product is the mathematical one
    whenever that fits an [int], and pages count from 1: page 1 has
    offset 0.  With three matching records, page 1 of size 2 is the
    first two with total 3 and page 2 is the third with total 3. *)
Theorem FindPage_window db dest page pageSize query :
  Gorm.fault db = None ->
  Gorm.issued (Database.FindPage dest page pageSize query db).2 =
    Gorm.issued db ++
    [Gorm.SelectCount (Gorm.conds (Database.scoped query)) None;
     Gorm.Select (Gorm.conds (Database.scoped query))
       (Some (GoInt.mul (GoInt.sub page 1) pageSize)) (Some pageSize)] /\
  (GoInt.in_range (page - 1) ->
   GoInt.in_range ((page - 1) * pageSize) ->
   GoInt.mul (GoInt.sub page 1) pageSize = (page - 1) * pageSize) /\
  GoInt.mul (GoInt.sub 1 1) pageSize = 0 /\
  (forall r1 r2 r3,
   Gorm.matching (Gorm.conds (Database.scoped query)) db = [r1; r2; r3] ->
   (Database.FindPage dest 1 2 query db).1 = ([r1; r2], (3, None)) /\
   (Database.FindPage dest 2 2 query db).1 = ([r3], (3, None))).
Proof.
  intros Hok. split; [|split; [|split]].
  - rewrite (FindPage_healthy _ _ _ _ _ Hok). cbn [snd Gorm.issued Gorm.issue].
    rewrite <- app_assoc. reflexivity.
  - intros Hpage Hprod. unfold GoInt.mul, GoInt.sub.
    rewrite (wrap_in_range _ Hpage). apply wrap_in_range, Hprod.
  - reflexivity.
  - intros r1 r2 r3 Hrows.
    rewrite !(FindPage_healthy _ _ _ _ _ Hok). cbn [fst]. rewrite Hrows.
    split; reflexivity.
Qed.

End FindPageFacts.

(** Nothing is clamped: page 0 of size 10 asks for offset -10. *)
Example FindPage_page_zero :
  Gorm.issued (Repository.FindPage 0 10 Samples.seeded_db).2 =
    [Gorm.SelectCount [Repository.all] None;
     Gorm.Select [Repository.all] (Some (-10)) (Some 10)].
Proof. reflexivity. Qed.

(** When the count fails, the select is not sent and the total is 0. *)
Example FindPage_count_failed :
  Gorm.issued (Repository.FindPage 1 2 Samples.broken_db).2 =
    [Gorm.SelectCount [Repository.all] None] /\
  (Repository.FindPage 1 2 Samples.broken_db).1 =
    ([], (0, Some (Errors.Lib.Wrap (Gorm.raise Samples.conn_lost) "count failed"))).
Proof. split; reflexivity. Qed.

(** ** The title rule of the business layer *)

Lemma Create_rejects_empty_title (demo : Model.Demo) (app : Service.App) :
  Model.Title demo = "" ->
  Service.Create demo app = ((demo, Errors.New "title cannot be empty"), app).
Proof. intros Htitle. unfold Service.Create. rewrite Htitle. reflexivity. Qed.

Lemma least_acc {T : Type} `{Gorm.Schema T} (l : list T) (acc : option T) (x : T) :
  fold_left
    (fun acc r =>
       match acc with
       | None => Some r
       | Some a => if Gorm.primary_key r <? Gorm.primary_key a then Some r else Some a
       end) l acc = Some x ->
  In x l \/ acc = Some x.
Proof.
  revert acc. induction l as [|r l IH]; intros acc Hfold; [right; exact Hfold|].
  simpl in Hfold. apply IH in Hfold. destruct Hfold as [Hin | Hacc].
  - left. right. exact Hin.
  - destruct acc as [a|].
    + destruct (Gorm.primary_key r <? Gorm.primary_key a).
      * left. left. congruence.
      * right. exact Hacc.
    + left. left. congruence.
Qed.

Lemma least_In {T : Type} `{Gorm.Schema T} (l : list T) (x : T) :
  Gorm.least l = Some x -> In x l.
Proof.
  intros Hleast. apply least_acc in Hleast. destruct Hleast as [Hin | Hacc]; [exact Hin | discriminate].
Qed.

Lemma FindByID_found (db : Repository.DB) (id : Z) (existing : Model.Demo) :
  Gorm.fault db = None ->
  Gorm.least (Gorm.matching [Database.by_id id] db) = Some existing ->
  Repository.FindByID id db =
    ((Some existing, None), Gorm.issue (Gorm.SelectFirst [Database.by_id id]) db) /\
  In existing (Gorm.rows db) /\ Model.ID existing = id.
Proof.
  intros Hok Hleast. split.
  - unfold Repository.FindByID, Database.FindByID, Gorm.First.
    cbn [Gorm.conds Gorm.Where Gorm.Model_ app]. rewrite Hok, Hleast. reflexivity.
  - apply least_In in Hleast. unfold Gorm.matching in Hleast.
    apply List.filter_In in Hleast. destruct Hleast as [Hin Hmatch].
    split; [exact Hin|].
    unfold Gorm.matches, Database.by_id in Hmatch. simpl in Hmatch.
    rewrite andb_true_r in Hmatch. apply Z.eqb_eq in Hmatch. exact Hmatch.
Qed.

(** With the record there and the database healthy, [Update] writes the
    title it is given, whatever it is. *)
Lemma Update_writes_title (app : Service.App) (id : Z) (existing demo : Model.Demo) :
  Gorm.fault (Service.db app) = None ->
  id <> 0 ->
  Gorm.least (Gorm.matching [Database.by_id id] (Service.db app)) = Some existing ->
  (Service.Update id demo app).1 = None /\
  exists row,
    In row (Gorm.rows (Service.db (Service.Update id demo app).2)) /\
    Model.ID row = id /\ Model.Title row = Model.Title demo.
Proof.
  intros Hok Hid Hleast.
  destruct (FindByID_found _ _ _ Hok Hleast) as (Hfind & Hin & Hpk).
  unfold Service.Update. rewrite Hfind. cbn [Service.db Service.logs default].
  unfold Repository.Update, Database.Update, Gorm.Save.
  cbn [Gorm.primary_key Gorm.DemoSchema Model.ID]. unfold Datatypes.id. rewrite Hpk.
  destruct (id =? 0) eqn:Hzero; [apply Z.eqb_eq in Hzero; contradiction|].
  cbn [Gorm.fault Gorm.issue Gorm.rows]. rewrite Hok.
  assert (Hex : existsb (fun r => Model.ID r =? id) (Gorm.rows (Service.db app)) = true).
  { apply existsb_exists. exists existing. split; [exact Hin | apply Z.eqb_eq, Hpk]. }
  rewrite Hex. cbn. split; [reflexivity|].
  eexists. split; [|split].
  - apply in_map_iff. exists existing. split; [|exact Hin].
    rewrite (proj2 (Z.eqb_eq _ _) Hpk). reflexivity.
  - reflexivity.
  - reflexivity.
Qed.

(** C6, at the failing input.  [Create] refuses an empty title, but
    [Update] of record 1 with an empty title returns no error and leaves
    the record stored with the empty title. *)
Theorem Update_stores_empty_title :
  (Service.Create (Model.mkDemo 0 "" "y" 1 0 0) (Service.mkApp Samples.seeded_db [])).1.2
    = Errors.New "title cannot be empty" /\
  (Service.Update 1 (Model.mkDemo 0 "" "y" 1 0 0) (Service.mkApp Samples.seeded_db [])).1
    = None /\
  Gorm.rows
    (Service.db
       (Service.Update 1 (Model.mkDemo 0 "" "y" 1 0 0)
          (Service.mkApp Samples.seeded_db [])).2) =
    [Model.mkDemo 1 "" "y" 1 10 100; Samples.demo 2 "B"; Samples.demo 3 "C"].
Proof. vm_compute. repeat split. Qed.

(** ** The create handler *)



(** ** CORS *)

Lemma Header_lookup_ne (key key' value : string) (c : Web.Context) :
  key <> key' ->
  Web.ResponseHeader (Web.Header key value c) !! key' = Web.ResponseHeader c !! key'.
Proof.
  intros Hne. unfold Web.Header.
  destruct (String.eqb value ""); cbn [Web.ResponseHeader Web.set_response_header].
  - apply lookup_delete_ne, Hne.
  - apply lookup_insert_ne, Hne.
Qed.

Lemma Header_lookup_eq (key value : string) (c : Web.Context) :
  value <> "" ->
  Web.ResponseHeader (Web.Header key value c) !! key = Some value.
Proof.
  intros Hne. unfold Web.Header.
  destruct (String.eqb value "") eqn:Hempty; [apply String.eqb_eq in Hempty; contradiction|].
  cbn [Web.ResponseHeader Web.set_response_header]. apply lookup_insert_eq.
Qed.

Lemma Header_request (key value : string) (c : Web.Context) :
  Web.Method (Web.Header key value c) = Web.Method c /\
  Web.index (Web.Header key value c) = Web.index c.
Proof. unfold Web.Header. destruct (String.eqb value ""); split; reflexivity. Qed.

Lemma annotate_request (m : Middleware.CORSMiddleware) (c : Web.Context) :
  Web.Method (Middleware.annotate m c) = Web.Method c /\
  Web.index (Middleware.annotate m c) = Web.index c.
Proof.
  unfold Middleware.annotate.
  destruct (Middleware.isOriginAllowed m _); [|destruct (Middleware.only_wildcard m)];
    repeat (rewrite (proj1 (Header_request _ _ _)) || rewrite (proj2 (Header_request _ _ _)));
    split; reflexivity.
Qed.

Lemma isOriginAllowed_iff (m : Middleware.CORSMiddleware) (origin : string) :
  Middleware.isOriginAllowed m origin = true <->
  origin <> "" /\
  (In "*" (Middleware.allowOrigins m) \/ In origin (Middleware.allowOrigins m)).
Proof.
  unfold Middleware.isOriginAllowed.
  destruct (String.eqb origin "") eqn:Hempty.
  - apply String.eqb_eq in Hempty. split; [discriminate | intros [Hne _]; contradiction].
  - apply String.eqb_neq in Hempty. rewrite existsb_exists. split.
    + intros (allowed & Hin & Hor). split; [exact Hempty|].
      apply orb_true_iff in Hor. destruct Hor as [Hstar | Hsame];
        apply String.eqb_eq in Hstar || apply String.eqb_eq in Hsame; subst; auto.
    + intros [_ [Hin | Hin]]; eexists; (split; [exact Hin|]).
      * reflexivity.
      * rewrite String.eqb_refl. apply orb_true_r.
Qed.

(** Handlers that lie before the position the context has reached do not
    run. *)
Lemma run_passed {S : Type} (rest : list (Web.HandlerFunc S)) (pos : Z) (st : Web.Context * S) :
  pos + Z.of_nat (length rest) <= Web.index st.1 ->
  Web.run rest pos st = st.
Proof.
  revert pos. induction rest as [|h rest IH]; intros pos Hpos; [reflexivity|].
  cbn [Web.run]. cbn [length] in Hpos.
  destruct (Web.index st.1 =? pos) eqn:Hat; [apply Z.eqb_eq in Hat; lia|].
  apply IH. lia.
Qed.

(** C8, as the code has it.  [Handle] always sets Access-Control-Max-Age
    to 86400.  It sets Access-Control-Allow-Origin to the origin of the
    request when that is not empty and the allow-list holds it or holds
    the wildcard, to the wildcard when the origin is not allowed and the
    allow-list is the wildcard alone, and otherwise leaves the header as
    it found it.  On OPTIONS it then aborts with status 204 and no later
    handler of the chain runs; on any other method it goes on to the
    next handler with the headers set. *)
Theorem CORS_Handle_behaviour {S : Type} (m : Middleware.CORSMiddleware)
    (ctx : Web.Context) (s : S) :
  Web.ResponseHeader (Middleware.annotate m ctx) !! "Access-Control-Max-Age"
    = Some "86400" /\
  Web.ResponseHeader (Middleware.annotate m ctx) !! "Access-Control-Allow-Origin" =
    (if Middleware.isOriginAllowed m (Web.GetHeader "Origin" ctx)
     then Some (Web.GetHeader "Origin" ctx)
     else if Middleware.only_wildcard m then Some "*"
     else Web.ResponseHeader ctx !! "Access-Control-Allow-Origin") /\
  (Middleware.isOriginAllowed m (Web.GetHeader "Origin" ctx) = true <->
   Web.GetHeader "Origin" ctx <> "" /\
   (In "*" (Middleware.allowOrigins m) \/
    In (Web.GetHeader "Origin" ctx) (Middleware.allowOrigins m))) /\
  (Web.Method ctx = "OPTIONS" ->
   (forall next,
      Middleware.Handle m next (ctx, s) =
        (Web.AbortWithStatus 204 (Middleware.annotate m ctx), s)) /\
   (forall rest,
      Web.index ctx + Z.of_nat (length rest) < Web.abortIndex ->
      Web.run (Middleware.Handle m :: rest) (Web.index ctx) (ctx, s) =
        (Web.set_index (Web.abortIndex + 1)
           (Web.set_status 204 (Middleware.annotate m ctx)), s))) /\
  (Web.Method ctx <> "OPTIONS" ->
   forall next, Middleware.Handle m next (ctx, s) = next (Middleware.annotate m ctx, s)).
Proof.
  destruct (annotate_request m ctx) as [Hmethod Hindex].
  split; [|split; [|split; [|split]]].
  - unfold Middleware.annotate. apply Header_lookup_eq. discriminate.
  - unfold Middleware.annotate.
    rewrite !Header_lookup_ne by discriminate.
    destruct (Middleware.isOriginAllowed m (Web.GetHeader "Origin" ctx)) eqn:Hallowed.
    + apply Header_lookup_eq. apply isOriginAllowed_iff in Hallowed. tauto.
    + destruct (Middleware.only_wildcard m); [|reflexivity].
      apply Header_lookup_eq. discriminate.
  - apply isOriginAllowed_iff.
  - intros Hoptions.
    assert (Hhandle : forall next,
               Middleware.Handle m next (ctx, s) =
                 (Web.AbortWithStatus 204 (Middleware.annotate m ctx), s)).
    { intros next. unfold Middleware.Handle. cbn [fst snd].
      rewrite Hmethod, Hoptions. reflexivity. }
    split; [exact Hhandle|].
    intros rest Hlen. cbn [Web.run fst]. rewrite Z.eqb_refl, Hhandle.
    apply run_passed. cbn. unfold Web.abortIndex in *. lia.
  - intros Hother next. unfold Middleware.Handle. cbn [fst snd]. rewrite Hmethod.
    destruct (String.eqb (Web.Method ctx) "OPTIONS") eqn:Hm; [|reflexivity].
    apply String.eqb_eq in Hm. contradiction.
Qed.

(** ** The statements at sample states *)

(** C1 on the empty in-process store with a callback that succeeds. *)
Lemma Remember_twice_computes_once_witness :
  (Samples.compute (Cache.env Samples.empty_memory)).1 = ("computed", None) /\
  (Cache.Remember "k" 60 Samples.compute Samples.empty_memory).1 = ("computed", None) /\
  (Cache.Remember "k" 60 Samples.compute
     (Cache.Remember "k" 60 Samples.compute Samples.empty_memory).2).1
    = ("computed", None) /\
  Cache.callbacks
    (Cache.trace
       (Cache.Remember "k" 60 Samples.compute
          (Cache.Remember "k" 60 Samples.compute Samples.empty_memory).2).2)
    = S (Cache.callbacks (Cache.trace Samples.empty_memory)).
Proof.
  apply (Remember_twice_computes_once "k" 60 Samples.compute Samples.empty_memory
           (Cache.Remember "k" 60 Samples.compute Samples.empty_memory).1
           (Cache.Remember "k" 60 Samples.compute Samples.empty_memory).2
           (Cache.Remember "k" 60 Samples.compute
              (Cache.Remember "k" 60 Samples.compute Samples.empty_memory).2).1
           (Cache.Remember "k" 60 Samples.compute
              (Cache.Remember "k" 60 Samples.compute Samples.empty_memory).2).2
           [Cache.EvGet "k"; Cache.EvCallback "computed" None;
            Cache.EvSet "k" "computed" 60 None]
           "computed" None).
  - vm_compute. reflexivity.
  - vm_compute. reflexivity.
  - vm_compute. discriminate.
  - vm_compute. reflexivity.
  - repeat constructor.
  - vm_compute. reflexivity.
Defined.

(** C2 on the empty in-process store with a callback that fails. *)
Lemma Remember_callback_error_witness :
  (Samples.failing (Cache.env Samples.empty_memory)).1 = ("", Some Samples.boom) /\
  (Cache.Remember "k" 60 Samples.failing Samples.empty_memory).1 = ("", Some Samples.boom) /\
  Forall (fun ev => Cache.is_write ev = false)
    [Cache.EvGet "k"; Cache.EvCallback "" (Some Samples.boom)] /\
  Cache.manager (Cache.Remember "k" 60 Samples.failing Samples.empty_memory).2
    = Cache.manager Samples.empty_memory /\
  Cache.mgr_get
    (Cache.manager (Cache.Remember "k" 60 Samples.failing Samples.empty_memory).2) "k"
    = Cache.mgr_get (Cache.manager Samples.empty_memory) "k".
Proof.
  apply (Remember_callback_error "k" 60 Samples.failing Samples.empty_memory
           (Cache.Remember "k" 60 Samples.failing Samples.empty_memory).1
           (Cache.Remember "k" 60 Samples.failing Samples.empty_memory).2
           [Cache.EvGet "k"; Cache.EvCallback "" (Some Samples.boom)]
           "" Samples.boom).
  - vm_compute. reflexivity.
  - vm_compute. reflexivity.
  - repeat constructor.
Defined.

(** C3 on a store that cannot be reached: [Set] fails. *)
Lemma Remember_swallows_set_error_witness :
  (Cache.Remember "k" 60 Samples.compute Samples.no_redis).1 = ("computed", None) /\
  Cache.trace (Cache.Remember "k" 60 Samples.compute Samples.no_redis).2 =
    Cache.trace Samples.no_redis ++
    [Cache.EvGet "k"; Cache.EvCallback "computed" None;
     Cache.EvSet "k" "computed" 60 (Some Cache.ConnRefused)].
Proof.
  apply (Remember_swallows_set_error "k" 60 Samples.compute Samples.no_redis
           "computed" 1%nat (Some Cache.ConnRefused)).
  - vm_compute. discriminate.
  - reflexivity.
  - reflexivity.
Defined.

(** C4 for an id that is not in the table and for a lost connection. *)
Lemma FindByID_not_found_kind_witness :
  ((Database.FindByID 9 Model.zero Samples.seeded_db).1.2 = Some Errors.ErrNotFound /\
   Errors.Is (Repository.FindByID 9 Samples.seeded_db).1.2 (Some Errors.ErrNotFound) = true /\
   Web.Status
     (Controller.GetByID (Samples.get_ctx "9", Service.mkApp Samples.seeded_db [])).1 = 404) /\
  ((Database.FindByID 1 Model.zero Samples.broken_db).1.2 =
     Some (Errors.Lib.Wrap (Gorm.raise Samples.conn_lost) "query by id failed") /\
   Errors.Is (Repository.FindByID 1 Samples.broken_db).1.2 (Some Errors.ErrNotFound) = false /\
   Web.Status
     (Controller.GetByID (Samples.get_ctx "1", Service.mkApp Samples.broken_db [])).1 = 500).
Proof.
  split.
  - destruct (proj1 (FindByID_not_found_kind Samples.seeded_db 9 Model.zero)
                eq_refl eq_refl) as (Hbase & _ & Hrepo & Hctl).
    split; [exact Hbase|]. split; [exact Hrepo|].
    exact (proj1 (Hctl (Samples.get_ctx "9") [] eq_refl)).
  - destruct (proj2 (FindByID_not_found_kind Samples.broken_db 1 Model.zero)
                Samples.conn_lost eq_refl ltac:(discriminate))
      as (Hbase & _ & _ & Hrepo & Hctl).
    split; [exact Hbase|]. split; [exact Hrepo|].
    exact (proj1 (Hctl (Samples.get_ctx "1") [] eq_refl)).
Defined.

(** C5 on the table of three records. *)
Lemma FindPage_window_witness :
  Gorm.issued (Database.FindPage [] 2 2 (Some Repository.all) Samples.seeded_db).2 =
    [Gorm.SelectCount [Repository.all] None;
     Gorm.Select [Repository.all] (Some 2) (Some 2)] /\
  (Database.FindPage [] 1 2 (Some Repository.all) Samples.seeded_db).1 =
    ([Samples.demo 1 "A"; Samples.demo 2 "B"], (3, None)) /\
  (Database.FindPage [] 2 2 (Some Repository.all) Samples.seeded_db).1 =
    ([Samples.demo 3 "C"], (3, None)).
Proof.
  destruct (FindPage_window Samples.seeded_db [] 2 2 (Some Repository.all) eq_refl)
    as (Hissued & _ & _ & Hpages).
  split; [exact Hissued|].
  exact (Hpages (Samples.demo 1 "A") (Samples.demo 2 "B") (Samples.demo 3 "C") eq_refl).
Defined.


(** C8, as amended, for a preflight and a GET from the allowed origin. *)
Lemma CORS_Handle_behaviour_witness :
  Web.run [Middleware.Handle Samples.only_good; Samples.route] 0
    (Samples.request "OPTIONS" "https://good.example", 0%nat) =
    (Web.set_index 64
       (Web.set_status 204
          (Middleware.annotate Samples.only_good
             (Samples.request "OPTIONS" "https://good.example"))), 0%nat) /\
  Middleware.Handle Samples.only_good (Samples.route (fun st => st))
    (Samples.request "GET" "https://good.example", 0%nat) =
    (Middleware.annotate Samples.only_good (Samples.request "GET" "https://good.example"),
     1%nat).
Proof.
  split.
  - destruct (CORS_Handle_behaviour Samples.only_good
                (Samples.request "OPTIONS" "https://good.example") 0%nat)
      as (_ & _ & _ & Hoptions & _).
    exact (proj2 (Hoptions eq_refl) [Samples.route] ltac:(vm_compute; reflexivity)).
  - destruct (CORS_Handle_behaviour Samples.only_good
                (Samples.request "GET" "https://good.example") 0%nat)
      as (_ & _ & _ & _ & Hother).
    exact (Hother ltac:(discriminate) (Samples.route (fun st => st))).
Defined.

(** ** Where two claims fail as they are written *)


(** C8 as stated.  With the allow-list holding one origin, a preflight
    from another origin is answered 204 without the route handler
    running, and no Access-Control-Allow-Origin header is set.  With the
    wildcard allow-list, a preflight that names its origin gets that
    origin back, not the wildcard. *)
Lemma CORS_preflight_without_allow_origin :
  Web.Status
    (Web.serve [Middleware.Handle Samples.only_good; Samples.route]
       (Samples.request "OPTIONS" "https://evil.example", 0%nat)).1 = 204 /\
  (Web.serve [Middleware.Handle Samples.only_good; Samples.route]
     (Samples.request "OPTIONS" "https://evil.example", 0%nat)).2 = 0%nat /\
  Web.ResponseHeader
    (Web.serve [Middleware.Handle Samples.only_good; Samples.route]
       (Samples.request "OPTIONS" "https://evil.example", 0%nat)).1
    !! "Access-Control-Allow-Origin" = None /\
  Middleware.allowOrigins Middleware.NewDefaultCORSMiddleware = ["*"] /\
  Web.ResponseHeader
    (Web.serve [Middleware.Handle Middleware.NewDefaultCORSMiddleware; Samples.route]
       (Samples.request "OPTIONS" "https://app.example", 0%nat)).1
    !! "Access-Control-Allow-Origin" = Some "https://app.example".
Proof. vm_compute. repeat split. Qed.

(* ================================================================== *)
(** * Further properties of the code *)
(* ================================================================== *)

(** ** Cache facade *)

Section FacadeFacts.

Context {M E : Type} `{Cache.CacheInterface M}.

Implicit Types (w : Cache.World M E) (callback : Cache.Callback E).
Implicit Types (key value : string) (ttl : Cache.Duration).

(** X1. What one call of [Remember] can do, for every backend and every
    callback: it runs the callback at most once; the only write it ever
    forwards is one [Set] of the value it returns, under the key and the
    ttl it was given, after the callback succeeded with that value; and
    an error it returns is the callback's, with the empty string and the
    manager untouched: an error of the backend's [Get] or [Set] never
    comes back. *)
Theorem Remember_discipline key ttl callback w :
  exists evs,
    Cache.trace (Cache.Remember key ttl callback w).2 = Cache.trace w ++ evs /\
    (Cache.callbacks evs <= 1)%nat /\
    (forall ev, In ev evs -> Cache.is_write ev = true ->
       (Cache.Remember key ttl callback w).1.2 = None /\
       In (Cache.EvCallback (Cache.Remember key ttl callback w).1.1 None) evs /\
       exists serr, ev = Cache.EvSet key (Cache.Remember key ttl callback w).1.1 ttl serr) /\
    (forall e, (Cache.Remember key ttl callback w).1.2 = Some e ->
       (Cache.Remember key ttl callback w).1.1 = "" /\
       Cache.manager (Cache.Remember key ttl callback w).2 = Cache.manager w /\
       exists value, In (Cache.EvCallback value (Some e)) evs).
Proof.
  destruct (Cache.mgr_get (Cache.manager w) key) as [value0 [e0|]] eqn:Hget.
  - destruct (callback (Cache.env w)) as [[value [e|]] env'] eqn:Hcb.
    + rewrite (Remember_miss_failed _ ttl _ _ _ _ _ _ _ Hget Hcb).
      exists [Cache.EvGet key; Cache.EvCallback value (Some e)].
      split; [reflexivity|]. split; [cbn; lia|]. split.
      * intros ev [<- | [<- | []]]; discriminate.
      * intros e' [= <-]. split; [reflexivity|]. split; [reflexivity|].
        exists value. right. left. reflexivity.
    + rewrite (Remember_miss_computed _ ttl _ _ _ _ _ _ Hget Hcb).
      eexists. split; [reflexivity|]. split; [cbn; lia|]. split.
      * intros ev [<- | [<- | [<- | []]]]; try discriminate. intros _.
        split; [reflexivity|]. split; [right; left; reflexivity|].
        eexists. reflexivity.
      * discriminate.
  - rewrite (Remember_hit _ ttl callback _ _ Hget).
    exists [Cache.EvGet key]. split; [reflexivity|]. split; [cbn; lia|]. split.
    + intros ev [<- | []]; discriminate.
    + discriminate.
Qed.

(** X3. [Has] answers true exactly when [Get] on the same state returns
    no error, so a key that is missing and a backend that fails both
    read as "not there"; it forwards the same single [Get] and leaves
    the manager and the caller's state as they were. *)
Theorem Has_agrees_with_Get key w :
  ((Cache.Has key w).1 = true <-> (Cache.Get key w).1.2 = None) /\
  ((Cache.Has key w).1 = false <-> exists e, (Cache.Get key w).1 = ("", Some e)) /\
  (Cache.Has key w).2 = (Cache.Get key w).2 /\
  Cache.manager (Cache.Has key w).2 = Cache.manager w /\
  Cache.env (Cache.Has key w).2 = Cache.env w /\
  Cache.trace (Cache.Has key w).2 = Cache.trace w ++ [Cache.EvGet key].
Proof.
  unfold Cache.Has, Cache.Get.
  destruct (Cache.mgr_get (Cache.manager w) key) as [value [e|]]; cbn.
  - repeat split; try discriminate.
    + intros _. exists e. reflexivity.
  - repeat split; try discriminate.
    intros [e He]. discriminate.
Qed.

End FacadeFacts.

(** X2 on a store that holds the key. *)
Lemma Remember_hit_skips_callback_witness :
  (Cache.Remember "k" 60 Samples.failing Samples.warm_memory).1 = ("cached", None) /\
  Cache.env (Cache.Remember "k" 60 Samples.failing Samples.warm_memory).2
    = Cache.env Samples.warm_memory /\
  Cache.manager (Cache.Remember "k" 60 Samples.failing Samples.warm_memory).2
    = Cache.manager Samples.warm_memory /\
  Cache.callbacks (Cache.trace (Cache.Remember "k" 60 Samples.failing Samples.warm_memory).2)
    = Cache.callbacks (Cache.trace Samples.warm_memory).
Proof.
  apply (Remember_hit_skips_callback "k" 60 Samples.failing Samples.warm_memory "cached").
  vm_compute. reflexivity.
Defined.

(** ** Errors *)

Lemma chain_has_WithHintE (e r : Error) (h : string) :
  Errors.Lib.chain_has e r = true ->
  Errors.Lib.chain_has (Errors.WithHintE e h) r = true.
Proof. intros Hc. simpl. rewrite Hc. apply orb_true_r. Qed.

Lemma chain_has_WithDetailE (e r : Error) (d : string) :
  Errors.Lib.chain_has e r = true ->
  Errors.Lib.chain_has (Errors.WithDetailE e d) r = true.
Proof. intros Hc. simpl. rewrite Hc. apply orb_true_r. Qed.

(** X4. Wrapping keeps the kind: whatever target [Is] finds in an error,
    it still finds after any of the nine wrapping functions. *)
Theorem wrappers_keep_kind (e target : Error) (msg format : string) (args : list Fmt.Arg) :
  Errors.Is (Some e) (Some target) = true ->
  Errors.Is (Errors.Wrap (Some e) msg) (Some target) = true /\
  Errors.Is (Errors.Wrapf (Some e) format args) (Some target) = true /\
  Errors.Is (Errors.WithStack (Some e)) (Some target) = true /\
  Errors.Is (Errors.WithMessage (Some e) msg) (Some target) = true /\
  Errors.Is (Errors.WithMessagef (Some e) format args) (Some target) = true /\
  Errors.Is (Errors.WithHint (Some e) msg) (Some target) = true /\
  Errors.Is (Errors.WithHintf (Some e) format args) (Some target) = true /\
  Errors.Is (Errors.WithDetail (Some e) msg) (Some target) = true /\
  Errors.Is (Errors.WithDetailf (Some e) format args) (Some target) = true.
Proof.
  unfold Errors.Is, Errors.Lib.Is. intros Hkind.
  unfold Errors.Wrap, Errors.Wrapf, Errors.WithStack, Errors.WithMessage,
    Errors.WithMessagef, Errors.WithHint, Errors.WithHintf, Errors.WithDetail,
    Errors.WithDetailf, Errors.Lib.WithStack, Errors.Lib.WithMessage.
  repeat split;
    first [ apply chain_has_Wrap | apply chain_has_Wrapf | apply chain_has_WithStackE
          | apply chain_has_WithPrefixE | apply chain_has_WithHintE
          | apply chain_has_WithDetailE ];
    exact Hkind.
Qed.

Lemma wrappers_keep_kind_witness :
  Errors.Is (Errors.Wrap (Some Errors.ErrNotFound) "lookup") (Some Errors.ErrNotFound) = true /\
  Errors.Is (Errors.WithHint (Some Errors.ErrNotFound) "check the id")
    (Some Errors.ErrNotFound) = true.
Proof.
  destruct (wrappers_keep_kind Errors.ErrNotFound Errors.ErrNotFound "lookup" "" []
              eq_refl) as (Hwrap & _ & _ & _ & _ & _ & _ & _ & _).
  destruct (wrappers_keep_kind Errors.ErrNotFound Errors.ErrNotFound "check the id" "" []
              eq_refl) as (_ & _ & _ & _ & _ & Hhint & _).
  split; [exact Hwrap | exact Hhint].
Defined.

Lemma UnwrapAll_leaf (e : Error) : Errors.Lib.UnwrapOnce (Errors.Lib.UnwrapAll e) = None.
Proof. induction e; simpl; auto. Qed.

Lemma UnwrapAll_idempotent (e : Error) :
  Errors.Lib.UnwrapAll (Errors.Lib.UnwrapAll e) = Errors.Lib.UnwrapAll e.
Proof. induction e; simpl; auto. Qed.

(** X5. [Cause] looks through every wrapper: the root cause of an error
    is the same before and after any of the nine wrapping functions; the
    root cause has no cause of its own, so [Cause] twice is [Cause]
    once; and [Unwrap] takes off exactly the one layer [WithStack],
    [WithMessage], [WithHint] or [WithDetail] put on. *)
Theorem Cause_through_wrappers (e : Error) (msg format : string) (args : list Fmt.Arg) :
  (Errors.Cause (Errors.Wrap (Some e) msg) = Errors.Cause (Some e) /\
   Errors.Cause (Errors.Wrapf (Some e) format args) = Errors.Cause (Some e) /\
   Errors.Cause (Errors.WithStack (Some e)) = Errors.Cause (Some e) /\
   Errors.Cause (Errors.WithMessage (Some e) msg) = Errors.Cause (Some e) /\
   Errors.Cause (Errors.WithMessagef (Some e) format args) = Errors.Cause (Some e) /\
   Errors.Cause (Errors.WithHint (Some e) msg) = Errors.Cause (Some e) /\
   Errors.Cause (Errors.WithHintf (Some e) format args) = Errors.Cause (Some e) /\
   Errors.Cause (Errors.WithDetail (Some e) msg) = Errors.Cause (Some e) /\
   Errors.Cause (Errors.WithDetailf (Some e) format args) = Errors.Cause (Some e)) /\
  Errors.Unwrap (Errors.Cause (Some e)) = None /\
  Errors.Cause (Errors.Cause (Some e)) = Errors.Cause (Some e) /\
  (Errors.Unwrap (Errors.WithStack (Some e)) = Some e /\
   Errors.Unwrap (Errors.WithMessage (Some e) msg) = Some e /\
   Errors.Unwrap (Errors.WithHint (Some e) msg) = Some e /\
   Errors.Unwrap (Errors.WithDetail (Some e) msg) = Some e).
Proof.
  split; [|split; [|split]].
  - unfold Errors.Cause, Errors.Wrap, Errors.Wrapf, Errors.Lib.Wrap, Errors.Lib.Wrapf.
    cbn. destruct (String.eqb msg ""), (String.eqb format "" && bool_decide (args = []));
      repeat split.
  - cbn. apply UnwrapAll_leaf.
  - cbn. rewrite UnwrapAll_idempotent. reflexivity.
  - repeat split.
Qed.

(** X6. The message of a wrapped error: [Wrap], [Wrapf], [WithMessage]
    and [WithMessagef] put their text and ": " in front of the message of
    the error they wrap, or leave the message alone when their text is
    empty; [WithStack], the hints and the details never change the
    message; the message of [nil] is empty. *)
Theorem GetMessage_of_wrappers (e : Error) (msg format : string) (args : list Fmt.Arg) :
  Errors.GetMessage None = "" /\
  Errors.GetMessage (Errors.Wrap (Some e) msg) =
    (if String.eqb msg "" then Errors.GetMessage (Some e)
     else msg +:+ ": " +:+ Errors.GetMessage (Some e)) /\
  Errors.GetMessage (Errors.WithMessage (Some e) msg) =
    (if String.eqb msg "" then Errors.GetMessage (Some e)
     else msg +:+ ": " +:+ Errors.GetMessage (Some e)) /\
  Errors.GetMessage (Errors.Wrapf (Some e) format args) =
    (if String.eqb (Fmt.Sprintf format args) "" then Errors.GetMessage (Some e)
     else Fmt.Sprintf format args +:+ ": " +:+ Errors.GetMessage (Some e)) /\
  Errors.GetMessage (Errors.WithMessagef (Some e) format args) =
    (if String.eqb (Fmt.Sprintf format args) "" then Errors.GetMessage (Some e)
     else Fmt.Sprintf format args +:+ ": " +:+ Errors.GetMessage (Some e)) /\
  Errors.GetMessage (Errors.WithStack (Some e)) = Errors.GetMessage (Some e) /\
  Errors.GetMessage (Errors.WithHint (Some e) msg) = Errors.GetMessage (Some e) /\
  Errors.GetMessage (Errors.WithHintf (Some e) format args) = Errors.GetMessage (Some e) /\
  Errors.GetMessage (Errors.WithDetail (Some e) msg) = Errors.GetMessage (Some e) /\
  Errors.GetMessage (Errors.WithDetailf (Some e) format args) = Errors.GetMessage (Some e).
Proof.
  split; [reflexivity|]. split; [|split; [reflexivity|split; [|repeat split]]].
  - cbn. unfold Errors.Lib.Wrap. destruct (String.eqb msg "") eqn:Hmsg; cbn.
    + reflexivity.
    + rewrite Hmsg. reflexivity.
  - cbn. unfold Errors.Lib.Wrapf.
    destruct (String.eqb format "") eqn:Hformat; [destruct args as [|a args]|]; cbn.
    + apply String.eqb_eq in Hformat. subst format. reflexivity.
    + reflexivity.
    + reflexivity.
Qed.

(** ** Security *)

(** X7. [ValidateCheckSum] accepts no checksum that is not 40 characters
    long, and none that holds a character other than the digits and the
    lower-case letters a to f: an upper-case digest is rejected. *)
Theorem ValidateCheckSum_rejects_malformed (checksum timestamp nonce secret : string) :
  String.length checksum <> 40%nat \/ Security.lower_hex checksum = false ->
  Security.ValidateCheckSum checksum timestamp nonce secret = false.
Proof.
  intros Hbad. unfold Security.ValidateCheckSum, Security.Sha1.
  destruct (String.eqb _ checksum) eqn:Heq; [|reflexivity].
  apply String.eqb_eq in Heq. subst checksum. exfalso.
  destruct Hbad as [Hlen | Hhex].
  - apply Hlen. rewrite hex_length, Sum_length. reflexivity.
  - rewrite hex_lower in Hhex. discriminate.
Qed.

Lemma ValidateCheckSum_rejects_malformed_witness :
  Security.ValidateCheckSum "A9993E364706816ABA3E25717850C26C9CD0D89D" "c" "b" "a" = false /\
  Security.ValidateCheckSum "a9993e364706816aba3e25717850c26c9cd0d89d" "c" "b" "a" = true.
Proof.
  split.
  - apply ValidateCheckSum_rejects_malformed. right. vm_compute. reflexivity.
  - vm_compute. reflexivity.
Defined.

(** X8. The checksum covers the three strings only through their
    concatenation: two triples of secret, nonce and timestamp that join
    to the same string are accepted with exactly the same checksums, so
    moving characters between the nonce and the timestamp goes
    unnoticed. *)
Theorem ValidateCheckSum_joins_its_parts
    (checksum timestamp nonce secret timestamp' nonce' secret' : string) :
  secret +:+ nonce +:+ timestamp = secret' +:+ nonce' +:+ timestamp' ->
  Security.ValidateCheckSum checksum timestamp nonce secret =
  Security.ValidateCheckSum checksum timestamp' nonce' secret'.
Proof. intros Hjoin. unfold Security.ValidateCheckSum. rewrite Hjoin. reflexivity. Qed.

Lemma ValidateCheckSum_joins_its_parts_witness :
  Security.ValidateCheckSum (Security.Sha1 "key1231700000000") "1700000000" "123" "key" =
  Security.ValidateCheckSum (Security.Sha1 "key1231700000000") "31700000000" "12" "key".
Proof. apply ValidateCheckSum_joins_its_parts. reflexivity. Defined.

(** ** Base repository *)

Lemma Wrap_wrapped_failure (f : Gorm.DriverError) (op : string) :
  op <> "" ->
  Props.wrapped_failure (Some (Errors.Lib.Wrap (Gorm.raise f) op)) f op.
Proof.
  intros Hop. apply String.eqb_neq in Hop.
  unfold Props.wrapped_failure, Errors.Lib.Wrap. rewrite Hop. cbn. rewrite Hop.
  split; [reflexivity|]. split; [reflexivity|]. split; [discriminate|].
  rewrite !bool_decide_eq_false_2 by discriminate. reflexivity.
Qed.

Lemma least_None {T : Type} `{Gorm.Schema T} (l : list T) :
  Gorm.least l = None <-> l = [].
Proof.
  split; [|intros ->; reflexivity].
  destruct l as [|r l]; [reflexivity|]. unfold Gorm.least. cbn.
  assert (Hsome : forall l' a, exists x,
             fold_left
               (fun acc r0 =>
                  match acc with
                  | None => Some r0
                  | Some a0 =>
                      if Gorm.primary_key r0 <? Gorm.primary_key a0 then Some r0 else Some a0
                  end) l' (Some a) = Some x).
  { induction l' as [|r' l' IH]; intros a; cbn; [eauto|].
    destruct (Gorm.primary_key r' <? Gorm.primary_key a); apply IH. }
  destruct (Hsome l r) as [x ->]. discriminate.
Qed.

Section BaseRepositoryFacts.

Context {T : Type} `{Gorm.Schema T}.

Implicit Types (db : Gorm.DB T) (dest value : T) (dests : list T) (q : Gorm.Cond T).

(** X9. While the driver fails, every operation of the base repository
    returns the failure wrapped under the operation's own message, with
    the driver's error as root cause, never bare and never as Not-Found
    (a lookup of one record maps the ORM's record-not-found to
    [ErrNotFound] instead); the counting operations return 0 and false
    with it; and the table is left as it was. *)
Theorem BaseRepository_wraps_failures db f dest dests value id q :
  Gorm.fault db = Some f ->
  (Gorm.raise f <> Gorm.ErrRecordNotFound ->
   Props.wrapped_failure (Database.FindByID id dest db).1.2 f "query by id failed" /\
   Props.wrapped_failure (Database.FindOne dest q db).1.2 f "query one failed") /\
  (Gorm.raise f = Gorm.ErrRecordNotFound ->
   (Database.FindOne dest q db).1.2 = Some Errors.ErrNotFound) /\
  Props.wrapped_failure (Database.FindAll dests q db).1.2 f "query all failed" /\
  ((Database.Count (Some q) db).1.1 = 0 /\
   Props.wrapped_failure (Database.Count (Some q) db).1.2 f "count failed") /\
  ((Database.Exists q db).1.1 = false /\
   Props.wrapped_failure (Database.Exists q db).1.2 f "check exists failed") /\
  Props.wrapped_failure (Database.Create value db).1.2 f "create failed" /\
  Props.wrapped_failure (Database.Update value db).1.2 f "update failed" /\
  Props.wrapped_failure (Database.Delete id db).1 f "delete failed" /\
  Props.wrapped_failure (Database.DeleteWhere q db).1 f "delete where failed" /\
  Gorm.rows (Database.Create value db).2 = Gorm.rows db /\
  Gorm.rows (Database.Update value db).2 = Gorm.rows db /\
  Gorm.rows (Database.Delete id db).2 = Gorm.rows db /\
  Gorm.rows (Database.DeleteWhere q db).2 = Gorm.rows db.
Proof.
  intros Hfault.
  unfold Database.FindByID, Database.FindOne, Database.FindAll, Database.Count,
    Database.Exists, Database.Create, Database.Update, Database.Delete,
    Database.DeleteWhere, Gorm.First, Gorm.Find, Gorm.Count, Gorm.Save, Gorm.Create,
    Gorm.Delete.
  rewrite !Hfault. cbn [fst snd].
  split; [|split].
  - intros Hother. rewrite !bool_decide_eq_false_2 by exact Hother. cbn [fst snd].
    split; apply Wrap_wrapped_failure; discriminate.
  - intros Hsame. rewrite bool_decide_eq_true_2 by exact Hsame. reflexivity.
  - destruct (Gorm.primary_key value =? 0); cbn [fst snd Gorm.rows Gorm.issue];
      repeat split; try reflexivity; apply Wrap_wrapped_failure; discriminate.
Qed.

(** X10. On a database that answers, the read operations agree with one
    another for every condition: [Count] is the number of records
    [FindAll] returns, [Exists] is true exactly when that number is not
    zero, [FindOne] succeeds exactly when [Exists] is true and returns
    [ErrNotFound] exactly when it is false, [FindAll] never fails for
    want of records, and the total of [FindPage] is [Count], whatever
    the page. *)
Theorem reads_agree db dest dests q page pageSize :
  Gorm.fault db = None ->
  (Database.FindAll dests q db).1.2 = None /\
  (Database.Count (Some q) db).1 =
    (Z.of_nat (length (Database.FindAll dests q db).1.1), None) /\
  (Database.Exists q db).1.2 = None /\
  ((Database.Exists q db).1.1 = true <-> (Database.FindAll dests q db).1.1 <> []) /\
  ((Database.FindOne dest q db).1.2 = None <-> (Database.Exists q db).1.1 = true) /\
  ((Database.FindOne dest q db).1.2 = Some Errors.ErrNotFound <->
   (Database.Exists q db).1.1 = false) /\
  (Database.FindPage dests page pageSize (Some q) db).1.2 = (Database.Count (Some q) db).1.
Proof.
  intros Hok.
  rewrite (FindPage_healthy _ _ _ _ _ Hok).
  unfold Database.FindOne, Database.FindAll, Database.Count, Database.Exists,
    Gorm.First, Gorm.Find, Gorm.Count.
  rewrite !Hok.
  cbn [fst snd Gorm.conds Gorm.Where Gorm.Model_ Gorm.Limit Gorm.offset Gorm.limit
       Gorm.apply_offset Gorm.apply_limit Database.scoped app].
  set (found := Gorm.matching [q] db).
  assert (Hpos : (0 <? Z.of_nat (length found)) = true <-> found <> []).
  { destruct found; cbn; split; try congruence; try discriminate. intros _. reflexivity. }
  split; [reflexivity|]. split; [reflexivity|]. split; [reflexivity|].
  split; [exact Hpos|].
  destruct (Gorm.least found) as [r|] eqn:Hleast; cbn [fst snd].
  - assert (Hne : found <> []).
    { intros Hnil. apply least_None in Hnil. congruence. }
    split; [|split; [|reflexivity]].
    + split; [intros _; apply Hpos, Hne | reflexivity].
    + split; [discriminate|]. intros Hfalse. apply Hpos in Hne. congruence.
  - apply least_None in Hleast. rewrite bool_decide_eq_true_2 by reflexivity.
    cbn [fst snd]. rewrite Hleast. cbn.
    split; [|split; [|reflexivity]].
    + split; discriminate.
    + split; reflexivity.
Qed.

(** X14. Pages on a database that answers, for a page number from 1 and
    a size from 0 such that the offset of the next page still fits an
    [int]: the page is the window of [pageSize] records that starts
    after the first [(page-1)*pageSize] matching ones, so it never holds
    more than [pageSize] records and is empty past the end, while the
    total stays the number of matching records; and a page followed by
    the next one is the window of twice the size: consecutive pages
    neither overlap nor leave a gap. *)
Theorem FindPage_pages db dests page pageSize query :
  Gorm.fault db = None ->
  1 <= page ->
  GoInt.in_range (page + 1) ->
  0 <= pageSize ->
  GoInt.in_range (page * pageSize) ->
  (Database.FindPage dests page pageSize query db).1 =
    (take (Z.to_nat pageSize)
       (drop (Z.to_nat ((page - 1) * pageSize))
          (Gorm.matching (Gorm.conds (Database.scoped query)) db)),
     (Z.of_nat (length (Gorm.matching (Gorm.conds (Database.scoped query)) db)), None)) /\
  Z.of_nat (length (Database.FindPage dests page pageSize query db).1.1) <= pageSize /\
  (Z.of_nat (length (Gorm.matching (Gorm.conds (Database.scoped query)) db))
     <= (page - 1) * pageSize ->
   (Database.FindPage dests page pageSize query db).1.1 = []) /\
  (Database.FindPage dests page pageSize query db).1.1 ++
  (Database.FindPage dests (page + 1) pageSize query db).1.1 =
    take (Z.to_nat (2 * pageSize))
      (drop (Z.to_nat ((page - 1) * pageSize))
         (Gorm.matching (Gorm.conds (Database.scoped query)) db)).
Proof.
  intros Hok Hpage Hnext Hsize Hfit.
  set (found := Gorm.matching (Gorm.conds (Database.scoped query)) db).
  assert (Hwindow : forall p, 1 <= p -> GoInt.in_range p ->
            GoInt.in_range ((p - 1) * pageSize) ->
            (Database.FindPage dests p pageSize query db).1 =
              (take (Z.to_nat pageSize) (drop (Z.to_nat ((p - 1) * pageSize)) found),
               (Z.of_nat (length found), None))).
  { intros p Hp Hpfit Hpprev.
    rewrite (FindPage_healthy _ _ _ _ _ Hok). cbn [fst]. fold found.
    assert (Hoff : GoInt.mul (GoInt.sub p 1) pageSize = (p - 1) * pageSize).
    { unfold GoInt.mul, GoInt.sub.
      assert (Hp1 : GoInt.in_range (p - 1)) by (unfold GoInt.in_range in *; lia).
      rewrite (wrap_in_range _ Hp1). apply wrap_in_range, Hpprev. }
    rewrite Hoff. unfold Gorm.apply_limit, Gorm.apply_offset.
    destruct (0 <=? pageSize) eqn:Hs; [|apply Z.leb_gt in Hs; lia].
    destruct (0 <? (p - 1) * pageSize) eqn:Ho; [reflexivity|].
    apply Z.ltb_ge in Ho. assert ((p - 1) * pageSize = 0) as -> by nia.
    reflexivity. }
  assert (Hthis : GoInt.in_range page) by (unfold GoInt.in_range in *; lia).
  assert (Hprev : GoInt.in_range ((page - 1) * pageSize))
    by (unfold GoInt.in_range in *; nia).
  assert (Hnextoff : GoInt.in_range ((page + 1 - 1) * pageSize))
    by (replace (page + 1 - 1) with page by lia; exact Hfit).
  rewrite (Hwindow page Hpage Hthis Hprev).
  rewrite (Hwindow (page + 1) ltac:(lia) Hnext Hnextoff).
  cbn [fst snd].
  split; [reflexivity|]. split; [|split].
  - rewrite length_take. lia.
  - intros Hpast. rewrite drop_ge by lia. apply take_nil.
  - replace (Z.to_nat ((page + 1 - 1) * pageSize))
      with (Z.to_nat ((page - 1) * pageSize) + Z.to_nat pageSize)%nat by nia.
    rewrite <- drop_drop, take_take_drop. f_equal. lia.
Qed.

End BaseRepositoryFacts.

(** ** Demo repository: what is written can be read back *)

Lemma matching_by_id (db : Repository.DB) (id : Z) :
  Gorm.matching [Database.by_id id] db =
  List.filter (fun r => Model.ID r =? id) (Gorm.rows db).
Proof.
  unfold Gorm.matching. apply List.filter_ext. intros r.
  unfold Gorm.matches, Database.by_id. cbn. apply andb_true_r.
Qed.

Lemma filter_nothing {A : Type} (f : A -> bool) (l : list A) :
  (forall x, In x l -> f x = false) -> List.filter f l = [].
Proof.
  induction l as [|x l IH]; intros Hnone; [reflexivity|].
  cbn. rewrite (Hnone x) by (left; reflexivity).
  apply IH. intros y Hy. apply Hnone. right. exact Hy.
Qed.

Lemma least_all_eq {T : Type} `{Gorm.Schema T} (l : list T) (x : T) :
  l <> [] -> (forall y, In y l -> y = x) -> Gorm.least l = Some x.
Proof.
  intros Hne Hall.
  destruct (Gorm.least l) as [y|] eqn:Hleast.
  - f_equal. apply Hall, least_In, Hleast.
  - apply least_None in Hleast. contradiction.
Qed.

Lemma FindByID_healthy (db : Repository.DB) (id : Z) :
  Gorm.fault db = None ->
  (Repository.FindByID id db).1 =
    match Gorm.least (Gorm.matching [Database.by_id id] db) with
    | Some r => (Some r, None)
    | None =>
        (None,
         Some (Errors.Lib.Wrapf Errors.ErrNotFound "demo not found, id: %d" [Fmt.AInt id]))
    end.
Proof.
  intros Hok. unfold Repository.FindByID, Database.FindByID, Gorm.First.
  cbn [Gorm.conds Gorm.Where Gorm.Model_ app]. rewrite Hok.
  destruct (Gorm.least _); reflexivity.
Qed.



(** X12. [Delete] by ID on a database that answers never fails, whether
    or not the record is there: afterwards the table holds exactly the
    records it held under other IDs, in their order, [FindByID] for the
    ID answers with the Not-Found kind, and when no record had the ID
    the table is unchanged. *)
Theorem Delete_then_FindByID (db : Repository.DB) (id : Z) :
  Gorm.fault db = None ->
  (Repository.Delete id db).1 = None /\
  Gorm.rows (Repository.Delete id db).2 =
    List.filter (fun r => negb (Model.ID r =? id)) (Gorm.rows db) /\
  (Repository.FindByID id (Repository.Delete id db).2).1.1 = None /\
  Errors.Is (Repository.FindByID id (Repository.Delete id db).2).1.2
    (Some Errors.ErrNotFound) = true /\
  ((forall r, In r (Gorm.rows db) -> Model.ID r <> id) ->
   Gorm.rows (Repository.Delete id db).2 = Gorm.rows db).
Proof.
  intros Hok. unfold Repository.Delete, Database.Delete, Gorm.Delete.
  cbn [Gorm.conds Gorm.Where Gorm.Model_ app]. rewrite Hok.
  cbn [fst snd Gorm.rows].
  assert (Hrows : List.filter (fun r => negb (Gorm.matches [Database.by_id id] r))
                    (Gorm.rows db)
                  = List.filter (fun r => negb (Model.ID r =? id)) (Gorm.rows db)).
  { apply List.filter_ext. intros r. unfold Gorm.matches, Database.by_id. cbn.
    rewrite andb_true_r. reflexivity. }
  rewrite Hrows.
  split; [reflexivity|]. split; [reflexivity|].
  rewrite FindByID_healthy by reflexivity.
  rewrite matching_by_id. cbn [Gorm.rows].
  rewrite (filter_nothing (fun r => Model.ID r =? id)).
  - split; [reflexivity|]. split; [apply chain_has_Wrapf, chain_has_refl|].
    intros Habsent. clear Hrows. induction (Gorm.rows db) as [|r l IH]; [reflexivity|].
    cbn. assert ((Model.ID r =? id) = false) as ->
      by (apply Z.eqb_neq, Habsent; left; reflexivity).
    cbn. f_equal. apply IH. intros r' Hin. apply Habsent. right. exact Hin.
  - intros r Hin. apply List.filter_In in Hin. destruct Hin as [_ Hkeep].
    apply negb_true_iff in Hkeep. exact Hkeep.
Qed.

Lemma Delete_then_FindByID_witness :
  (Repository.Delete 2 Samples.seeded_db).1 = None /\
  Gorm.rows (Repository.Delete 2 Samples.seeded_db).2 =
    [Samples.demo 1 "A"; Samples.demo 3 "C"] /\
  Errors.Is (Repository.FindByID 2 (Repository.Delete 2 Samples.seeded_db).2).1.2
    (Some Errors.ErrNotFound) = true.
Proof.
  destruct (Delete_then_FindByID Samples.seeded_db 2 eq_refl)
    as (Herr & Hrows & _ & Hkind & _).
  split; [exact Herr|]. split; [exact Hrows | exact Hkind].
Defined.

(** X13. [Update] of a record with a non-zero ID on a database that
    answers stores all its fields with the update time set to the
    clock's, whether or not a record with the ID was there: afterwards
    [FindByID] for the ID returns the record as stored, every record
    under the ID is that one, the records under other IDs are the same
    as before, and when no record had the ID the record is added. *)
Theorem Update_then_FindByID (db : Repository.DB) (demo : Model.Demo) :
  Gorm.fault db = None ->
  Model.ID demo <> 0 ->
  (Repository.Update demo db).1 =
    (Model.mkDemo (Model.ID demo) (Model.Title demo) (Model.Content demo)
       (Model.Status demo) (Model.CreatedAt demo) (Gorm.now db), None) /\
  (Repository.FindByID (Model.ID demo) (Repository.Update demo db).2).1 =
    (Some (Repository.Update demo db).1.1, None) /\
  (forall r, In r (Gorm.rows (Repository.Update demo db).2) ->
     Model.ID r = Model.ID demo -> r = (Repository.Update demo db).1.1) /\
  (forall r, Model.ID r <> Model.ID demo ->
     (In r (Gorm.rows (Repository.Update demo db).2) <-> In r (Gorm.rows db))) /\
  ((forall r, In r (Gorm.rows db) -> Model.ID r <> Model.ID demo) ->
   Gorm.rows (Repository.Update demo db).2 =
     Gorm.rows db ++ [(Repository.Update demo db).1.1]).
Proof.
  intros Hok Hid. unfold Repository.Update, Database.Update, Gorm.Save.
  cbn [Gorm.primary_key Gorm.DemoSchema].
  destruct (Model.ID demo =? 0) eqn:Hzero; [apply Z.eqb_eq in Hzero; contradiction|].
  rewrite Hok. cbn [fst snd Gorm.rows Gorm.stamp_updated Gorm.DemoSchema].
  set (saved := Model.mkDemo (Model.ID demo) (Model.Title demo) (Model.Content demo)
                  (Model.Status demo) (Model.CreatedAt demo) (Gorm.now db)).
  set (replace := fun r : Model.Demo => if Model.ID r =? Model.ID demo then saved else r).
  assert (Hsaved : (Model.ID saved =? Model.ID demo) = true) by apply Z.eqb_refl.
  split; [reflexivity|].
  destruct (existsb (fun r => Model.ID r =? Model.ID demo) (Gorm.rows db)) eqn:Hex.
  - (* the record was there: it is replaced *)
    apply existsb_exists in Hex. destruct Hex as (old & Hold & Hsame).
    assert (Hunder : forall r, In r (replace <$> Gorm.rows db) ->
              Model.ID r = Model.ID demo -> r = saved).
    { intros r Hin Hr. apply in_map_iff in Hin. destruct Hin as (r0 & <- & _).
      unfold replace in *. destruct (Model.ID r0 =? Model.ID demo) eqn:H0; [reflexivity|].
      apply Z.eqb_neq in H0. contradiction. }
    split; [|split; [exact Hunder|split]].
    + rewrite FindByID_healthy by reflexivity. rewrite matching_by_id. cbn [Gorm.rows].
      rewrite (least_all_eq _ saved); [reflexivity| |].
      * intros Hnil. apply (in_nil (a := saved)). rewrite <- Hnil.
        apply List.filter_In. split; [|exact Hsaved].
        apply in_map_iff. exists old. split; [|exact Hold].
        unfold replace. rewrite Hsame. reflexivity.
      * intros y Hy. apply List.filter_In in Hy. destruct Hy as [Hy Hyid].
        apply Hunder; [exact Hy | apply Z.eqb_eq, Hyid].
    + intros r Hr. rewrite in_map_iff. split.
      * intros (r0 & Hr0 & Hin). unfold replace in Hr0.
        destruct (Model.ID r0 =? Model.ID demo); [|subst; exact Hin].
        subst r. cbn in Hr. contradiction.
      * intros Hin. exists r. split; [|exact Hin]. unfold replace.
        apply Z.eqb_neq in Hr. rewrite Hr. reflexivity.
    + intros Habsent. exfalso. apply (Habsent old Hold). apply Z.eqb_eq, Hsame.
  - (* no record under the ID: the record is added *)
    assert (Habsent : forall r, In r (Gorm.rows db) -> (Model.ID r =? Model.ID demo) = false).
    { intros r Hin. apply not_true_is_false. intros Hr.
      assert (Hcontra : existsb (fun r => Model.ID r =? Model.ID demo) (Gorm.rows db) = true)
        by (apply existsb_exists; exists r; split; assumption).
      congruence. }
    split; [|split; [|split]].
    + rewrite FindByID_healthy by reflexivity. rewrite matching_by_id. cbn [Gorm.rows].
      rewrite List.filter_app, (filter_nothing _ (Gorm.rows db)) by exact Habsent.
      cbn. rewrite Z.eqb_refl. reflexivity.
    + intros r Hin Hr. apply in_app_or in Hin. destruct Hin as [Hin | [<- | []]].
      * apply Habsent in Hin. apply Z.eqb_neq in Hin. contradiction.
      * reflexivity.
    + intros r Hr. rewrite in_app_iff. split; [|auto].
      intros [Hin | [<- | []]]; [exact Hin|]. cbn in Hr. contradiction.
    + reflexivity.
Qed.

Lemma Update_then_FindByID_witness :
  (Repository.Update (Model.mkDemo 2 "B2" "z" 0 10 10) Samples.seeded_db).1 =
    (Model.mkDemo 2 "B2" "z" 0 10 100, None) /\
  (Repository.FindByID 2
     (Repository.Update (Model.mkDemo 2 "B2" "z" 0 10 10) Samples.seeded_db).2).1 =
    (Some (Model.mkDemo 2 "B2" "z" 0 10 100), None).
Proof.
  destruct (Update_then_FindByID Samples.seeded_db (Model.mkDemo 2 "B2" "z" 0 10 10)
              eq_refl ltac:(discriminate)) as (Hsaved & Hfound & _).
  split; [exact Hsaved | exact Hfound].
Defined.

Lemma BaseRepository_wraps_failures_witness :
  Errors.GetMessage (Repository.Create (Samples.demo 0 "D") Samples.broken_db).1.2
    = "create failed: invalid connection" /\
  Errors.Cause (Repository.Create (Samples.demo 0 "D") Samples.broken_db).1.2
    = Some (Gorm.raise Samples.conn_lost) /\
  Gorm.rows (Repository.Create (Samples.demo 0 "D") Samples.broken_db).2
    = Gorm.rows Samples.broken_db.
Proof.
  destruct (BaseRepository_wraps_failures Samples.broken_db Samples.conn_lost
              Model.zero [] (Samples.demo 0 "D") 1 Repository.all eq_refl)
    as (_ & _ & _ & _ & _ & (Hmsg & Hcause & _) & _ & _ & _ & Hrows & _).
  split; [exact Hmsg|]. split; [exact Hcause | exact Hrows].
Defined.

Lemma reads_agree_witness :
  (Database.Count (Some Repository.all) Samples.seeded_db).1 = (3, None) /\
  (Database.FindPage [] 2 2 (Some Repository.all) Samples.seeded_db).1.2 = (3, None).
Proof.
  destruct (reads_agree Samples.seeded_db Model.zero [] Repository.all 2 2 eq_refl)
    as (_ & Hcount & _ & _ & _ & _ & Htotal).
  split; [exact Hcount|]. rewrite Htotal. exact Hcount.
Defined.

Lemma FindPage_pages_witness :
  (Database.FindPage [] 1 2 (Some Repository.all) Samples.seeded_db).1.1 ++
  (Database.FindPage [] 2 2 (Some Repository.all) Samples.seeded_db).1.1 =
    [Samples.demo 1 "A"; Samples.demo 2 "B"; Samples.demo 3 "C"] /\
  (Database.FindPage [] 3 2 (Some Repository.all) Samples.seeded_db).1.1 = [].
Proof.
  split.
  - exact (proj2 (proj2 (proj2
      (FindPage_pages Samples.seeded_db [] 1 2 (Some Repository.all) eq_refl
         ltac:(lia) ltac:(unfold GoInt.in_range; lia) ltac:(lia)
         ltac:(unfold GoInt.in_range; lia))))).
  - apply (proj1 (proj2 (proj2
      (FindPage_pages Samples.seeded_db [] 3 2 (Some Repository.all) eq_refl
         ltac:(lia) ltac:(unfold GoInt.in_range; lia) ltac:(lia)
         ltac:(unfold GoInt.in_range; lia))))).
    vm_compute. discriminate.
Defined.

(** ** Demo service *)

Lemma FindByID_cases (db : Repository.DB) (id : Z) :
  Gorm.fault db = None ->
  Repository.FindByID id db =
    (match Gorm.least (Gorm.matching [Database.by_id id] db) with
     | Some r => (Some r, None)
     | None =>
         (None,
          Some (Errors.Lib.Wrapf Errors.ErrNotFound "demo not found, id: %d" [Fmt.AInt id]))
     end,
     Gorm.issue (Gorm.SelectFirst [Database.by_id id]) db).
Proof.
  intros Hok. unfold Repository.FindByID, Database.FindByID, Gorm.First.
  cbn [Gorm.conds Gorm.Where Gorm.Model_ app]. rewrite Hok.
  destruct (Gorm.least _); reflexivity.
Qed.

Lemma matching_absent (db : Repository.DB) (id : Z) :
  (forall r, In r (Gorm.rows db) -> Model.ID r <> id) ->
  Gorm.matching [Database.by_id id] db = [].
Proof.
  intros Habsent. rewrite matching_by_id. apply filter_nothing.
  intros r Hin. apply Z.eqb_neq, Habsent, Hin.
Qed.

Lemma matching_present (db : Repository.DB) (id : Z) (r : Model.Demo) :
  In r (Gorm.rows db) -> Model.ID r = id ->
  exists existing,
    Gorm.least (Gorm.matching [Database.by_id id] db) = Some existing /\
    In existing (Gorm.rows db) /\ Model.ID existing = id.
Proof.
  intros Hin Hid.
  destruct (Gorm.least (Gorm.matching [Database.by_id id] db)) as [x|] eqn:Hleast.
  - exists x. split; [reflexivity|]. apply least_In in Hleast.
    rewrite matching_by_id in Hleast. apply List.filter_In in Hleast.
    destruct Hleast as [Hx Hxid]. split; [exact Hx | apply Z.eqb_eq, Hxid].
  - apply least_None in Hleast. exfalso. apply (in_nil (a := r)). rewrite <- Hleast.
    rewrite matching_by_id. apply List.filter_In. split; [exact Hin | apply Z.eqb_eq, Hid].
Qed.

(** X15. [DemoService.Delete] on a database that answers.  When no
    record has the ID it returns an error of the Not-Found kind, sends
    nothing but the lookup and leaves the table as it was.  When a
    record has the ID it returns no error, the table keeps exactly the
    records under other IDs, and [GetByID] for the ID then answers with
    the Not-Found kind. *)
Theorem Service_Delete_cases (app : Service.App) (id : Z) :
  Gorm.fault (Service.db app) = None ->
  ((forall r, In r (Gorm.rows (Service.db app)) -> Model.ID r <> id) ->
   Errors.Is (Service.Delete id app).1 (Some Errors.ErrNotFound) = true /\
   Gorm.rows (Service.db (Service.Delete id app).2) = Gorm.rows (Service.db app) /\
   Gorm.issued (Service.db (Service.Delete id app).2) =
     Gorm.issued (Service.db app) ++ [Gorm.SelectFirst [Database.by_id id]]) /\
  ((exists r, In r (Gorm.rows (Service.db app)) /\ Model.ID r = id) ->
   (Service.Delete id app).1 = None /\
   Gorm.rows (Service.db (Service.Delete id app).2) =
     List.filter (fun r => negb (Model.ID r =? id)) (Gorm.rows (Service.db app)) /\
   (Service.GetByID id (Service.Delete id app).2).1.1 = None /\
   Errors.Is (Service.GetByID id (Service.Delete id app).2).1.2
     (Some Errors.ErrNotFound) = true).
Proof.
  intros Hok. unfold Service.Delete. rewrite (FindByID_cases _ _ Hok). split.
  - intros Habsent. rewrite (matching_absent _ _ Habsent).
    cbn [Gorm.least fold_left fst snd Service.db Service.logs].
    split; [apply chain_has_Wrapf, chain_has_refl|]. split; reflexivity.
  - intros (r & Hin & Hid).
    destruct (matching_present _ _ _ Hin Hid) as (existing & -> & _ & _).
    cbn [Service.db Service.logs].
    set (db1 := Gorm.issue (Gorm.SelectFirst [Database.by_id id]) (Service.db app)).
    destruct (Delete_then_FindByID db1 id Hok) as (Herr & Hrows & Hgone & Hkind & _).
    destruct (Repository.Delete id db1) as [err d] eqn:Hdel.
    cbn [fst snd] in Herr, Hrows, Hgone, Hkind. subst err.
    cbn [fst snd Service.db Service.log]. split; [reflexivity|]. split; [exact Hrows|].
    unfold Service.GetByID, Service.log. cbn [Service.db Service.logs].
    destruct (Repository.FindByID id d) as [[demo err] d'].
    cbn [fst snd] in Hgone, Hkind. subst demo.
    destruct err as [e|]; [|discriminate]. split; [reflexivity | exact Hkind].
Qed.

Lemma Service_Delete_cases_witness :
  Errors.Is (Service.Delete 9 (Service.mkApp Samples.seeded_db [])).1
    (Some Errors.ErrNotFound) = true /\
  (Service.Delete 2 (Service.mkApp Samples.seeded_db [])).1 = None /\
  Errors.Is
    (Service.GetByID 2 (Service.Delete 2 (Service.mkApp Samples.seeded_db [])).2).1.2
    (Some Errors.ErrNotFound) = true.
Proof.
  destruct (Service_Delete_cases (Service.mkApp Samples.seeded_db []) 9 eq_refl)
    as [Habsent _].
  destruct (Service_Delete_cases (Service.mkApp Samples.seeded_db []) 2 eq_refl)
    as [_ Hpresent].
  split.
  - apply Habsent. intros r [<- | [<- | [<- | []]]]; discriminate.
  - destruct Hpresent as (Herr & _ & _ & Hkind).
    + exists (Samples.demo 2 "B"). split; [right; left; reflexivity | reflexivity].
    + split; [exact Herr | exact Hkind].
Defined.

(** X16. [DemoService.Update] on a database that answers.  When no
    record has the ID it returns an error of the Not-Found kind and
    leaves the table as it was.  When a record has the (non-zero) ID it
    returns no error, and [GetByID] then returns the record with the
    title, content and status of the argument, the ID and the creation
    time it had, and the clock's time as update time: the ID and the
    time stamps of the argument are ignored. *)
Theorem Service_Update_cases (app : Service.App) (id : Z) (demo : Model.Demo) :
  Gorm.fault (Service.db app) = None ->
  ((forall r, In r (Gorm.rows (Service.db app)) -> Model.ID r <> id) ->
   Errors.Is (Service.Update id demo app).1 (Some Errors.ErrNotFound) = true /\
   Gorm.rows (Service.db (Service.Update id demo app).2) = Gorm.rows (Service.db app)) /\
  (forall existing,
   Gorm.least (Gorm.matching [Database.by_id id] (Service.db app)) = Some existing ->
   id <> 0 ->
   (Service.Update id demo app).1 = None /\
   (Service.GetByID id (Service.Update id demo app).2).1 =
     (Some (Model.mkDemo id (Model.Title demo) (Model.Content demo) (Model.Status demo)
              (Model.CreatedAt existing) (Gorm.now (Service.db app))),
      None)).
Proof.
  intros Hok. unfold Service.Update. rewrite (FindByID_cases _ _ Hok). split.
  - intros Habsent. rewrite (matching_absent _ _ Habsent).
    cbn [Gorm.least fold_left fst snd Service.db Service.logs].
    split; [apply chain_has_Wrapf, chain_has_refl | reflexivity].
  - intros existing Hleast Hid. rewrite Hleast.
    assert (Hpk : Model.ID existing = id).
    { apply least_In in Hleast. rewrite matching_by_id in Hleast.
      apply List.filter_In in Hleast. apply Z.eqb_eq, Hleast. }
    cbn [Service.db Service.logs default from_option]. unfold Datatypes.id.
    set (db1 := Gorm.issue (Gorm.SelectFirst [Database.by_id id]) (Service.db app)).
    set (changed := Model.mkDemo (Model.ID existing) (Model.Title demo)
                      (Model.Content demo) (Model.Status demo)
                      (Model.CreatedAt existing) (Model.UpdatedAt existing)).
    assert (Hchanged : Model.ID changed <> 0) by (cbn; congruence).
    destruct (Update_then_FindByID db1 changed Hok Hchanged) as (Hsaved & Hfound & _).
    destruct (Repository.Update changed db1) as [[saved err] d] eqn:Hupd.
    cbn [fst snd] in Hsaved, Hfound. inversion Hsaved; subst saved err; clear Hsaved.
    cbn [fst snd Service.db Service.log Service.logs]. split; [reflexivity|].
    unfold Service.GetByID, Service.log. cbn [Service.db Service.logs].
    unfold changed in Hfound. cbn [Model.ID Model.Title Model.Content Model.Status
                                   Model.CreatedAt] in Hfound.
    rewrite Hpk in Hfound.
    destruct (Repository.FindByID id d) as [[found err] d'].
    cbn [fst snd] in Hfound. inversion Hfound; subst found err. reflexivity.
Qed.

Lemma Service_Update_cases_witness :
  Errors.Is
    (Service.Update 9 (Model.mkDemo 77 "B2" "z" 0 1 1) (Service.mkApp Samples.seeded_db [])).1
    (Some Errors.ErrNotFound) = true /\
  (Service.GetByID 2
     (Service.Update 2 (Model.mkDemo 77 "B2" "z" 0 1 1)
        (Service.mkApp Samples.seeded_db [])).2).1 =
    (Some (Model.mkDemo 2 "B2" "z" 0 10 100), None).
Proof.
  destruct (Service_Update_cases (Service.mkApp Samples.seeded_db []) 9
              (Model.mkDemo 77 "B2" "z" 0 1 1) eq_refl) as [Habsent _].
  destruct (Service_Update_cases (Service.mkApp Samples.seeded_db []) 2
              (Model.mkDemo 77 "B2" "z" 0 1 1) eq_refl) as [_ Hpresent].
  split.
  - apply Habsent. intros r [<- | [<- | [<- | []]]]; discriminate.
  - exact (proj2 (Hpresent (Samples.demo 2 "B") eq_refl ltac:(discriminate))).
Defined.

(** ** Demo handlers *)

Lemma envelope_JSON (code : Z) (message : string) (data : Web.Data) (c : Web.Context) :
  In code [200; 400; 404; 500] ->
  (code <> 200 -> data = Web.Null) ->
  Props.uniform_envelope (Web.JSON code (Web.mkResponse code message data) c).
Proof.
  intros Hcode Hdata. exists (Web.mkResponse code message data).
  rewrite JSON_Status. split; [|split; [reflexivity|split; assumption]].
  apply JSON_Written.
  destruct Hcode as [<- | [<- | [<- | [<- | []]]]]; reflexivity.
Qed.

Ltac envelope :=
  first
    [ apply envelope_JSON; [cbn; tauto | first [reflexivity | intros Hc; contradiction]] ].

Lemma Service_Delete_absent (app : Service.App) (id : Z) :
  Gorm.fault (Service.db app) = None ->
  (forall r, In r (Gorm.rows (Service.db app)) -> Model.ID r <> id) ->
  Service.Delete id app =
    (Some (Errors.Lib.Wrapf Errors.ErrNotFound "demo not found, id: %d" [Fmt.AInt id]),
     Service.mkApp (Gorm.issue (Gorm.SelectFirst [Database.by_id id]) (Service.db app))
       (Service.logs app)).
Proof.
  intros Hok Habsent. unfold Service.Delete.
  rewrite (FindByID_cases _ _ Hok), (matching_absent _ _ Habsent). reflexivity.
Qed.

Lemma Service_Update_absent (app : Service.App) (id : Z) (demo : Model.Demo) :
  Gorm.fault (Service.db app) = None ->
  (forall r, In r (Gorm.rows (Service.db app)) -> Model.ID r <> id) ->
  Service.Update id demo app =
    (Some (Errors.Lib.Wrapf Errors.ErrNotFound "demo not found, id: %d" [Fmt.AInt id]),
     Service.mkApp (Gorm.issue (Gorm.SelectFirst [Database.by_id id]) (Service.db app))
       (Service.logs app)).
Proof.
  intros Hok Habsent. unfold Service.Update.
  rewrite (FindByID_cases _ _ Hok), (matching_absent _ _ Habsent). reflexivity.
Qed.

(** X17. An [id] path parameter that [ParseUint] refuses (empty, signed,
    not decimal, or above 32 bits) makes [GetByID], [Update] and
    [Delete] answer the 400 envelope "invalid id" before anything else:
    the body is not looked at, the service is not called, and the
    database and the log are as they were. *)
Theorem handlers_refuse_invalid_id (ctx : Web.Context) (app : Service.App) :
  Fmt.ParseUint (Web.Param "id" ctx) 32 = None ->
  Controller.GetByID (ctx, app) = (Web.BadRequest ctx "invalid id", app) /\
  Controller.Update (ctx, app) = (Web.BadRequest ctx "invalid id", app) /\
  Controller.Delete (ctx, app) = (Web.BadRequest ctx "invalid id", app) /\
  Web.Status (Web.BadRequest ctx "invalid id") = 400 /\
  Web.Written (Web.BadRequest ctx "invalid id") =
    Some (Web.mkResponse 400 "invalid id" Web.Null).
Proof.
  intros Hparse. unfold Controller.GetByID, Controller.Update, Controller.Delete.
  rewrite Hparse.
  split; [reflexivity|]. split; [reflexivity|]. split; [reflexivity|].
  split; [apply JSON_Status | apply JSON_Written; reflexivity].
Qed.

Lemma handlers_refuse_invalid_id_witness :
  Web.Status (Controller.GetByID (Samples.get_ctx "abc", Service.mkApp Samples.seeded_db [])).1
    = 400 /\
  Web.Status
    (Controller.Delete (MoreSamples.delete_ctx "-1", Service.mkApp Samples.seeded_db [])).1
    = 400 /\
  Web.Status
    (Controller.Update
       (MoreSamples.put_ctx "4294967296" "B2", Service.mkApp Samples.seeded_db [])).1
    = 400 /\
  (Controller.Delete (MoreSamples.delete_ctx "" , Service.mkApp Samples.seeded_db [])).2
    = Service.mkApp Samples.seeded_db [].
Proof.
  destruct (handlers_refuse_invalid_id (Samples.get_ctx "abc")
              (Service.mkApp Samples.seeded_db []) eq_refl) as (Hget & _ & _ & Hstatus & _).
  destruct (handlers_refuse_invalid_id (MoreSamples.delete_ctx "-1")
              (Service.mkApp Samples.seeded_db []) eq_refl) as (_ & _ & Hdel & Hstatus2 & _).
  destruct (handlers_refuse_invalid_id (MoreSamples.put_ctx "4294967296" "B2")
              (Service.mkApp Samples.seeded_db []) eq_refl) as (_ & Hupd & _ & Hstatus3 & _).
  destruct (handlers_refuse_invalid_id (MoreSamples.delete_ctx "")
              (Service.mkApp Samples.seeded_db []) eq_refl) as (_ & _ & Hdel2 & _).
  rewrite Hget, Hdel, Hupd, Hdel2. repeat split; assumption.
Defined.

(** X18. A body the binder refuses, because it does not decode or
    because its title is missing or empty, makes [Create] and [Update]
    answer a 400 envelope without calling the service: over HTTP an
    empty title reaches neither creation nor update, and the database
    and the log are as they were.  [Create] reports the binder's error
    after "invalid request: ". *)
Theorem handlers_refuse_unbound_body (ctx : Web.Context) (app : Service.App) :
  (exists e, Web.Body_ ctx = Web.Malformed e) \/
  (exists content status, Web.Body_ ctx = Web.Object "" content status) ->
  (Controller.Create (ctx, app)).2 = app /\
  Web.Status (Controller.Create (ctx, app)).1 = 400 /\
  Web.Written (Controller.Create (ctx, app)).1 =
    Some (Web.mkResponse 400
            ("invalid request: " +:+
             Errors.GetMessage (Controller.ShouldBindJSON "CreateRequest" ctx).2)
            Web.Null) /\
  (Controller.ShouldBindJSON "CreateRequest" ctx).2 <> None /\
  (Controller.Update (ctx, app)).2 = app /\
  Web.Status (Controller.Update (ctx, app)).1 = 400.
Proof.
  intros Hbody. unfold Controller.Create, Controller.Update, Controller.ShouldBindJSON.
  destruct Hbody as [[e ->] | (content & status & ->)]; cbn [String.eqb];
    (split; [reflexivity|]; split; [apply JSON_Status|];
     split; [apply JSON_Written; reflexivity|]; split; [discriminate|];
     destruct (Fmt.ParseUint (Web.Param "id" ctx) 32);
     split; first [reflexivity | apply JSON_Status]).
Qed.

Lemma handlers_refuse_unbound_body_witness :
  Web.Status
    (Controller.Update (MoreSamples.put_ctx "1" "", Service.mkApp Samples.seeded_db [])).1
    = 400 /\
  (Controller.Update (MoreSamples.put_ctx "1" "", Service.mkApp Samples.seeded_db [])).2
    = Service.mkApp Samples.seeded_db [].
Proof.
  destruct (handlers_refuse_unbound_body (MoreSamples.put_ctx "1" "")
              (Service.mkApp Samples.seeded_db []))
    as (_ & _ & _ & _ & Happ & Hstatus).
  - right. exists "y", 1. reflexivity.
  - split; [exact Hstatus | exact Happ].
Defined.

(** X19. Whatever the request and whatever the state of the database,
    each of the five Demo handlers leaves exactly one kind of answer: a
    JSON envelope whose code is the HTTP status, with status 200, 400,
    404 or 500, and with data only under 200. *)
Theorem handlers_answer_uniformly (ctx : Web.Context) (app : Service.App) :
  Props.uniform_envelope (Controller.GetByID (ctx, app)).1 /\
  Props.uniform_envelope (Controller.GetAll (ctx, app)).1 /\
  Props.uniform_envelope (Controller.Create (ctx, app)).1 /\
  Props.uniform_envelope (Controller.Update (ctx, app)).1 /\
  Props.uniform_envelope (Controller.Delete (ctx, app)).1.
Proof.
  unfold Controller.GetByID, Controller.GetAll, Controller.Create, Controller.Update,
    Controller.Delete.
  repeat split.
  - destruct (Fmt.ParseUint _ 32) as [id|]; [|envelope].
    destruct (Service.GetByID id app) as [[demo [e|]] app']; [|envelope].
    destruct (Errors.Is _ _); envelope.
  - destruct (Service.GetAll app) as [[demos [e|]] app']; envelope.
  - destruct (Controller.ShouldBindJSON _ ctx) as [req [e|]]; [envelope|].
    destruct (Service.Create _ app) as [[demo [e|]] app']; envelope.
  - destruct (Fmt.ParseUint _ 32) as [id|]; [|envelope].
    destruct (Controller.ShouldBindJSON _ ctx) as [req [e|]]; [envelope|].
    destruct (Service.Update id _ app) as [[e|] app']; [|envelope].
    destruct (Errors.Is _ _); envelope.
  - destruct (Fmt.ParseUint _ 32) as [id|]; [|envelope].
    destruct (Service.Delete id app) as [[e|] app']; [|envelope].
    destruct (Errors.Is _ _); envelope.
Qed.

(** X20. For an ID no record has, on a database that answers, the
    [Delete] handler and, given a body that binds, the [Update] handler
    answer the 404 envelope "demo not found" and leave the table as it
    was. *)
Theorem handlers_report_missing_record
    (ctx : Web.Context) (app : Service.App) (id : Z) :
  Gorm.fault (Service.db app) = None ->
  (forall r, In r (Gorm.rows (Service.db app)) -> Model.ID r <> id) ->
  Fmt.ParseUint (Web.Param "id" ctx) 32 = Some id ->
  (Web.Status (Controller.Delete (ctx, app)).1 = 404 /\
   Web.Written (Controller.Delete (ctx, app)).1 =
     Some (Web.mkResponse 404 "demo not found" Web.Null) /\
   Gorm.rows (Service.db (Controller.Delete (ctx, app)).2) = Gorm.rows (Service.db app)) /\
  ((Controller.ShouldBindJSON "UpdateRequest" ctx).2 = None ->
   Web.Status (Controller.Update (ctx, app)).1 = 404 /\
   Web.Written (Controller.Update (ctx, app)).1 =
     Some (Web.mkResponse 404 "demo not found" Web.Null) /\
   Gorm.rows (Service.db (Controller.Update (ctx, app)).2) = Gorm.rows (Service.db app)).
Proof.
  intros Hok Habsent Hparse.
  assert (Hkind : Errors.Is
            (Some (Errors.Lib.Wrapf Errors.ErrNotFound "demo not found, id: %d"
                     [Fmt.AInt id]))
            (Some Errors.ErrNotFound) = true)
    by apply chain_has_Wrapf, chain_has_refl.
  unfold Controller.Delete, Controller.Update. rewrite Hparse. split.
  - rewrite (Service_Delete_absent _ _ Hok Habsent). cbv beta iota. rewrite Hkind.
    split; [apply JSON_Status|]. split; [apply JSON_Written; reflexivity | reflexivity].
  - intros Hbound.
    destruct (Controller.ShouldBindJSON "UpdateRequest" ctx) as [req err].
    cbn [snd] in Hbound. subst err.
    rewrite (Service_Update_absent _ _ _ Hok Habsent). cbv beta iota. rewrite Hkind.
    split; [apply JSON_Status|]. split; [apply JSON_Written; reflexivity | reflexivity].
Qed.

Lemma handlers_report_missing_record_witness :
  Web.Status
    (Controller.Delete (MoreSamples.delete_ctx "9", Service.mkApp Samples.seeded_db [])).1
    = 404 /\
  Web.Status
    (Controller.Update (MoreSamples.put_ctx "9" "B2", Service.mkApp Samples.seeded_db [])).1
    = 404.
Proof.
  destruct (handlers_report_missing_record (MoreSamples.delete_ctx "9")
              (Service.mkApp Samples.seeded_db []) 9 eq_refl) as [(Hdel & _) _].
  - intros r [<- | [<- | [<- | []]]]; discriminate.
  - reflexivity.
  - destruct (handlers_report_missing_record (MoreSamples.put_ctx "9" "B2")
                (Service.mkApp Samples.seeded_db []) 9 eq_refl) as [_ Hupd].
    + intros r [<- | [<- | [<- | []]]]; discriminate.
    + reflexivity.
    + split; [exact Hdel | exact (proj1 (Hupd eq_refl))].
Defined.

(** ** CORS, the request id and the middleware set *)

Lemma string_app_assoc (s1 s2 s3 : string) :
  (s1 +:+ s2) +:+ s3 = s1 +:+ (s2 +:+ s3).
Proof.
  induction s1 as [|c s1 IH]; [reflexivity|].
  change (String c ((s1 +:+ s2) +:+ s3) = String c (s1 +:+ (s2 +:+ s3))).
  f_equal. exact IH.
Qed.

Lemma concat_head_app (sep a s : string) (rest : list string) :
  String.concat sep ((a +:+ s) :: rest) = a +:+ String.concat sep (s :: rest).
Proof.
  destruct rest as [|u rest]; [reflexivity|].
  change (((a +:+ s) +:+ sep +:+ String.concat sep (u :: rest)) =
          a +:+ (s +:+ sep +:+ String.concat sep (u :: rest))).
  apply string_app_assoc.
Qed.

Lemma joinStrings_loop (rest : list string) (first : string) :
  fold_left (fun result s => result +:+ ", " +:+ s) rest first =
  String.concat ", " (first :: rest).
Proof.
  revert first. induction rest as [|s rest IH]; intros first; [reflexivity|].
  cbn [fold_left]. rewrite IH, !concat_head_app. reflexivity.
Qed.

(** X22. [joinStrings] is the standard join with the separator ", ": the
    elements in order with ", " between neighbours, the element itself
    for a list of one, and the empty string for the empty list. *)
Theorem joinStrings_is_join (arr : list string) :
  Middleware.joinStrings arr = String.concat ", " arr /\
  Middleware.joinStrings [] = "" /\
  (forall s, Middleware.joinStrings [s] = s) /\
  (forall s t rest,
     Middleware.joinStrings (s :: t :: rest) =
     s +:+ ", " +:+ Middleware.joinStrings (t :: rest)).
Proof.
  assert (Hjoin : forall l, Middleware.joinStrings l = String.concat ", " l).
  { intros [|first rest]; [reflexivity | apply joinStrings_loop]. }
  split; [apply Hjoin|]. split; [reflexivity|]. split; [reflexivity|].
  intros s t rest. rewrite !Hjoin. reflexivity.
Qed.

(** X21. A middleware built by [NewCORSMiddleware] never has an empty
    list: a [nil] configuration and one with empty lists both give the
    defaults (any origin, six methods, three headers), and a list that
    is given is taken as it is.  The default middleware allows every
    origin that is not empty, and no configuration allows the empty
    origin. *)
Theorem NewCORSMiddleware_defaults (config : option Middleware.CORSConfig) :
  (Middleware.allowOrigins (Middleware.NewCORSMiddleware config) <> [] /\
   Middleware.allowMethods (Middleware.NewCORSMiddleware config) <> [] /\
   Middleware.allowHeaders (Middleware.NewCORSMiddleware config) <> []) /\
  Middleware.NewCORSMiddleware None =
    Middleware.NewCORSMiddleware (Some (Middleware.mkCORSConfig [] [] [])) /\
  Middleware.NewDefaultCORSMiddleware =
    Middleware.mkCORSMiddleware ["*"]
      ["GET"; "POST"; "PUT"; "DELETE"; "PATCH"; "OPTIONS"]
      ["Content-Type"; "Authorization"; "X-Request-ID"] /\
  (forall c, config = Some c ->
     (Middleware.AllowOrigins c <> [] ->
      Middleware.allowOrigins (Middleware.NewCORSMiddleware config) = Middleware.AllowOrigins c) /\
     (Middleware.AllowMethods c <> [] ->
      Middleware.allowMethods (Middleware.NewCORSMiddleware config) = Middleware.AllowMethods c) /\
     (Middleware.AllowHeaders c <> [] ->
      Middleware.allowHeaders (Middleware.NewCORSMiddleware config) = Middleware.AllowHeaders c)) /\
  (forall origin, origin <> "" ->
     Middleware.isOriginAllowed Middleware.NewDefaultCORSMiddleware origin = true) /\
  Middleware.isOriginAllowed (Middleware.NewCORSMiddleware config) "" = false.
Proof.
  split; [|split; [reflexivity|split; [reflexivity|split; [|split]]]].
  - unfold Middleware.NewCORSMiddleware.
    destruct config as [[[|o os] [|m ms] [|h hs]]|]; cbn; repeat split; discriminate.
  - intros c ->. unfold Middleware.NewCORSMiddleware. cbn.
    destruct c as [[|o os] [|m ms] [|h hs]]; cbn; repeat split; congruence.
  - intros origin Hne. apply isOriginAllowed_iff. split; [exact Hne|]. left. left.
    reflexivity.
  - reflexivity.
Qed.

Lemma annotate_fields (m : Middleware.CORSMiddleware) (c : Web.Context) :
  Web.RequestHeader (Middleware.annotate m c) = Web.RequestHeader c /\
  Web.Params (Middleware.annotate m c) = Web.Params c /\
  Web.Body_ (Middleware.annotate m c) = Web.Body_ c /\
  Web.Status (Middleware.annotate m c) = Web.Status c /\
  Web.Written (Middleware.annotate m c) = Web.Written c.
Proof.
  unfold Middleware.annotate, Web.Header.
  repeat match goal with
         | |- context [if ?b then _ else _] => destruct b
         end; repeat split.
Qed.

(** X23. What [Handle] does to a context besides the allow-origin
    header: it sets Access-Control-Allow-Credentials to "true" and the
    max age, sets the allowed methods and headers to the joined lists (or
    removes the header when the joined list is empty), touches no other
    response header, and changes nothing of the request, the position in
    the chain, the status or a body already written. *)
Theorem CORS_touches_only_its_headers (m : Middleware.CORSMiddleware) (ctx : Web.Context) :
  Web.ResponseHeader (Middleware.annotate m ctx) !! "Access-Control-Allow-Credentials"
    = Some "true" /\
  Web.ResponseHeader (Middleware.annotate m ctx) !! "Access-Control-Allow-Methods" =
    (if String.eqb (Middleware.joinStrings (Middleware.allowMethods m)) "" then None
     else Some (Middleware.joinStrings (Middleware.allowMethods m))) /\
  Web.ResponseHeader (Middleware.annotate m ctx) !! "Access-Control-Allow-Headers" =
    (if String.eqb (Middleware.joinStrings (Middleware.allowHeaders m)) "" then None
     else Some (Middleware.joinStrings (Middleware.allowHeaders m))) /\
  (forall key,
     ~ In key ["Access-Control-Allow-Origin"; "Access-Control-Allow-Methods";
               "Access-Control-Allow-Headers"; "Access-Control-Allow-Credentials";
               "Access-Control-Max-Age"] ->
     Web.ResponseHeader (Middleware.annotate m ctx) !! key = Web.ResponseHeader ctx !! key) /\
  Web.Method (Middleware.annotate m ctx) = Web.Method ctx /\
  Web.RequestHeader (Middleware.annotate m ctx) = Web.RequestHeader ctx /\
  Web.Params (Middleware.annotate m ctx) = Web.Params ctx /\
  Web.Body_ (Middleware.annotate m ctx) = Web.Body_ ctx /\
  Web.index (Middleware.annotate m ctx) = Web.index ctx /\
  Web.Status (Middleware.annotate m ctx) = Web.Status ctx /\
  Web.Written (Middleware.annotate m ctx) = Web.Written ctx.
Proof.
  destruct (annotate_request m ctx) as [Hmethod Hindex].
  destruct (annotate_fields m ctx) as (Hrh & Hparams & Hbody & Hstatus & Hwritten).
  split; [|split; [|split; [|split; [|repeat split; assumption]]]].
  - unfold Middleware.annotate. rewrite Header_lookup_ne by discriminate.
    apply Header_lookup_eq. discriminate.
  - unfold Middleware.annotate. rewrite !Header_lookup_ne by discriminate.
    unfold Web.Header at 1.
    destruct (String.eqb (Middleware.joinStrings (Middleware.allowMethods m)) "");
      cbn [Web.ResponseHeader Web.set_response_header];
      [apply lookup_delete_eq | apply lookup_insert_eq].
  - unfold Middleware.annotate. rewrite !Header_lookup_ne by discriminate.
    unfold Web.Header at 1.
    destruct (String.eqb (Middleware.joinStrings (Middleware.allowHeaders m)) "");
      cbn [Web.ResponseHeader Web.set_response_header];
      [apply lookup_delete_eq | apply lookup_insert_eq].
  - intros key Hkey. unfold Middleware.annotate.
    assert (Hne : forall k, In k ["Access-Control-Allow-Origin";
                                  "Access-Control-Allow-Methods";
                                  "Access-Control-Allow-Headers";
                                  "Access-Control-Allow-Credentials";
                                  "Access-Control-Max-Age"] -> k <> key)
      by (intros k Hk ->; contradiction).
    rewrite !Header_lookup_ne by (apply Hne; cbn; tauto).
    destruct (Middleware.isOriginAllowed m _);
      [|destruct (Middleware.only_wildcard m)];
      rewrite ?Header_lookup_ne by (apply Hne; cbn; tauto); reflexivity.
Qed.

(** X24. The middleware set always carries a CORS middleware.  With CORS
    switched off in the configuration it is the default one, whose
    allow-list is the wildcard, so it allows every origin that is not
    empty, whatever lists the configuration holds; switched on, it is
    built from the lists of the configuration, with the defaults for
    those that are empty. *)
Theorem NewMiddleware_cors (cors : MiddlewareSet.CORSSettings) :
  (MiddlewareSet.Enabled cors = false ->
   MiddlewareSet.NewMiddleware cors = Middleware.NewDefaultCORSMiddleware /\
   Middleware.allowOrigins (MiddlewareSet.NewMiddleware cors) = ["*"] /\
   forall origin, origin <> "" ->
     Middleware.isOriginAllowed (MiddlewareSet.NewMiddleware cors) origin = true) /\
  (MiddlewareSet.Enabled cors = true ->
   MiddlewareSet.NewMiddleware cors =
     Middleware.NewCORSMiddleware
       (Some (Middleware.mkCORSConfig (MiddlewareSet.AllowOrigins cors)
                (MiddlewareSet.AllowMethods cors) (MiddlewareSet.AllowHeaders cors))) /\
   (MiddlewareSet.AllowOrigins cors <> [] ->
    forall origin,
      Middleware.isOriginAllowed (MiddlewareSet.NewMiddleware cors) origin = true <->
      origin <> "" /\
      (In "*" (MiddlewareSet.AllowOrigins cors) \/ In origin (MiddlewareSet.AllowOrigins cors))) /\
   (MiddlewareSet.AllowOrigins cors = [] ->
    Middleware.allowOrigins (MiddlewareSet.NewMiddleware cors) = ["*"])).
Proof.
  unfold MiddlewareSet.NewMiddleware. split; intros ->.
  - split; [reflexivity|]. split; [reflexivity|].
    intros origin Hne. apply isOriginAllowed_iff. split; [exact Hne|]. left. left.
    reflexivity.
  - split; [reflexivity|]. split.
    + intros Hne origin. rewrite isOriginAllowed_iff.
      unfold Middleware.NewCORSMiddleware. cbn.
      destruct (MiddlewareSet.AllowOrigins cors); [contradiction | reflexivity].
    + intros Hnil. unfold Middleware.NewCORSMiddleware. cbn. rewrite Hnil. reflexivity.
Qed.

Lemma NewMiddleware_cors_witness :
  Middleware.isOriginAllowed
    (MiddlewareSet.NewMiddleware
       (MiddlewareSet.mkCORSSettings false ["https://good.example"] [] []))
    "https://evil.example" = true /\
  Middleware.isOriginAllowed
    (MiddlewareSet.NewMiddleware
       (MiddlewareSet.mkCORSSettings true ["https://good.example"] [] []))
    "https://evil.example" = false.
Proof.
  split.
  - apply (proj1 (NewMiddleware_cors
                    (MiddlewareSet.mkCORSSettings false ["https://good.example"] [] []))
             eq_refl).
    discriminate.
  - destruct (proj2 (NewMiddleware_cors
                       (MiddlewareSet.mkCORSSettings true ["https://good.example"] [] []))
                eq_refl) as (_ & Hiff & _).
    apply not_true_is_false. intros Hallowed.
    apply (Hiff ltac:(discriminate)) in Hallowed.
    destruct Hallowed as [_ [[Heq | []] | [Heq | []]]]; discriminate.
Defined.

Lemma Header_fields (key value : string) (c : Web.Context) :
  Web.Method (Web.Header key value c) = Web.Method c /\
  Web.index (Web.Header key value c) = Web.index c /\
  Web.Status (Web.Header key value c) = Web.Status c /\
  Web.Written (Web.Header key value c) = Web.Written c.
Proof. unfold Web.Header. destruct (String.eqb value ""); repeat split. Qed.

(** X25. The request-id middleware, for every context and scope: the
    identifier is the inbound X-Request-ID header when that is not
    empty, and otherwise the next one of the generator, of which exactly
    one is then used up.  The next handler always runs, on a scope in
    which [GetRequestID] reads that identifier and every other key is as
    before, and on a context that differs only in the response header
    X-Request-ID, which is that identifier when it is not empty. *)
Theorem RequestID_Handle_spec (next : Web.Context * RequestID.Scope -> Web.Context * RequestID.Scope)
    (ctx : Web.Context) (sc : RequestID.Scope) :
  exists id ctx' sc',
    RequestID.Handle next (ctx, sc) = next (ctx', sc') /\
    id = (if String.eqb (Web.GetHeader "X-Request-ID" ctx) ""
          then RequestID.uuid_source sc (RequestID.uuid_next sc)
          else Web.GetHeader "X-Request-ID" ctx) /\
    RequestID.GetRequestID sc' = id /\
    RequestID.uuid_next sc' =
      (if String.eqb (Web.GetHeader "X-Request-ID" ctx) ""
       then S (RequestID.uuid_next sc) else RequestID.uuid_next sc) /\
    (forall key, key <> "request_id" ->
       RequestID.Keys sc' !! key = RequestID.Keys sc !! key) /\
    (id <> "" -> Web.ResponseHeader ctx' !! "X-Request-ID" = Some id) /\
    (forall key, key <> "X-Request-ID" ->
       Web.ResponseHeader ctx' !! key = Web.ResponseHeader ctx !! key) /\
    Web.Method ctx' = Web.Method ctx /\
    Web.index ctx' = Web.index ctx /\
    Web.Status ctx' = Web.Status ctx /\
    Web.Written ctx' = Web.Written ctx.
Proof.
  unfold RequestID.Handle. cbn [fst snd].
  change Constants.HeaderRequestID with "X-Request-ID".
  change Constants.CtxKeyRequestID with "request_id".
  destruct (String.eqb (Web.GetHeader "X-Request-ID" ctx) "") eqn:Hinbound;
    cbn [RequestID.uuid_New].
  - eexists _, _, _. split; [reflexivity|]. split; [reflexivity|].
    split; [unfold RequestID.GetRequestID, RequestID.Set_; cbn;
            change Constants.CtxKeyRequestID with "request_id";
            rewrite lookup_insert_eq; reflexivity|].
    split; [reflexivity|].
    split; [intros key Hkey; cbn; apply lookup_insert_ne; congruence|].
    split; [intros Hid; apply Header_lookup_eq, Hid|].
    split; [intros key Hkey; apply Header_lookup_ne; congruence|].
    apply Header_fields.
  - eexists _, _, _. split; [reflexivity|]. split; [reflexivity|].
    split; [unfold RequestID.GetRequestID, RequestID.Set_; cbn;
            change Constants.CtxKeyRequestID with "request_id";
            rewrite lookup_insert_eq; reflexivity|].
    split; [reflexivity|].
    split; [intros key Hkey; cbn; apply lookup_insert_ne; congruence|].
    split; [intros Hid; apply Header_lookup_eq, Hid|].
    split; [intros key Hkey; apply Header_lookup_ne; congruence|].
    apply Header_fields.
Qed.

(** ** Random strings *)

Lemma get_In (s : string) (n : nat) (c : ascii) :
  String.get n s = Some c -> In c (list_ascii_of_string s).
Proof.
  revert n. induction s as [|a s IH]; intros n Hget; [discriminate|].
  destruct n as [|n]; cbn in *.
  - left. congruence.
  - right. exact (IH n Hget).
Qed.

Lemma get_lt (s : string) (n : nat) :
  (n < String.length s)%nat -> exists c, String.get n s = Some c.
Proof.
  revert n. induction s as [|a s IH]; intros n Hn; cbn in Hn; [lia|].
  destruct n as [|n]; cbn; [eauto|]. apply IH. lia.
Qed.

Lemma byte_at_in_range (charset : string) (i : Z) :
  0 <= i < Z.of_nat (String.length charset) ->
  exists c, Tools.byte_at i charset = Tools.Returned c /\
            In c (list_ascii_of_string charset).
Proof.
  intros Hi. unfold Tools.byte_at.
  destruct (i <? 0) eqn:Hneg; [apply Z.ltb_lt in Hneg; lia|].
  destruct (get_lt charset (Z.to_nat i) ltac:(lia)) as [c Hc].
  rewrite Hc. exists c. split; [reflexivity | exact (get_In _ _ _ Hc)].
Qed.

Lemma fill_shape (charset : string) (n : nat) (r : Tools.Reader) :
  charset <> "" ->
  exists s,
    Tools.fill n charset r = (Tools.Returned s, drop n r) /\
    String.length s = n /\ Tools.drawn_from charset s.
Proof.
  intros Hne.
  assert (Hlen : 0 < Z.of_nat (String.length charset)).
  { destruct charset; [contradiction | cbn; lia]. }
  revert r. induction n as [|n IH]; intros r.
  - exists "". split; [rewrite drop_0; reflexivity|]. split; [reflexivity | constructor].
  - cbn [Tools.fill]. unfold Tools.Int.
    destruct (Z.of_nat (String.length charset) <=? 0) eqn:Hmax;
      [apply Z.leb_le in Hmax; lia|].
    assert (Hstep : forall randomInt (err : error) r',
              0 <= randomInt < Z.of_nat (String.length charset) ->
              exists s,
                match
                  match err with
                  | Some _ => Tools.byte_at 0 charset
                  | None => Tools.byte_at randomInt charset
                  end
                with
                | Tools.Panicked msg => (Tools.Panicked msg, r')
                | Tools.Returned c =>
                    match Tools.fill n charset r' with
                    | (Tools.Returned s, r0) => (Tools.Returned (String c s), r0)
                    | (Tools.Panicked msg, r0) => (Tools.Panicked msg, r0)
                    end
                end = (Tools.Returned s, drop n r') /\
                String.length s = S n /\ Tools.drawn_from charset s).
    { intros randomInt err r' Hrange.
      assert (Hbyte : exists c,
                 match err with
                 | Some _ => Tools.byte_at 0 charset
                 | None => Tools.byte_at randomInt charset
                 end = Tools.Returned c /\ In c (list_ascii_of_string charset)).
      { destruct err; apply byte_at_in_range; lia. }
      destruct Hbyte as (c & -> & Hc). destruct (IH r') as (s & -> & Hs & Hfrom).
      exists (String c s). split; [reflexivity|]. split; [cbn; lia|].
      constructor; assumption. }
    destruct r as [|[e|raw] r'].
    + destruct (Hstep 0 (Some Tools.ErrUnexpectedEOF) [] ltac:(lia)) as (s & Hs).
      rewrite drop_nil in Hs. exists s. exact Hs.
    + destruct (Hstep 0 (Some e) r' ltac:(lia)) as (s & Hs). exists s. exact Hs.
    + destruct (Hstep (raw mod Z.of_nat (String.length charset)) None r'
                  ltac:(apply Z.mod_pos_bound; lia)) as (s & Hs).
      exists s. exact Hs.
Qed.

(** X26. Random strings.  A length of zero or less gives the empty
    string and reads nothing.  For a positive length and a character set
    that is not empty the call returns, never panics, a string of
    exactly that many bytes, each a byte of the character set, and takes
    one draw from the reader for each byte; so [RandNumber] gives
    digits only, [RandStringLower] lower-case letters only, and so on. *)
Theorem randString_shape (length : Z) (charset : string) (r : Tools.Reader) :
  (length <= 0 -> Tools.randStringFromCharset length charset r = (Tools.Returned "", r)) /\
  (0 < length -> charset <> "" ->
   exists s,
     Tools.randStringFromCharset length charset r
       = (Tools.Returned s, drop (Z.to_nat length) r) /\
     Z.of_nat (String.length s) = length /\
     Tools.drawn_from charset s) /\
  (0 < length ->
   (exists s, (Tools.RandNumber length r).1 = Tools.Returned s /\
              Tools.drawn_from "0123456789" s) /\
   (exists s, (Tools.RandStringLower length r).1 = Tools.Returned s /\
              Tools.drawn_from "abcdefghijklmnopqrstuvwxyz" s) /\
   (exists s, (Tools.RandStringUpper length r).1 = Tools.Returned s /\
              Tools.drawn_from "ABCDEFGHIJKLMNOPQRSTUVWXYZ" s) /\
   (exists s, (Tools.RandString length r).1 = Tools.Returned s /\
              Tools.drawn_from
                "abcdefghijklmnopqrstuvwxyzABCDEFGHIJKLMNOPQRSTUVWXYZ0123456789" s)).
Proof.
  assert (Hshape : forall cs, 0 < length -> cs <> "" ->
            exists s,
              Tools.randStringFromCharset length cs r
                = (Tools.Returned s, drop (Z.to_nat length) r) /\
              Z.of_nat (String.length s) = length /\ Tools.drawn_from cs s).
  { intros cs Hpos Hne. unfold Tools.randStringFromCharset.
    destruct (length <=? 0) eqn:Hle; [apply Z.leb_le in Hle; lia|].
    destruct (fill_shape cs (Z.to_nat length) r Hne) as (s & Hfill & Hlen & Hfrom).
    exists s. split; [exact Hfill|]. split; [lia | exact Hfrom]. }
  split; [|split].
  - intros Hle. unfold Tools.randStringFromCharset.
    apply Z.leb_le in Hle. rewrite Hle. reflexivity.
  - apply Hshape.
  - intros Hpos.
    unfold Tools.RandNumber, Tools.RandStringLower, Tools.RandStringUpper, Tools.RandString.
    repeat split.
    + destruct (Hshape Tools.numbers Hpos ltac:(discriminate)) as (s & -> & _ & Hfrom).
      exists s. split; [reflexivity | exact Hfrom].
    + destruct (Hshape Tools.alphaLower Hpos ltac:(discriminate)) as (s & -> & _ & Hfrom).
      exists s. split; [reflexivity | exact Hfrom].
    + destruct (Hshape Tools.alphaUpper Hpos ltac:(discriminate)) as (s & -> & _ & Hfrom).
      exists s. split; [reflexivity | exact Hfrom].
    + destruct (Hshape Tools.alphaNumeric Hpos ltac:(discriminate)) as (s & -> & _ & Hfrom).
      exists s. split; [reflexivity | exact Hfrom].
Qed.

Lemma fill_failing (c : ascii) (rest : string) (n : nat) (r : Tools.Reader) :
  Forall (fun d => exists e, d = Tools.Failed e) r ->
  Tools.fill n (String c rest) r =
    (Tools.Returned (string_of_list_ascii (repeat c n)), drop n r).
Proof.
  revert r. induction n as [|n IH]; intros r Hfail.
  - rewrite drop_0. reflexivity.
  - cbn [Tools.fill]. unfold Tools.Int.
    destruct (Z.of_nat (String.length (String c rest)) <=? 0) eqn:Hmax;
      [apply Z.leb_le in Hmax; cbn in Hmax; lia|].
    destruct r as [|d r'].
    + cbn [Tools.byte_at Z.ltb Z.compare Z.to_nat String.get]. rewrite (IH [] Hfail).
      rewrite drop_nil. reflexivity.
    + inversion Hfail as [|d0 r0 [e ->] Hrest]; subst.
      cbn [Tools.byte_at Z.ltb Z.compare Z.to_nat String.get]. rewrite (IH r' Hrest).
      reflexivity.
Qed.

(** X27. Where the random strings degrade.  With an empty character set
    and a positive length the call panics, whatever the reader holds.
    With a reader that fails on every draw (or is used up) the call
    still returns without error: the first byte of the character set,
    repeated [length] times. *)
Theorem randString_degraded (length : Z) (r : Tools.Reader) :
  0 < length ->
  Tools.randStringFromCharset length "" r =
    (Tools.Panicked "crypto/rand: argument to Int is <= 0", r) /\
  (forall c rest,
     Forall (fun d => exists e, d = Tools.Failed e) r ->
     Tools.randStringFromCharset length (String c rest) r =
       (Tools.Returned (string_of_list_ascii (repeat c (Z.to_nat length))),
        drop (Z.to_nat length) r)).
Proof.
  intros Hpos. unfold Tools.randStringFromCharset.
  destruct (length <=? 0) eqn:Hle; [apply Z.leb_le in Hle; lia|]. split.
  - destruct (Z.to_nat length) as [|n] eqn:Hn; [lia|]. reflexivity.
  - intros c rest Hfail. apply fill_failing, Hfail.
Qed.

Lemma randString_degraded_witness :
  Tools.RandStringCustom 3 "" [Tools.Drawn 7] =
    (Tools.Panicked "crypto/rand: argument to Int is <= 0", [Tools.Drawn 7]) /\
  Tools.RandNumber 4 [] = (Tools.Returned "0000", []).
Proof.
  destruct (randString_degraded 3 [Tools.Drawn 7] ltac:(lia)) as [Hpanic _].
  destruct (randString_degraded 4 [] ltac:(lia)) as [_ Hfallback].
  split; [exact Hpanic|]. exact (Hfallback "0"%char "123456789" ltac:(constructor)).
Defined.

(** ** Configuration and the cache factory *)

Lemma or_string_set (value fallback : string) :
  value <> "" -> Config.or_string value fallback = value.
Proof.
  intros Hne. unfold Config.or_string. apply String.eqb_neq in Hne. rewrite Hne.
  reflexivity.
Qed.

Lemma or_int_set (value fallback : Z) :
  value <> 0 -> Config.or_int value fallback = value.
Proof.
  intros Hne. unfold Config.or_int. apply Z.eqb_neq in Hne. rewrite Hne. reflexivity.
Qed.

Lemma or_string_filled (value fallback : string) :
  fallback <> "" -> Config.or_string value fallback <> "".
Proof.
  intros Hne. unfold Config.or_string.
  destruct (String.eqb value "") eqn:Hv; [exact Hne | apply String.eqb_neq, Hv].
Qed.

Lemma or_int_filled (value fallback : Z) :
  fallback <> 0 -> Config.or_int value fallback <> 0.
Proof.
  intros Hne. unfold Config.or_int.
  destruct (value =? 0) eqn:Hv; [exact Hne | apply Z.eqb_neq, Hv].
Qed.

Lemma setDefaults_fixed (cfg : Config.Config) :
  Config.defaulted cfg -> Config.setDefaults cfg = cfg.
Proof.
  intros (H1 & H2 & H3 & H4 & H5 & H6 & H7 & H8 & H9 & H10 & H11).
  destruct cfg as [[] [] [] [] []]. cbn in *. unfold Config.setDefaults. cbn.
  rewrite !or_string_set, !or_int_set by assumption. reflexivity.
Qed.

Lemma setDefaults_defaulted (cfg : Config.Config) :
  Config.defaulted (Config.setDefaults cfg).
Proof.
  unfold Config.defaulted, Config.setDefaults. cbn.
  repeat split; first [apply or_string_filled | apply or_int_filled]; discriminate.
Qed.

(** X28. [setDefaults] fills exactly the eleven settings it knows when
    they are empty or zero and changes nothing else: afterwards all
    eleven are set, a configuration in which they were set already comes
    back unchanged, applying it twice is the same as once, and the
    sixteen settings without a default (ports, hosts, drivers,
    credentials, database names, the log file and the switches) are
    always kept.  A zero cannot be
    configured for a setting with a default: a cache TTL of 0 becomes
    300. *)
Theorem setDefaults_fills_gaps (cfg : Config.Config) :
  Config.defaulted (Config.setDefaults cfg) /\
  (Config.defaulted cfg -> Config.setDefaults cfg = cfg) /\
  Config.setDefaults (Config.setDefaults cfg) = Config.setDefaults cfg /\
  (Config.Server_Port (Config.Server (Config.setDefaults cfg))
     = Config.Server_Port (Config.Server cfg) /\
   Config.Database_Driver (Config.Database (Config.setDefaults cfg))
     = Config.Database_Driver (Config.Database cfg) /\
   Config.Database_Host (Config.Database (Config.setDefaults cfg))
     = Config.Database_Host (Config.Database cfg) /\
   Config.Database_Port (Config.Database (Config.setDefaults cfg))
     = Config.Database_Port (Config.Database cfg) /\
   Config.Database_Username (Config.Database (Config.setDefaults cfg))
     = Config.Database_Username (Config.Database cfg) /\
   Config.Database_Password (Config.Database (Config.setDefaults cfg))
     = Config.Database_Password (Config.Database cfg) /\
   Config.Database_Database (Config.Database (Config.setDefaults cfg))
     = Config.Database_Database (Config.Database cfg) /\
   Config.Database_ParseTime (Config.Database (Config.setDefaults cfg))
     = Config.Database_ParseTime (Config.Database cfg) /\
   Config.Redis_Host (Config.Redis (Config.setDefaults cfg))
     = Config.Redis_Host (Config.Redis cfg) /\
   Config.Redis_Port (Config.Redis (Config.setDefaults cfg))
     = Config.Redis_Port (Config.Redis cfg) /\
   Config.Redis_Password (Config.Redis (Config.setDefaults cfg))
     = Config.Redis_Password (Config.Redis cfg) /\
   Config.Redis_DB (Config.Redis (Config.setDefaults cfg))
     = Config.Redis_DB (Config.Redis cfg) /\
   Config.Cache_Driver (Config.Cache (Config.setDefaults cfg))
     = Config.Cache_Driver (Config.Cache cfg) /\
   Config.Logger_Filename (Config.Logger (Config.setDefaults cfg))
     = Config.Logger_Filename (Config.Logger cfg) /\
   Config.Logger_Compress (Config.Logger (Config.setDefaults cfg))
     = Config.Logger_Compress (Config.Logger cfg) /\
   Config.Logger_Console (Config.Logger (Config.setDefaults cfg))
     = Config.Logger_Console (Config.Logger cfg)) /\
  (Config.Cache_TTL (Config.Cache cfg) = 0 ->
   Config.Cache_TTL (Config.Cache (Config.setDefaults cfg)) = 300).
Proof.
  split; [apply setDefaults_defaulted|]. split; [apply setDefaults_fixed|].
  split; [apply setDefaults_fixed, setDefaults_defaulted|].
  split; [repeat split|].
  intros Hzero. cbn. rewrite Hzero. reflexivity.
Qed.

Lemma string_app_empty (s : string) : s +:+ "" = s.
Proof.
  induction s as [|c s IH]; [reflexivity|].
  change (String c (s +:+ "") = String c s). f_equal. exact IH.
Qed.

(** X29. [NewCacheManager] builds a manager, and returns no error, for
    exactly two settings of the driver: "memory", for which the Redis
    client is not looked at, and "redis" with a client that is not
    [nil]; it returns either a manager or an error, never both and never
    neither.  Every other driver, "chain" and the empty string among
    them, is reported as unsupported, and [setDefaults] does not change
    that, since it has no default for the driver.  The in-process store
    is made with the TTL in seconds as default expiration and twice that
    as clean-up interval, when these fit 64 bits. *)
Theorem NewCacheManager_drivers (cfg : Config.Config)
    (client : option CacheFactory.RedisClient) :
  ((CacheFactory.NewCacheManager (Config.setDefaults cfg) client).2 = None <->
   (CacheFactory.NewCacheManager cfg client).2 = None) /\
  ((CacheFactory.NewCacheManager cfg client).2 = None <->
   Config.Cache_Driver (Config.Cache cfg) = "memory" \/
   (Config.Cache_Driver (Config.Cache cfg) = "redis" /\ client <> None)) /\
  ((CacheFactory.NewCacheManager cfg client).1 = None <->
   (CacheFactory.NewCacheManager cfg client).2 <> None) /\
  (Config.Cache_Driver (Config.Cache cfg) = "memory" ->
   CacheFactory.NewCacheManager cfg client = CacheFactory.NewCacheManager cfg None /\
   (GoInt.in_range (2 * (Config.Cache_TTL (Config.Cache cfg) * 1000000000)) ->
    GoInt.in_range (Config.Cache_TTL (Config.Cache cfg) * 1000000000) ->
    (CacheFactory.NewCacheManager cfg client).1 =
      Some (CacheFactory.New
              (CacheFactory.NewGoCache
                 (Config.Cache_TTL (Config.Cache cfg) * 1000000000)
                 (2 * (Config.Cache_TTL (Config.Cache cfg) * 1000000000)))))) /\
  (Config.Cache_Driver (Config.Cache cfg) <> "memory" ->
   Config.Cache_Driver (Config.Cache cfg) <> "redis" ->
   CacheFactory.NewCacheManager cfg client =
     (None,
      Some (Errors.Foreign "fmt"
              ("unsupported cache driver: " +:+ Config.Cache_Driver (Config.Cache cfg))))).
Proof.
  unfold CacheFactory.NewCacheManager.
  change (Config.Cache_Driver (Config.Cache (Config.setDefaults cfg)))
    with (Config.Cache_Driver (Config.Cache cfg)).
  unfold CacheFactory.DriverRedis, CacheFactory.DriverMemory.
  destruct (String.eqb (Config.Cache_Driver (Config.Cache cfg)) "redis") eqn:Hredis;
    [|destruct (String.eqb (Config.Cache_Driver (Config.Cache cfg)) "memory") eqn:Hmemory].
  - apply String.eqb_eq in Hredis. rewrite Hredis.
    destruct client as [c|]; cbn [fst snd].
    + split; [tauto|]. split; [|split; [|split; [discriminate|]]].
      * split; [intros _; right; split; [reflexivity | discriminate] | reflexivity].
      * split; [discriminate | intros Hc; contradiction].
      * intros _ Hne. contradiction.
    + split; [tauto|]. split; [|split; [|split; [discriminate|]]].
      * split; [discriminate|]. intros [Hm | [_ Hc]]; [discriminate | contradiction].
      * split; [discriminate | reflexivity].
      * intros _ Hne. contradiction.
  - apply String.eqb_eq in Hmemory. rewrite Hmemory. cbn [fst snd].
    split; [tauto|]. split; [|split; [|split]].
    + split; [intros _; left; reflexivity | reflexivity].
    + split; [discriminate | intros Hc; contradiction].
    + intros _. split; [reflexivity|]. intros Hdouble Hsingle.
      unfold GoInt.mul, CacheFactory.Second.
      rewrite (wrap_in_range _ Hsingle).
      replace (Config.Cache_TTL (Config.Cache cfg) * 1000000000 * 2)
        with (2 * (Config.Cache_TTL (Config.Cache cfg) * 1000000000)) by lia.
      rewrite (wrap_in_range _ Hdouble). reflexivity.
    + intros Hne. contradiction.
  - apply String.eqb_neq in Hredis, Hmemory. cbn [fst snd].
    split; [tauto|]. split; [|split; [|split]].
    + split; [discriminate|]. intros [Hm | [Hr _]]; contradiction.
    + split; [discriminate | reflexivity].
    + intros Hm. contradiction.
    + intros _ _. cbn. rewrite string_app_empty. reflexivity.
Qed.
